(** * GymApp: the fitness tracker of [fitness.py]

    A shallow embedding of [fitness.py] and the properties of its prompt
    loops and of its per-day log file.

    Conventions of the embedding.
    - A Python [float] is an exact rational kept in lowest terms ([Q] under
      [Qred]); rounding, overflow and the special values [inf] and [nan]
      are outside the model.  A Python [int] is a [Z].
    - A [str] is a [string] of ASCII characters.
    - Where a statement must not rest on these two conventions, the
      callees they concern are parameters: [str.isdigit], [int] and
      [float] in [Builtins], [calculate_bmi] and the format [.2f] in
      [input_user_info_with].  Such a statement holds for every choice
      of them, and the embedding is the instance for the built-ins above.
    - The console is a pair of line lists: [stdin], the lines the user has
      typed and the program has not read yet, and [stdout], what was
      printed so far.  ANSI colour escapes and the blank line some prompts
      start with are left out of the printed text.
    - A run over a finite [stdin] ends in one of three ways: a value, an
      uncaught exception, or [Waiting], the state of a program blocked in
      [input()] with no line left to read.  The loops are [while True]
      loops; each of their rounds reads a line, which bounds the rounds
      over a finite [stdin].
    - The file system is a finite map from file paths to the rows written
      by [csv.writer]; a row is kept as its list of cells, not as text.
      The methods of the application take the log folder as given; how
      it is found and made is modelled on a state of its own, the paths
      that exist on the disk.
    - The clock is a sequence of readings, one taken by each call of
      [datetime.now()].
    - The order in which a Python [set] hands out its elements is a
      parameter ([SetOrder]): what is proved holds for every order. *)

From Stdlib Require Import ZArith QArith Qabs Qround String Ascii DecimalString List Lia Permutation Sorted.
From Stdlib Require DecimalNat.
From stdpp Require Import base strings gmap.
Import ListNotations.

Open Scope string_scope.
Open Scope list_scope.
Open Scope Z_scope.

(** * The program *)

(** ** Python built-ins on strings *)

Module Py.

Definition code (c : ascii) : Z := Z.of_nat (nat_of_ascii c).

(** [c in "0123456789"] *)
Definition is_digit (c : ascii) : bool := (48 <=? code c) && (code c <=? 57).

Definition digit_val (c : ascii) : Z := code c - 48.

(** White space skipped by [int()] and [float()] around an ASCII string:
    tab, line feed, vertical tab, form feed, carriage return and space.
    The separators 0x1c-0x1f are not skipped there, although
    [str.isspace] holds of them. *)
Definition is_space (c : ascii) : bool :=
  ((9 <=? code c) && (code c <=? 13)) || (code c =? 32).

(** [str.isdigit()]: non-empty and made of digits only. *)
Definition isdigit (s : string) : bool :=
  match list_ascii_of_string s with
  | [] => false
  | cs => forallb is_digit cs
  end.

(** [str.lower()] *)
Definition lower_ascii (c : ascii) : ascii :=
  if (65 <=? code c) && (code c <=? 90)
  then ascii_of_nat (nat_of_ascii c + 32) else c.

Fixpoint lower (s : string) : string :=
  match s with
  | EmptyString => EmptyString
  | String c s' => String (lower_ascii c) (lower s')
  end.

(** [str.split(sep)] for a one-character separator: every occurrence cuts,
    so the result is never empty and may hold empty strings. *)
Fixpoint split_aux (sep : ascii) (cur : list ascii) (cs : list ascii) : list string :=
  match cs with
  | [] => [string_of_list_ascii (rev cur)]
  | c :: cs' =>
      if Ascii.eqb c sep
      then string_of_list_ascii (rev cur) :: split_aux sep [] cs'
      else split_aux sep (c :: cur) cs'
  end.

Definition split (sep : ascii) (s : string) : list string :=
  split_aux sep [] (list_ascii_of_string s).

Fixpoint lstrip (cs : list ascii) : list ascii :=
  match cs with
  | c :: cs' => if is_space c then lstrip cs' else cs
  | [] => []
  end.

Definition strip (cs : list ascii) : list ascii := rev (lstrip (rev (lstrip cs))).

(** The grammar [digit (["_"] digit)*] shared by [int()] and [float()].
    [scan_digits acc n cs] is entered after a digit: [acc] is the value and
    [n] the number of the digits read so far.  It stops at the first
    character that continues no digit group and returns the rest. *)
Fixpoint scan_digits (acc : Z) (n : nat) (cs : list ascii) : Z * nat * list ascii :=
  match cs with
  | c :: cs' =>
      if is_digit c then scan_digits (10 * acc + digit_val c) (S n) cs'
      else if Ascii.eqb c "_" then
        match cs' with
        | d :: cs'' =>
            if is_digit d then scan_digits (10 * acc + digit_val d) (S n) cs''
            else (acc, n, cs)
        | [] => (acc, n, cs)
        end
      else (acc, n, cs)
  | [] => (acc, n, [])
  end.

Definition digitpart (cs : list ascii) : option (Z * nat * list ascii) :=
  match cs with
  | c :: cs' => if is_digit c then Some (scan_digits (digit_val c) 1 cs') else None
  | [] => None
  end.

(** An optional sign: the factor it stands for and the rest. *)
Definition sign (cs : list ascii) : Z * list ascii :=
  match cs with
  | c :: cs' =>
      if Ascii.eqb c "-" then (-1, cs')
      else if Ascii.eqb c "+" then (1, cs')
      else (1, cs)
  | [] => (1, [])
  end.

(** [int(s)] in base 10; [None] stands for [ValueError]. *)
Definition int (s : string) : option Z :=
  let (sg, cs) := sign (strip (list_ascii_of_string s)) in
  match digitpart cs with
  | Some (v, _, []) => Some (sg * v)
  | _ => None
  end.

(** The exponent of a float literal, [("e" | "E") [sign] digitpart], or
    nothing; [None] when what follows is neither. *)
Definition exponent (cs : list ascii) : option Z :=
  match cs with
  | [] => Some 0
  | c :: cs' =>
      if Ascii.eqb c "e" || Ascii.eqb c "E" then
        let (sg, ds) := sign cs' in
        match digitpart ds with
        | Some (v, _, []) => Some (sg * v)
        | _ => None
        end
      else None
  end.

Definition pow10 (e : Z) : Q :=
  if 0 <=? e then inject_Z (10 ^ e) else / inject_Z (10 ^ (- e)).

(** The value of [i.f] with [k] fraction digits, times ten to the [e]. *)
Definition decimal (sg i f : Z) (k : nat) (e : Z) : Q :=
  Qred (inject_Z sg * (inject_Z (i * 10 ^ Z.of_nat k + f) / inject_Z (10 ^ Z.of_nat k)) * pow10 e).

(** [float(s)]; [None] stands for [ValueError].  The literals are
    [[sign] (digitpart ["." [digitpart]] | "." digitpart) [exponent]]
    between optional white space. *)
Definition float (s : string) : option Q :=
  let (sg, cs) := sign (strip (list_ascii_of_string s)) in
  match digitpart cs with
  | Some (i, _, rest) =>
      match rest with
      | "."%char :: rest' =>
          match digitpart rest' with
          | Some (f, k, rest'') => option_map (decimal sg i f k) (exponent rest'')
          | None => option_map (decimal sg i 0 0) (exponent rest')
          end
      | _ => option_map (decimal sg i 0 0) (exponent rest)
      end
  | None =>
      match cs with
      | "."%char :: rest' =>
          match digitpart rest' with
          | Some (f, k, rest'') => option_map (decimal sg 0 f k) (exponent rest'')
          | None => None
          end
      | _ => None
      end
  end.

(** [a < b] and [a <= b] on floats, as booleans. *)
Definition ltb (a b : Q) : bool := negb (Qle_bool b a).
Definition leb (a b : Q) : bool := Qle_bool a b.

(** [str(n)] for a natural number, used by the numbered menus. *)
Definition str_nat (n : nat) : string := NilEmpty.string_of_uint (Nat.to_uint n).

(** [f"{x:.2f}"]: two decimals, rounded to the nearest hundredth, a tie
    going to the even one. *)
Definition pad2 (n : Z) : string :=
  (if n <? 10 then "0" else "") ++ str_nat (Z.to_nat n).

Definition hundredths (x : Q) : Z :=
  let y := (Qabs x * 100 + (1 # 2))%Q in
  let h := Qfloor y in
  if Qeq_bool (inject_Z h) y && Z.odd h then h - 1 else h.

Definition format_2f (x : Q) : string :=
  let h := hundredths x in
  (if Qle_bool 0 x then "" else "-")
    ++ str_nat (Z.to_nat (h / 100)) ++ "." ++ pad2 (h mod 100).

End Py.

(** ** The BMI calculator *)

Inductive exn := ValueError | ZeroDivisionError | KeyError | IndexError.

Definition exn_eqb (a b : exn) : bool :=
  match a, b with
  | ValueError, ValueError | ZeroDivisionError, ZeroDivisionError
  | KeyError, KeyError | IndexError, IndexError => true
  | _, _ => false
  end.

(** [calculate_bmi(weight, height_cm)], lines 6-18.  The only exception it
    can raise is the division by a zero [height_m ** 2]. *)
Definition calculate_bmi (weight height_cm : Q) : exn + (Q * string) :=
  let height_m := Qred (height_cm / 100) in
  if Qeq_bool (height_m ^ 2) 0 then inl ZeroDivisionError else
  let bmi := Qred (weight / height_m ^ 2) in
  let category :=
    if Py.ltb bmi 18.5 then "Underweight"
    else if Py.leb 18.5 bmi && Py.leb bmi 24.9 then "Normal weight"
    else if Py.leb 25 bmi && Py.leb bmi 29.9 then "Overweight"
    else "Obesity" in
  inr (bmi, category).

(** ** The world the program runs in *)

(** A cell of a CSV row, as handed to [csv.writer.writerow]. *)
Inductive cell := Str (s : string) | Float (x : Q) | Int (n : Z).

(** A reading of [datetime.now()]. *)
Record datetime := mkDatetime {
  year : nat; month : nat; day : nat; hour : nat; minute : nat; second : nat
}.

Definition two_digits (n : nat) : string :=
  (if Nat.ltb n 10 then "0" else "") ++ Py.str_nat n.

Definition four_digits (n : nat) : string :=
  (if Nat.ltb n 10 then "000" else if Nat.ltb n 100 then "00"
   else if Nat.ltb n 1000 then "0" else "") ++ Py.str_nat n.

(** [strftime("%Y-%m-%d")] *)
Definition strftime_date (t : datetime) : string :=
  four_digits (year t) ++ "-" ++ two_digits (month t) ++ "-" ++ two_digits (day t).

(** [strftime("%Y-%m-%d %H:%M:%S")] *)
Definition strftime_datetime (t : datetime) : string :=
  strftime_date t ++ " " ++ two_digits (hour t) ++ ":" ++ two_digits (minute t)
    ++ ":" ++ two_digits (second t).

Record world := mkWorld {
  stdin : list string;                  (* lines typed and not read yet *)
  stdout : list string;                 (* what was printed, oldest first *)
  files : gmap string (list (list cell)); (* regular files and their rows *)
  clock : nat -> datetime;              (* the successive readings of the clock *)
  ticks : nat;                          (* how many readings were taken *)
  system : string                       (* [platform.system()] *)
}.

(** How a run ends: with a value, with an uncaught exception, blocked in
    [input()], or with the rounds of a loop used up. *)
Inductive result (A : Type) :=
| Ok (a : A) (w : world)
| Raise (e : exn) (w : world)
| Waiting (w : world)
| OutOfFuel.
Arguments Ok {A} a w.
Arguments Raise {A} e w.
Arguments Waiting {A} w.
Arguments OutOfFuel {A}.

(** A statement or an expression with effects: from a world to the end of
    its run. *)
Definition M (A : Type) : Type := world -> result A.

Definition ret {A} (a : A) : M A := fun w => Ok a w.

Definition bind {A B} (m : M A) (k : A -> M B) : M B :=
  fun w =>
    match m w with
    | Ok a w' => k a w'
    | Raise e w' => Raise e w'
    | Waiting w' => Waiting w'
    | OutOfFuel => OutOfFuel
    end.

Declare Scope py_scope.
Delimit Scope py_scope with py.
Notation "x <- m ;; k" := (bind m (fun x => k))
  (at level 100, m at next level, right associativity) : py_scope.
Notation "m ;; k" := (bind m (fun _ => k))
  (at level 100, right associativity) : py_scope.
Open Scope py_scope.

(** [raise e] *)
Definition raise {A} (e : exn) : M A := fun w => Raise e w.

(** A pure result, or the exception it stands for. *)
Definition lift {A} (r : exn + A) : M A :=
  match r with inl e => raise e | inr a => ret a end.

(** The value of [int(s)] or [float(s)], or [ValueError]. *)
Definition lift_value_error {A} (o : option A) : M A :=
  match o with Some a => ret a | None => raise ValueError end.

(** [try: body  except e: handler] *)
Definition try_except {A} (body : M A) (e : exn) (handler : M A) : M A :=
  fun w =>
    match body w with
    | Raise e' w' => if exn_eqb e' e then handler w' else Raise e' w'
    | r => r
    end.

Definition print (s : string) : M unit :=
  fun w => Ok tt (mkWorld (stdin w) (stdout w ++ [s]) (files w) (clock w) (ticks w) (system w)).

(** [input(prompt)]: shows the prompt, then takes the next line; with no
    line left the program stays blocked there. *)
Definition input (prompt : string) : M string :=
  fun w =>
    let out := stdout w ++ [prompt] in
    match stdin w with
    | line :: rest => Ok line (mkWorld rest out (files w) (clock w) (ticks w) (system w))
    | [] => Waiting (mkWorld [] out (files w) (clock w) (ticks w) (system w))
    end.

(** [datetime.now()] *)
Definition now : M datetime :=
  fun w => Ok (clock w (ticks w))
              (mkWorld (stdin w) (stdout w) (files w) (clock w) (S (ticks w)) (system w)).

(** [platform.system()] *)
Definition platform_system : M string := fun w => Ok (system w) w.

(** [os.path.isfile(path)] *)
Definition os_path_isfile (path : string) : M bool :=
  fun w => Ok (bool_decide (is_Some (files w !! path))) w.

(** [open(path, 'a')]: the file is created empty when it is not there. *)
Definition open_append (path : string) : M unit :=
  fun w =>
    match files w !! path with
    | Some _ => Ok tt w
    | None => Ok tt (mkWorld (stdin w) (stdout w) (<[path := []]> (files w))
                             (clock w) (ticks w) (system w))
    end.

(** [csv.writer(file).writerow(r)] on a file opened for appending. *)
Definition writerow (path : string) (r : list cell) : M unit :=
  fun w => Ok tt (mkWorld (stdin w) (stdout w)
                          (<[path := default [] (files w !! path) ++ [r]]> (files w))
                          (clock w) (ticks w) (system w)).

(** [for x in l: f(x)] *)
Fixpoint for_each {X} (l : list X) (f : X -> M unit) : M unit :=
  match l with
  | [] => ret tt
  | x :: l' => f x ;; for_each l' f
  end.

(** [for x in l: acc = f(acc, x)], the loop over a list that updates a
    local variable. *)
Fixpoint for_fold {X St} (l : list X) (f : St -> X -> M St) (acc : St) : M St :=
  match l with
  | [] => ret acc
  | x :: l' => acc' <- f acc x ;; for_fold l' f acc'
  end.

(** [while True:] with a loop variable of type [St]: the body ends in
    [again s] (fall through or [continue]) or in [leave a] ([break] or
    [return]). *)
Fixpoint loop {St A} (fuel : nat) (body : St -> M (St + A)) (s : St) : M A :=
  match fuel with
  | O => fun _ => OutOfFuel
  | S n => fun w =>
      match body s w with
      | Ok (inl s') w' => loop n body s' w'
      | Ok (inr a) w' => Ok a w'
      | Raise e w' => Raise e w'
      | Waiting w' => Waiting w'
      | OutOfFuel => OutOfFuel
      end
  end.

(** Every loop of the program reads a line in each round, so the rounds
    are bounded by the lines at hand; [while_unfold] below shows that this
    bound is never what stops the loop. *)
Definition while_true {St A} (body : St -> M (St + A)) (s : St) : M A :=
  fun w => loop (S (length (stdin w))) body s w.

Definition again {St A} (s : St) : M (St + A) := ret (inl s).
Definition leave {St A} (a : A) : M (St + A) := ret (inr a).

(** [enumerate(l, start=i)] *)
Fixpoint enumerate {X} (i : nat) (l : list X) : list (nat * X) :=
  match l with
  | [] => []
  | x :: l' => (i, x) :: enumerate (S i) l'
  end.

(** [l[i]] with Python's negative indices. *)
Definition getitem {X} (l : list X) (i : Z) : M X :=
  let j := if i <? 0 then Z.of_nat (length l) + i else i in
  if j <? 0 then raise IndexError
  else match nth_error l (Z.to_nat j) with
       | Some x => ret x
       | None => raise IndexError
       end.

(** [d[k]] for a dict with string keys. *)
Fixpoint assoc {X} (d : list (string * X)) (k : string) : option X :=
  match d with
  | [] => None
  | (k', x) :: d' => if String.eqb k k' then Some x else assoc d' k
  end.

Definition dict_get {X} (d : list (string * X)) (k : string) : M X :=
  match assoc d k with
  | Some x => ret x
  | None => raise KeyError
  end.

(** [os.path.join(a, b)] for a relative [b] and an [a] without a drive
    letter: the separator of the platform comes between them unless [a]
    is empty or ends in a separator already. *)
Definition ends_with (seps : list ascii) (s : string) : bool :=
  match rev (list_ascii_of_string s) with
  | c :: _ => existsb (Ascii.eqb c) seps
  | [] => false
  end.

Definition os_path_join (sys a b : string) : string :=
  let windows := String.eqb sys "Windows" in
  let sep := if windows then "\"%char else "/"%char in
  let seps := if windows then ["\"%char; "/"%char] else ["/"%char] in
  if String.eqb a "" then b
  else if ends_with seps a then a ++ b
  else a ++ String sep b.

(** ** The application object *)

(** The dict returned by [input_user_info], with its four keys. *)
Record user_info_t := mkUserInfo {
  height_cm : Q; weight_kg : Q; BMI : Q; BMI_Category : string
}.

(** The attributes of a [FitnessApp] that the methods read.  The folder is
    taken as given here; [get_documents_path] and [ensure_folder_exists],
    which find and make it, come after the script. *)
Record FitnessApp := mkFitnessApp {
  folder_path : string;
  user_info : user_info_t;
  body_parts : list string;
  exercises : list (string * list string)
}.

Definition the_body_parts : list string := ["Chest"; "Back"; "Arms"; "Shoulders"; "Legs"].

Definition the_exercises : list (string * list string) :=
  [ ("Chest",
     ["Incline Smith Press"; "Close Grip Flat Press"; "Wide Grip Flat Press";
      "Decline Chest Press"; "Pec Deck Fly"; "High-To-Low Cable Fly";
      "Mid Cable Fly"; "Low-To-High Cable Fly"; "Bench Press"; "Incline Machine Press"]);
    ("Back",
     ["Lat Pull Down"; "Lat Pull Over"; "Seated Lat Pull Over";
      "Chest Supported Row"; "Chest Supported T-Bar Row"; "Rear Delts Fly";
      "Face Pulls"; "Hyper-extensions"; "Single Cable Lat Pull Over";
      "Barbell Row"; "Cable Rows"]);
    ("Arms",
     ["Bicep Curl (Free Weights)"; "Hammer Curls (Free Weights)"; "Bicep Curl (Cables)";
      "Bicep Curls (Machine)"; "Hammer Curls (Cable)"; "Tricep Pushdown (Machine)";
      "Tricep Pushdown (Rope)"; "Tricep Pushdown (V-Bar)"; "Tricep Pushdown (Easy Bar)";
      "Tricep Pushdown (Straight Bar)"; "Single Tricep Pushdown"; "Straight Bar Cable Curl";
      "Uni-Lateral Cable Curl"; "Wrist Curls"]);
    ("Shoulders",
     ["Lateral Raises (Free Weights)"; "Cable Lateral Raise"; "Machine Lateral Raise";
      "Shoulder Press Machine"; "Rear Delt Machine"; "Cable Rear Delt"]);
    ("Legs",
     ["Leg Press"; "Hack Squat"; "Bulgarian Split Squat"; "Leg Extension";
      "Hamstring Curl Machine"; "Hamstring Curl (Free Weights)"; "Abductors";
      "Standing Calf Raise"; "Seated Calf Raise"; "RDL's"]) ].

(** One round of the loop of [input_user_info], lines 73-83. *)
Definition user_info_round (_ : unit) : M (unit + user_info_t) :=
  try_except
    (h <- input "Enter your height in cm: " ;;
     height_cm <- lift_value_error (Py.float h) ;;
     k <- input "Enter your weight in kg: " ;;
     weight_kg <- lift_value_error (Py.float k) ;;
     if Py.ltb 0 height_cm && Py.ltb 0 weight_kg then
       r <- lift (calculate_bmi weight_kg height_cm) ;;
       let '(bmi, category) := r in
       print ("Your BMI is: " ++ Py.format_2f bmi ++ " (" ++ category ++ ")") ;;
       leave (mkUserInfo height_cm weight_kg bmi category)
     else
       print "Please enter positive values for height and weight." ;;
       again tt)
    ValueError
    (print "Invalid input. Please enter valid numbers." ;; again tt).

(** [input_user_info], lines 70-83. *)
Definition input_user_info : M user_info_t := while_true user_info_round tt.

(** [FitnessApp.__init__], lines 21-55, from the welcome line on. *)
Definition init (folder : string) : M FitnessApp :=
  print "--- Welcome to the Fitness Tracker App! ---" ;;
  info <- input_user_info ;;
  ret (mkFitnessApp folder info the_body_parts the_exercises).

Definition headers : list cell :=
  [Str "Date"; Str "Height (cm)"; Str "Weight (kg)"; Str "BMI"; Str "BMI Category";
   Str "Trained Body Part"; Str "Exercise"; Str "Weight (kg)"; Str "Reps"; Str "Sets"].

(** The four cells every row takes from [self.user_info]. *)
Definition profile_cells (u : user_info_t) : list cell :=
  [Float (height_cm u); Float (weight_kg u); Float (BMI u); Str (BMI_Category u)].

(** [[entry[0], ...user_info...] + entry[1:]], line 100. *)
Definition data_row (u : user_info_t) (entry : list cell) : M (list cell) :=
  e0 <- getitem entry 0 ;;
  ret ([e0] ++ profile_cells u ++ skipn 1 entry).

(** [save_fitness_data], lines 85-102. *)
Definition save_fitness_data (self : FitnessApp) (data : list (list cell)) : M unit :=
  t <- now ;;
  let today := strftime_date t in
  sys <- platform_system ;;
  let file_extension := if negb (String.eqb sys "Windows") then "csv" else "xls" in
  let filename := (today ++ "." ++ file_extension)%string in
  let file_path := os_path_join sys (folder_path self) filename in
  file_exists <- os_path_isfile file_path ;;
  open_append file_path ;;
  (if negb file_exists then writerow file_path headers else ret tt) ;;
  for_each data (fun entry =>
    r <- data_row (user_info self) entry ;; writerow file_path r) ;;
  print ("Data successfully saved to: " ++ file_path).

(** One round of the loop of [prompt_yes_no], lines 107-113. *)
Definition yes_no_round (message : string) (_ : unit) : M (unit + bool) :=
  line <- input (message ++ " (yes/y or no/n): ") ;;
  let response := Py.lower line in
  if existsb (String.eqb response) ["yes"; "y"] then leave true
  else if existsb (String.eqb response) ["no"; "n"] then leave false
  else
    print "Invalid input. Please enter 'yes', 'y', 'no', or 'n'." ;;
    again tt.

(** [prompt_yes_no], lines 104-113. *)
Definition prompt_yes_no (message : string) : M bool :=
  while_true (yes_no_round message) tt.

(** The order in which a Python [set] of strings hands out its elements
    depends on the hashes of the process.  All that is known of
    [list(set(l))] is that it holds the elements of [l], each once. *)
Class SetOrder := {
  set_iter : list string -> list string;
  set_iter_NoDup : forall l, List.NoDup (set_iter l);
  set_iter_In : forall l x, List.In x (set_iter l) <-> List.In x l
}.

(** One such order, the order of first occurrence. *)
Fixpoint first_seen (seen l : list string) : list string :=
  match l with
  | [] => []
  | x :: l' =>
      if existsb (String.eqb x) seen then first_seen seen l'
      else x :: first_seen (x :: seen) l'
  end.

(** [sorted(l, key=int)]: the keys are computed first, then the list is
    sorted by a stable sort. *)
Fixpoint keyed (l : list string) : option (list (Z * string)) :=
  match l with
  | [] => Some []
  | s :: l' =>
      match Py.int s, keyed l' with
      | Some k, Some r => Some ((k, s) :: r)
      | _, _ => None
      end
  end.

Fixpoint insert_key (x : Z * string) (l : list (Z * string)) : list (Z * string) :=
  match l with
  | [] => [x]
  | y :: l' => if fst x <=? fst y then x :: y :: l' else y :: insert_key x l'
  end.

Definition sorted_key_int (l : list string) : option (list string) :=
  option_map (fun kl => map snd (fold_right insert_key [] kl)) (keyed l).

(** [s.isdigit() and 1 <= int(s) <= n], the test of lines 125 and 132. *)
Definition valid_choice (s : string) (n : nat) : bool :=
  Py.isdigit s &&
  match Py.int s with
  | Some k => (1 <=? k) && (k <=? Z.of_nat n)
  | None => false
  end.

(** [items[int(s) - 1]], lines 126 and 133. *)
Definition chosen {X} (items : list X) (s : string) : M X :=
  k <- lift_value_error (Py.int s) ;; getitem items (k - 1).

(** One round of the loop of lines 134-144.  The loop has no variable of
    its own: [weight], [reps] and [sets] are only read after it, from the
    round that left it. *)
Definition weight_reps_sets_round (_ : unit) : M (unit + Q * Z * Z) :=
  try_except
    (a <- input "Enter the weight used (in kg): " ;;
     weight <- lift_value_error (Py.float a) ;;
     b <- input "Enter the number of reps: " ;;
     reps <- lift_value_error (Py.int b) ;;
     c <- input "Enter the number of sets: " ;;
     sets <- lift_value_error (Py.int c) ;;
     if Py.ltb 0 weight && (0 <? reps) && (0 <? sets) then leave (weight, reps, sets)
     else
       print "Please enter positive numbers for weight, reps, and sets." ;;
       again tt)
    ValueError
    (print "Invalid input. Please enter valid numbers." ;; again tt).

(** The loop of lines 134-144: weight, reps and sets of one exercise. *)
Definition input_weight_reps_sets : M (Q * Z * Z) :=
  while_true weight_reps_sets_round tt.

(** One round of the loop of lines 127-149 for the body part [part]. *)
Definition exercise_round (self : FitnessApp) (part : string)
    (exercises_data : list (list cell)) : M (list (list cell) + list (list cell)) :=
  print ("--- Select Exercises for " ++ part ++ " ---") ;;
  items <- dict_get (exercises self) part ;;
  for_each (enumerate 1 items) (fun ix =>
    print (Py.str_nat (fst ix) ++ ". " ++ snd ix)) ;;
  ex_choice <- input "Enter the number of the exercise you performed: " ;;
  if valid_choice ex_choice (length items) then
    exercise <- chosen items ex_choice ;;
    wrs <- input_weight_reps_sets ;;
    let '(weight, reps, sets) := wrs in
    t <- now ;;
    let exercises_data :=
      exercises_data ++ [[Str (strftime_datetime t); Str part; Str exercise;
                          Float weight; Int reps; Int sets]] in
    more <- prompt_yes_no "Add another exercise for the same body part?" ;;
    if negb more then leave exercises_data else again exercises_data
  else again exercises_data.

(** The body of the [for] of lines 124-151 for one token. *)
Definition select_part (self : FitnessApp) (exercises_data : list (list cell))
    (part_index : string) : M (list (list cell)) :=
  if valid_choice part_index (length (body_parts self)) then
    part <- chosen (body_parts self) part_index ;;
    while_true (exercise_round self part) exercises_data
  else
    print "Invalid body part selection. Please select a valid number." ;;
    ret exercises_data.

(** [input_body_parts_and_exercises], lines 115-152. *)
Definition input_body_parts_and_exercises `{SetOrder} (self : FitnessApp)
    : M (list (list cell)) :=
  print "--- Select Body Parts You Trained ---" ;;
  for_each (enumerate 1 (body_parts self)) (fun ip =>
    print (Py.str_nat (fst ip) ++ ". " ++ snd ip)) ;;
  parts_choice <- input "Enter the numbers of the body parts you trained, separated by commas: " ;;
  selected_parts <- lift_value_error (sorted_key_int (set_iter (Py.split "," parts_choice))) ;;
  for_fold selected_parts (select_part self) [].

(** One round of [main_loop], lines 156-163; [if data:] is the test that
    the list is not empty. *)
Definition main_round `{SetOrder} (self : FitnessApp) (_ : unit) : M (unit + unit) :=
  data <- input_body_parts_and_exercises self ;;
  match data with
  | _ :: _ =>
      save_fitness_data self data ;;
      another <- prompt_yes_no "Would you like to enter exercises for another set of body parts?" ;;
      if negb another then leave tt else again tt
  | [] =>
      print "Something went wrong, please start over." ;;
      again tt
  end.

(** [main_loop], lines 154-163. *)
Definition main_loop `{SetOrder} (self : FitnessApp) : M unit :=
  while_true (main_round self) tt.

(** The script, lines 165-167. *)
Definition main `{SetOrder} (folder : string) : M unit :=
  app <- init folder ;; main_loop app.

(** ** The callees as parameters *)

(** One round of the loop of [input_user_info], lines 73-83, with its
    callees as parameters: [float] for the built-in, [calc] for
    [calculate_bmi] and [fmt] for the format [.2f]. *)
Definition user_info_round_with (float : string -> option Q)
    (calc : Q -> Q -> exn + (Q * string)) (fmt : Q -> string)
    (_ : unit) : M (unit + user_info_t) :=
  try_except
    (h <- input "Enter your height in cm: " ;;
     height_cm <- lift_value_error (float h) ;;
     k <- input "Enter your weight in kg: " ;;
     weight_kg <- lift_value_error (float k) ;;
     if Py.ltb 0 height_cm && Py.ltb 0 weight_kg then
       r <- lift (calc weight_kg height_cm) ;;
       let '(bmi, category) := r in
       print ("Your BMI is: " ++ fmt bmi ++ " (" ++ category ++ ")") ;;
       leave (mkUserInfo height_cm weight_kg bmi category)
     else
       print "Please enter positive values for height and weight." ;;
       again tt)
    ValueError
    (print "Invalid input. Please enter valid numbers." ;; again tt).

(** [input_user_info], lines 70-83, with the same parameters. *)
Definition input_user_info_with (float : string -> option Q)
    (calc : Q -> Q -> exn + (Q * string)) (fmt : Q -> string) : M user_info_t :=
  while_true (user_info_round_with float calc fmt) tt.

(** The built-ins [str.isdigit], [int] and [float] as parameters; [None]
    stands for the [ValueError] of [int] and [float].  Nothing is assumed
    of them: a string that [isdigit] accepts may be one that [int]
    rejects. *)
Class Builtins := {
  b_isdigit : string -> bool;
  b_int : string -> option Z;
  b_float : string -> option Q
}.

(** The built-ins of the embedding, on ASCII strings. *)
Definition ascii_builtins : Builtins :=
  {| b_isdigit := Py.isdigit; b_int := Py.int; b_float := Py.float |}.

(** [sorted(l, key=int)] *)
Fixpoint keyed_with `{Builtins} (l : list string) : option (list (Z * string)) :=
  match l with
  | [] => Some []
  | s :: l' =>
      match b_int s, keyed_with l' with
      | Some k, Some r => Some ((k, s) :: r)
      | _, _ => None
      end
  end.

Definition sorted_key_int_with `{Builtins} (l : list string) : option (list string) :=
  option_map (fun kl => map snd (fold_right insert_key [] kl)) (keyed_with l).

(** [s.isdigit() and 1 <= int(s) <= n], the test of lines 125 and 132:
    [int] is called when [isdigit] holds, only then, and nothing catches
    what it raises. *)
Definition valid_choice_with `{Builtins} (s : string) (n : nat) : M bool :=
  if b_isdigit s then
    k <- lift_value_error (b_int s) ;;
    ret ((1 <=? k) && (k <=? Z.of_nat n))
  else ret false.

(** [items[int(s) - 1]], lines 126 and 133. *)
Definition chosen_with `{Builtins} {X} (items : list X) (s : string) : M X :=
  k <- lift_value_error (b_int s) ;; getitem items (k - 1).

(** One round of the loop of lines 134-144. *)
Definition weight_reps_sets_round_with `{Builtins} (_ : unit) : M (unit + Q * Z * Z) :=
  try_except
    (a <- input "Enter the weight used (in kg): " ;;
     weight <- lift_value_error (b_float a) ;;
     b <- input "Enter the number of reps: " ;;
     reps <- lift_value_error (b_int b) ;;
     c <- input "Enter the number of sets: " ;;
     sets <- lift_value_error (b_int c) ;;
     if Py.ltb 0 weight && (0 <? reps) && (0 <? sets) then leave (weight, reps, sets)
     else
       print "Please enter positive numbers for weight, reps, and sets." ;;
       again tt)
    ValueError
    (print "Invalid input. Please enter valid numbers." ;; again tt).

Definition input_weight_reps_sets_with `{Builtins} : M (Q * Z * Z) :=
  while_true weight_reps_sets_round_with tt.

(** One round of the loop of lines 127-149 for the body part [part]. *)
Definition exercise_round_with `{Builtins} (self : FitnessApp) (part : string)
    (exercises_data : list (list cell)) : M (list (list cell) + list (list cell)) :=
  print ("--- Select Exercises for " ++ part ++ " ---") ;;
  items <- dict_get (exercises self) part ;;
  for_each (enumerate 1 items) (fun ix =>
    print (Py.str_nat (fst ix) ++ ". " ++ snd ix)) ;;
  ex_choice <- input "Enter the number of the exercise you performed: " ;;
  valid <- valid_choice_with ex_choice (length items) ;;
  if valid then
    exercise <- chosen_with items ex_choice ;;
    wrs <- input_weight_reps_sets_with ;;
    let '(weight, reps, sets) := wrs in
    t <- now ;;
    let exercises_data :=
      exercises_data ++ [[Str (strftime_datetime t); Str part; Str exercise;
                          Float weight; Int reps; Int sets]] in
    more <- prompt_yes_no "Add another exercise for the same body part?" ;;
    if negb more then leave exercises_data else again exercises_data
  else again exercises_data.

(** The body of the [for] of lines 124-151 for one token. *)
Definition select_part_with `{Builtins} (self : FitnessApp)
    (exercises_data : list (list cell)) (part_index : string) : M (list (list cell)) :=
  valid <- valid_choice_with part_index (length (body_parts self)) ;;
  if valid then
    part <- chosen_with (body_parts self) part_index ;;
    while_true (exercise_round_with self part) exercises_data
  else
    print "Invalid body part selection. Please select a valid number." ;;
    ret exercises_data.

(** [input_body_parts_and_exercises], lines 115-152. *)
Definition input_body_parts_and_exercises_with `{Builtins} `{SetOrder}
    (self : FitnessApp) : M (list (list cell)) :=
  print "--- Select Body Parts You Trained ---" ;;
  for_each (enumerate 1 (body_parts self)) (fun ip =>
    print (Py.str_nat (fst ip) ++ ". " ++ snd ip)) ;;
  parts_choice <- input "Enter the numbers of the body parts you trained, separated by commas: " ;;
  selected_parts <-
    lift_value_error (sorted_key_int_with (set_iter (Py.split "," parts_choice))) ;;
  for_fold selected_parts (select_part_with self) [].

(** One round of [main_loop], lines 156-163. *)
Definition main_round_with `{Builtins} `{SetOrder} (self : FitnessApp) (_ : unit)
    : M (unit + unit) :=
  data <- input_body_parts_and_exercises_with self ;;
  match data with
  | _ :: _ =>
      save_fitness_data self data ;;
      another <- prompt_yes_no "Would you like to enter exercises for another set of body parts?" ;;
      if negb another then leave tt else again tt
  | [] =>
      print "Something went wrong, please start over." ;;
      again tt
  end.

(** [main_loop], lines 154-163. *)
Definition main_loop_with `{Builtins} `{SetOrder} (self : FitnessApp) : M unit :=
  while_true (main_round_with self) tt.

(** ** The log folder *)

(** The paths that exist on the disk, files and directories alike, and
    what was printed. *)
Record disk := mkDisk { paths : gset string; printed : list string }.

(** [get_documents_path], lines 57-60; [home] is what
    [os.path.expanduser("~")] gives. *)
Definition get_documents_path (sys home : string) : string :=
  os_path_join sys home "Documents".

(** [os.path.exists(p)] *)
Definition os_path_exists (p : string) (d : disk) : bool := bool_decide (p ∈ paths d).

(** [os.makedirs(p)] for a path that does not exist: the directory and
    those above it that were missing, [above], are there afterwards. *)
Definition os_makedirs (above : gset string -> string -> list string) (p : string)
    (d : disk) : disk :=
  mkDisk ({[p]} ∪ list_to_set (above (paths d) p) ∪ paths d) (printed d).

(** [ensure_folder_exists], lines 62-68. *)
Definition ensure_folder_exists (sys : string)
    (above : gset string -> string -> list string) (documents_path : string)
    (d : disk) : string * disk :=
  let folder_path := os_path_join sys documents_path "Gym Progress" in
  if negb (os_path_exists folder_path d) then
    let d1 := os_makedirs above folder_path d in
    (folder_path,
     mkDisk (paths d1)
       (printed d1 ++ [("Successfully created directory: " ++ folder_path)%string]))
  else (folder_path, d).

(** * The vocabulary of the statements *)

(** ** Runs and what they change *)

(** [wp m Q X w]: the run of [m] from [w] does not exhaust its fuel, and
    its end satisfies [Q] when it is a value and [X] when it is an
    exception ([Some e]) or a blocked [input()] ([None]). *)
Definition wp {A} (m : M A) (Q : A -> world -> Prop)
    (X : option exn -> world -> Prop) (w : world) : Prop :=
  match m w with
  | Ok a w' => Q a w'
  | Raise e w' => X (Some e) w'
  | Waiting w' => X None w'
  | OutOfFuel => False
  end.

(** A loop body makes progress when every round that goes on has read a
    line. *)
Definition progress {St A} (body : St -> M (St + A)) : Prop :=
  forall s w s' w', body s w = Ok (inl s') w' ->
    (length (stdin w') < length (stdin w))%nat.

(** The world a run ended in, however it ended. *)
Definition end_world {A} (r : result A) : option world :=
  match r with
  | Ok _ w | Raise _ w | Waiting w => Some w
  | OutOfFuel => None
  end.

(** The world [w] once the lines [o] are printed, with [ins] left to read. *)
Definition console (ins o : list string) (w : world) : world :=
  mkWorld ins (stdout w ++ o) (files w) (clock w) (ticks w) (system w).

(** [grown w w']: what [w] had printed is still there in [w'], in front. *)
Definition grown (w w' : world) : Prop := exists o, stdout w' = stdout w ++ o.

(** [quiet w w']: from [w] to [w'] no file was touched, the clock and the
    platform are the same, what was printed is still there, and no line
    came back to [stdin]. *)
Definition quiet (w w' : world) : Prop :=
  files w' = files w /\ clock w' = clock w /\
  (system w' = system w /\ grown w w') /\
  (length (stdin w') <= length (stdin w))%nat.

(** [reads w w']: quiet, and at least one line was read. *)
Definition reads (w w' : world) : Prop :=
  files w' = files w /\ clock w' = clock w /\
  (system w' = system w /\ grown w w') /\
  (length (stdin w') < length (stdin w))%nat.

(** A computation is quiet when every end of it is; it is reading when,
    besides, it cannot return without having read a line. *)
Definition quietly {A} (m : M A) : Prop :=
  forall w, wp m (fun _ w' => quiet w w') (fun _ w' => quiet w w') w.

Definition reading {A} (m : M A) : Prop :=
  forall w, wp m (fun _ w' => reads w w') (fun _ w' => quiet w w') w.

(** ** What the program prints *)

(** The texts of the prompts and messages, without their colours. *)
Definition welcome := "--- Welcome to the Fitness Tracker App! ---".
Definition height_prompt := "Enter your height in cm: ".
Definition profile_weight_prompt := "Enter your weight in kg: ".
Definition parts_prompt :=
  "Enter the numbers of the body parts you trained, separated by commas: ".
Definition invalid_part := "Invalid body part selection. Please select a valid number.".
Definition exercise_prompt := "Enter the number of the exercise you performed: ".
Definition weight_prompt := "Enter the weight used (in kg): ".
Definition reps_prompt := "Enter the number of reps: ".
Definition sets_prompt := "Enter the number of sets: ".
Definition invalid_numbers := "Invalid input. Please enter valid numbers.".
Definition not_positive := "Please enter positive numbers for weight, reps, and sets.".
Definition yes_no_suffix := " (yes/y or no/n): ".
Definition invalid_yes_no := "Invalid input. Please enter 'yes', 'y', 'no', or 'n'.".
Definition another_exercise := "Add another exercise for the same body part?".
Definition another_set := "Would you like to enter exercises for another set of body parts?".
Definition start_over := "Something went wrong, please start over.".

(** The lines of a numbered menu, [f"{i}. {item}"] from 1 on. *)
Definition numbered (items : list string) : list string :=
  map (fun ix => (Py.str_nat (fst ix) ++ ". " ++ snd ix)%string) (enumerate 1 items).

(** What is printed up to the line of body parts. *)
Definition parts_menu (self : FitnessApp) : list string :=
  ["--- Select Body Parts You Trained ---"] ++ numbered (body_parts self)
  ++ [parts_prompt].

(** What is printed up to the number of an exercise of [part]. *)
Definition exercise_menu (part : string) (items : list string) : list string :=
  [("--- Select Exercises for " ++ part ++ " ---")%string] ++ numbered items
  ++ [exercise_prompt].

(** ** Records, rows and files *)

(** An entry of [exercises_data] as line 145 builds it, with the three
    numbers positive. *)
Definition is_record (entry : list cell) : Prop :=
  exists ts part exercise x r s,
    entry = [Str ts; Str part; Str exercise; Float x; Int r; Int s] /\
    (0 < x)%Q /\ 0 < r /\ 0 < s.

(** The records a round of the exercise loop ends with, whether it goes on
    or leaves. *)
Definition round_data (r : list (list cell) + list (list cell)) : list (list cell) :=
  match r with inl d => d | inr d => d end.

(** What follows a valid exercise number in a round of lines 127-149. *)
Definition record_exercise (part exercise : string) (exercises_data : list (list cell))
    : M (list (list cell) + list (list cell)) :=
  wrs <- input_weight_reps_sets ;;
  let '(weight, reps, sets) := wrs in
  t <- now ;;
  let exercises_data :=
    exercises_data ++ [[Str (strftime_datetime t); Str part; Str exercise;
                        Float weight; Int reps; Int sets]] in
  more <- prompt_yes_no another_exercise ;;
  if negb more then leave exercises_data else again exercises_data.

(** The row of line 100 for an entry that has a first cell. *)
Definition profile_row (u : user_info_t) (entry : list cell) : list cell :=
  match entry with
  | e0 :: rest => e0 :: profile_cells u ++ rest
  | [] => []
  end.

(** A data row of the log: the four cells of the profile [u] after the
    time stamp, then the cells of a record with positive numbers. *)
Definition is_log_row (u : user_info_t) (row : list cell) : Prop :=
  exists ts part exercise x r s,
    row = [Str ts; Float (height_cm u); Float (weight_kg u); Float (BMI u);
           Str (BMI_Category u); Str part; Str exercise; Float x; Int r; Int s] /\
    (0 < x)%Q /\ 0 < r /\ 0 < s.

(** The rows of a file; none when the file is not there. *)
Definition content (fs : gmap string (list (list cell))) (path : string) : list (list cell) :=
  default [] (fs !! path).

(** [logged u fs fs']: from [fs] to [fs'] every file only grew, by header
    rows and data rows of the profile [u]. *)
Definition logged (u : user_info_t) (fs fs' : gmap string (list (list cell))) : Prop :=
  forall path, exists added,
    content fs' path = content fs path ++ added /\
    Forall (fun row => row = headers \/ is_log_row u row) added.

(** The extension of line 88. *)
Definition log_extension (sys : string) : string :=
  if negb (String.eqb sys "Windows") then "csv" else "xls".

(** The file [save_fitness_data] writes to when it is called in [w]. *)
Definition log_path (self : FitnessApp) (w : world) : string :=
  os_path_join (system w) (folder_path self)
    (strftime_date (clock w (ticks w)) ++ "." ++ log_extension (system w)).

(** The header a call writes before its rows: one when the file is not
    there, none when it is. *)
Definition header_if_new (fs : gmap string (list (list cell))) (path : string)
    : list (list cell) :=
  if bool_decide (is_Some (fs !! path)) then [] else [headers].

(** Calls of [save_fitness_data] in a row, one per batch of entries. *)
Definition saves (self : FitnessApp) (ds : list (list (list cell))) : M unit :=
  for_each ds (save_fitness_data self).

(** What a row of calls writes to the file of the day: the header, if the
    file is not there at the first call, then the rows of every batch. *)
Definition written (self : FitnessApp) (ds : list (list (list cell))) (w : world)
    : list (list cell) :=
  match ds with
  | [] => []
  | _ :: _ =>
      header_if_new (files w) (log_path self w)
      ++ concat (map (map (profile_row (user_info self))) ds)
  end.

(** Every reading of the clock falls on the day of the next one. *)
Definition same_day (w : world) : Prop :=
  forall n, strftime_date (clock w n) = strftime_date (clock w (ticks w)).

(** Equality of cells is decidable. *)
#[local] Instance Q_eq_dec : EqDecision Q.
Proof. solve_decision. Defined.

#[local] Instance cell_eq_dec : EqDecision cell.
Proof. solve_decision. Defined.

(** How many of the rows are the header row. *)
Definition count_headers (rows : list (list cell)) : nat :=
  length (List.filter (fun r => bool_decide (r = headers)) rows).

(** ** The selection *)

(** The key [sorted] gives a token that [int] accepts. *)
Definition int_key (s : string) : Z :=
  match Py.int s with
  | Some k => k
  | None => 0
  end.

(** The order [sorted] sorts the keyed tokens by. *)
Definition key_le (a b : Z * string) : Prop := fst a <= fst b.

(** ** The exercise loop as the spec reads it *)

(** The reading of the loop of lines 127-149 under which an invalid
    exercise number ends the loop: the records are returned as they were
    and the next line belongs to what follows the loop. *)
Definition invalid_exercise_index_leaves_the_loop : Prop :=
  forall self part items data w line rest,
    assoc (exercises self) part = Some items ->
    stdin w = line :: rest ->
    valid_choice line (length items) = false ->
    exists w', while_true (exercise_round self part) data w = Ok data w' /\
               stdin w' = rest.

(** ** The profile and the yes/no prompt *)

Definition profile_not_positive := "Please enter positive values for height and weight.".

(** The answer a line stands for at lines 108-112, if it stands for one. *)
Definition yes_no_answer (line : string) : option bool :=
  if existsb (String.eqb (Py.lower line)) ["yes"; "y"] then Some true
  else if existsb (String.eqb (Py.lower line)) ["no"; "n"] then Some false
  else None.

(** What the prompt prints for the lines it rejects. *)
Definition rejected_answers (message : string) (pre : list string) : list string :=
  concat (map (fun _ => [(message ++ yes_no_suffix)%string; invalid_yes_no]) pre).

(** ** The clock, the catalogue and the order of the records *)

(** A computation is steady when no end of it has taken a reading of the
    clock. *)
Definition steady {A} (m : M A) : Prop :=
  forall w w', end_world (m w) = Some w' -> ticks w' = ticks w.

(** An entry for an exercise of the catalogue of [self]: a body part of
    the menu and an exercise of the list of that part. *)
Definition in_catalogue (self : FitnessApp) (entry : list cell) : Prop :=
  exists ts part exercise items x r s,
    entry = [Str ts; Str part; Str exercise; Float x; Int r; Int s] /\
    List.In part (body_parts self) /\
    assoc (exercises self) part = Some items /\ List.In exercise items.

(** The entries start with the readings the clock gave from the [n]-th
    on, one reading for each entry, in their order. *)
Fixpoint stamped (clk : nat -> datetime) (n : nat) (data : list (list cell)) : Prop :=
  match data with
  | [] => True
  | entry :: data' =>
      hd_error entry = Some (Str (strftime_datetime (clk n))) /\
      stamped clk (S n) data'
  end.

(** From [data] in [w] to [d] in [w']: entries of the catalogue were
    added at the end, one for each reading of the clock taken since. *)
Definition collected (self : FitnessApp) (w : world) (data d : list (list cell))
    (w' : world) : Prop :=
  clock w' = clock w /\
  exists new, d = data ++ new /\ ticks w' = (ticks w + length new)%nat /\
    stamped (clock w) (ticks w) new /\ Forall (in_catalogue self) new.

(** The body part a token selects, when it selects one (lines 125-126). *)
Definition part_of_token (self : FitnessApp) (tok : string) : option string :=
  if valid_choice tok (length (body_parts self)) then
    match Py.int tok with
    | Some k => nth_error (body_parts self) (Z.to_nat (k - 1))
    | None => None
    end
  else None.

(** The records a token stands for in what a pass returns: none for a
    token that selects no body part, and at least one, all of them of its
    body part, for a token that selects one. *)
Definition block_of (self : FitnessApp) (tok : string) (block : list (list cell)) : Prop :=
  match part_of_token self tok with
  | Some part => block <> [] /\ Forall (fun e => nth_error e 1 = Some (Str part)) block
  | None => block = []
  end.

(** ** Dates and paths *)

(** No character of the string is a dash; so it is for the digits that
    [strftime] prints between the dashes of a date. *)
Fixpoint no_dash (s : string) : Prop :=
  match s with
  | EmptyString => True
  | String c s' => c <> "-"%char /\ no_dash s'
  end.

(** Reading back a number printed with leading zeros. *)
Definition nat_of_digits (s : string) : option nat :=
  option_map Nat.of_uint (NilEmpty.uint_of_string s).

(** The separators of the platform. *)
Definition separator (sys : string) : ascii :=
  if String.eqb sys "Windows" then "\"%char else "/"%char.

Definition separators (sys : string) : list ascii :=
  if String.eqb sys "Windows" then ["\"%char; "/"%char] else ["/"%char].

(** ** What a pass can raise *)

(** What the pass can raise once the tokens are sorted: the exceptions of
    a round of the exercise loop of a body part of the menu. *)
Definition raised_in_a_round `{Builtins} (self : FitnessApp) (e : exn) (w' : world) : Prop :=
  (e = KeyError /\
   exists part, List.In part (body_parts self) /\ assoc (exercises self) part = None) \/
  (e = ValueError /\
   exists line part items out,
     b_isdigit line = true /\ b_int line = None /\
     List.In part (body_parts self) /\
     assoc (exercises self) part = Some items /\
     stdout w' = out ++ exercise_menu part items).

(** ** Worlds and objects of the examples *)

(** A world to run examples in: nothing printed yet, no file, a clock
    stopped on 3 November 2026 at 09:05:07, not on Windows. *)
Definition fresh (ins : list string) : world :=
  mkWorld ins [] ∅ (fun _ => mkDatetime 2026 11 3 9 5 7) 0 "Linux".

(** The application object of the examples: the profile of a user of
    180 cm and 80 kg, and the catalogue of the program. *)
Definition example_app : FitnessApp :=
  mkFitnessApp "gym" (mkUserInfo 180 80 (2000 # 81) "Normal weight")
    the_body_parts the_exercises.

(** The lines typed in the end-to-end scenario. *)
Definition scenario : list string := ["180"; "80"; "1"; "1"; "60"; "10"; "3"; "n"; "n"].

(** The application object the scenario starts with, in [folder]. *)
Definition scenario_app (folder : string) : FitnessApp :=
  mkFitnessApp folder (mkUserInfo 180 80 (2000 # 81) "Normal weight")
    the_body_parts the_exercises.

(** Built-ins for the examples: those of the embedding, with an [isdigit]
    that also accepts the superscript two, which [int] rejects. *)
Definition superscript_builtins : Builtins :=
  {| b_isdigit := fun s => Py.isdigit s || String.eqb s "²";
     b_int := Py.int; b_float := Py.float |}.

(** * The built-ins at work *)

Example int_examples :
  map Py.int ["2"; "99"; " 7 "; "-1"; "+3"; "1_0"; "007"; "a"; ""; "1.0"; "1__0"; "_1"] =
  [Some 2; Some 99; Some 7; Some (-1); Some 3; Some 10; Some 7; None; None; None; None; None].
Proof. reflexivity. Qed.

Example float_examples :
  map Py.float ["180"; "80.5"; ".5"; "5."; "1e2"; "2.5E-1"; "-3"; "abc"; ""; "."; "1 2"] =
  [Some 180; Some (161 # 2); Some (1 # 2); Some 5; Some 100; Some (1 # 4); Some (-3);
   None; None; None; None]%Q.
Proof. reflexivity. Qed.

Example split_examples :
  Py.split "," "3,1,1,5" = ["3"; "1"; "1"; "5"] /\
  Py.split "," "" = [""] /\ Py.split "," "1," = ["1"; ""].
Proof. repeat split. Qed.

Example format_examples :
  map Py.format_2f [2000 # 81; 18.5; 30; 0.125; 0.375; -1.5]%Q =
  ["24.69"; "18.50"; "30.00"; "0.12"; "0.38"; "-1.50"].
Proof. reflexivity. Qed.


(** * Reasoning about runs *)

Arguments Py.int : simpl never.
Arguments Py.float : simpl never.
Arguments Py.isdigit : simpl never.
Arguments Py.lower : simpl never.
Arguments Py.split : simpl never.
Arguments Py.format_2f : simpl never.
Arguments Py.str_nat : simpl never.
Arguments valid_choice : simpl never.
Arguments strftime_date : simpl never.
Arguments strftime_datetime : simpl never.
Arguments os_path_join : simpl never.
Arguments String.append : simpl never.
Arguments while_true : simpl never.

Lemma wp_mono {A} (m : M A) (Q Q' : A -> world -> Prop) (X X' : option exn -> world -> Prop) w :
  wp m Q X w ->
  (forall a w', Q a w' -> Q' a w') ->
  (forall e w', X e w' -> X' e w') ->
  wp m Q' X' w.
Proof. unfold wp. destruct (m w); auto. Qed.

Lemma wp_conj {A} (m : M A) Q1 Q2 X1 X2 w :
  wp m Q1 X1 w -> wp m Q2 X2 w ->
  wp m (fun a w' => Q1 a w' /\ Q2 a w') (fun e w' => X1 e w' /\ X2 e w') w.
Proof. unfold wp. destruct (m w); auto. Qed.

Lemma wp_bind {A B} (m : M A) (k : A -> M B) Q X w :
  wp m (fun a w' => wp (k a) Q X w') X w -> wp (bind m k) Q X w.
Proof. unfold wp, bind. destruct (m w); auto. Qed.

Lemma wp_bind_inv {A B} (m : M A) (k : A -> M B) Q X w :
  wp (bind m k) Q X w -> wp m (fun a w' => wp (k a) Q X w') X w.
Proof. unfold wp, bind. destruct (m w); auto. Qed.

Lemma wp_try_except {A} (body handler : M A) e Q X w :
  wp body Q
     (fun oe w' =>
        match oe with
        | Some e' => if exn_eqb e' e then wp handler Q X w' else X (Some e') w'
        | None => X None w'
        end) w ->
  wp (try_except body e handler) Q X w.
Proof.
  unfold wp at 1. unfold wp at 2. unfold try_except.
  destruct (body w) as [a w'|e' w'|w'|]; auto.
  destruct (exn_eqb e' e); auto.
Qed.

Lemma wp_for_each {X0} (l : list X0) (f : X0 -> M unit)
    (I : world -> Prop) (X : option exn -> world -> Prop) :
  (forall x w, In x l -> I w -> wp (f x) (fun _ w' => I w') X w) ->
  forall w, I w -> wp (for_each l f) (fun _ w' => I w') X w.
Proof.
  induction l as [|x l IH]; intros Hf w Hw; simpl.
  - exact Hw.
  - apply wp_bind. eapply wp_mono.
    + apply Hf; [now left | exact Hw].
    + intros u w' Hw'. apply IH; [|exact Hw'].
      intros y w'' Hy. apply Hf. now right.
    + auto.
Qed.

Lemma wp_for_fold {X0 St} (l : list X0) (f : St -> X0 -> M St)
    (I : St -> world -> Prop) (X : option exn -> world -> Prop) :
  (forall s x w, In x l -> I s w -> wp (f s x) I X w) ->
  forall s w, I s w -> wp (for_fold l f s) I X w.
Proof.
  induction l as [|x l IH]; intros Hf s w Hw; simpl.
  - exact Hw.
  - apply wp_bind. eapply wp_mono.
    + apply Hf; [now left | exact Hw].
    + intros s' w' Hw'. apply IH; [|exact Hw'].
      intros s'' y w'' Hy. apply Hf. now right.
    + auto.
Qed.

(** The rule of [while True]: an invariant of the loop variable and the
    world, and a line read in every round that goes on. *)
Lemma wp_loop {St A} (body : St -> M (St + A)) (I : St -> world -> Prop) Q X :
  (forall s w, I s w ->
     wp (body s)
        (fun r w' =>
           match r with
           | inl s' => I s' w' /\ (length (stdin w') < length (stdin w))%nat
           | inr a => Q a w'
           end) X w) ->
  forall n s w, (length (stdin w) < n)%nat -> I s w -> wp (loop n body s) Q X w.
Proof.
  intros Hbody. induction n as [|n IH]; intros s w Hn Hw; [lia|].
  specialize (Hbody s w Hw). unfold wp in *. simpl.
  destruct (body s w) as [[s'|a] w'|e w'|w'|]; auto.
  destruct Hbody as [Hs' Hlt]. apply IH; [lia | exact Hs'].
Qed.

Lemma wp_while {St A} (body : St -> M (St + A)) (I : St -> world -> Prop) Q X :
  (forall s w, I s w ->
     wp (body s)
        (fun r w' =>
           match r with
           | inl s' => I s' w' /\ (length (stdin w') < length (stdin w))%nat
           | inr a => Q a w'
           end) X w) ->
  forall s w, I s w -> wp (while_true body s) Q X w.
Proof.
  intros Hbody s w Hw. unfold while_true.
  change (wp (loop (S (length (stdin w))) body s) Q X w).
  eapply wp_loop; eauto.
Qed.

Lemma loop_fuel {St A} (body : St -> M (St + A)) :
  progress body ->
  forall n m s w, (length (stdin w) < n)%nat -> (length (stdin w) < m)%nat ->
    loop n body s w = loop m body s w.
Proof.
  intros Hp. induction n as [|n IH]; intros m s w Hn Hm; [lia|].
  destruct m as [|m]; [lia|]. simpl.
  destruct (body s w) as [[s'|a] w'|e w'|w'|] eqn:E; auto.
  apply Hp in E. apply IH; lia.
Qed.

Lemma loop_S {St A} (body : St -> M (St + A)) n s w :
  loop (S n) body s w =
  match body s w with
  | Ok (inl s') w' => loop n body s' w'
  | Ok (inr a) w' => Ok a w'
  | Raise e w' => Raise e w'
  | Waiting w' => Waiting w'
  | OutOfFuel => OutOfFuel
  end.
Proof. reflexivity. Qed.

(** The equation of [while True]: one round, then the loop again. *)
Lemma while_unfold {St A} (body : St -> M (St + A)) :
  progress body ->
  forall s w,
    while_true body s w =
    match body s w with
    | Ok (inl s') w' => while_true body s' w'
    | Ok (inr a) w' => Ok a w'
    | Raise e w' => Raise e w'
    | Waiting w' => Waiting w'
    | OutOfFuel => OutOfFuel
    end.
Proof.
  intros Hp s w. unfold while_true. rewrite loop_S.
  destruct (body s w) as [[s'|a] w'|e w'|w'|] eqn:E; auto.
  apply loop_fuel; auto. apply Hp in E. lia.
Qed.

(** ** What the prompts leave alone *)

Lemma grown_refl w : grown w w.
Proof. exists []. now rewrite app_nil_r. Qed.

Lemma grown_trans w1 w2 w3 : grown w1 w2 -> grown w2 w3 -> grown w1 w3.
Proof.
  intros [o1 E1] [o2 E2]. exists (o1 ++ o2). now rewrite E2, E1, app_assoc.
Qed.

Lemma quiet_refl w : quiet w w.
Proof. unfold quiet. auto using grown_refl. Qed.

Lemma reads_quiet w w' : reads w w' -> quiet w w'.
Proof. unfold reads, quiet. intuition lia. Qed.

Lemma quiet_trans w1 w2 w3 : quiet w1 w2 -> quiet w2 w3 -> quiet w1 w3.
Proof.
  unfold quiet. intros (F1 & C1 & (S1 & G1) & L1) (F2 & C2 & (S2 & G2) & L2).
  repeat split; try congruence; try lia. eapply grown_trans; eauto.
Qed.

Lemma reads_quiet_trans w1 w2 w3 : reads w1 w2 -> quiet w2 w3 -> reads w1 w3.
Proof.
  unfold reads, quiet. intros (F1 & C1 & (S1 & G1) & L1) (F2 & C2 & (S2 & G2) & L2).
  repeat split; try congruence; try lia. eapply grown_trans; eauto.
Qed.

Lemma quiet_reads_trans w1 w2 w3 : quiet w1 w2 -> reads w2 w3 -> reads w1 w3.
Proof.
  unfold reads, quiet. intros (F1 & C1 & (S1 & G1) & L1) (F2 & C2 & (S2 & G2) & L2).
  repeat split; try congruence; try lia. eapply grown_trans; eauto.
Qed.

Create HintDb run.
#[local] Hint Resolve quiet_refl reads_quiet quiet_trans reads_quiet_trans
  quiet_reads_trans : run.

Ltac frame := simpl; intros; cbv beta in *; eauto with run.

Lemma reading_quietly {A} (m : M A) : reading m -> quietly m.
Proof. intros H w. eapply wp_mono; [apply H | |]; eauto with run. Qed.

Lemma quietly_ret {A} (a : A) : quietly (ret a).
Proof. intros w. apply quiet_refl. Qed.

Lemma quietly_raise {A} e : quietly (@raise A e).
Proof. intros w. apply quiet_refl. Qed.

Lemma quietly_lift {A} (r : exn + A) : quietly (lift r).
Proof. destruct r; [apply quietly_raise | apply quietly_ret]. Qed.

Lemma quietly_lift_value_error {A} (o : option A) : quietly (lift_value_error o).
Proof. destruct o; [apply quietly_ret | apply quietly_raise]. Qed.

Lemma quietly_print s : quietly (print s).
Proof. intros w. unfold wp, quiet, grown. simpl. eauto 10. Qed.

Lemma quietly_now : quietly now.
Proof.
  intros w. unfold wp, quiet, grown. simpl. repeat split; auto.
  exists []. now rewrite app_nil_r.
Qed.

Lemma quietly_platform_system : quietly platform_system.
Proof. intros w. apply quiet_refl. Qed.

Lemma quietly_os_path_isfile p : quietly (os_path_isfile p).
Proof. intros w. apply quiet_refl. Qed.

Lemma quietly_getitem {X} (l : list X) i : quietly (getitem l i).
Proof.
  unfold getitem. destruct (_ <? 0); [apply quietly_raise|].
  destruct (nth_error _ _); [apply quietly_ret | apply quietly_raise].
Qed.

Lemma quietly_dict_get {X} (d : list (string * X)) k : quietly (dict_get d k).
Proof. unfold dict_get. destruct (assoc d k); [apply quietly_ret | apply quietly_raise]. Qed.

Lemma reading_input p : reading (input p).
Proof.
  intros w. unfold wp, input, reads, quiet, grown.
  destruct (stdin w) eqn:E; simpl; eauto 10 with arith.
Qed.

Lemma quietly_bind {A B} (m : M A) (k : A -> M B) :
  quietly m -> (forall a, quietly (k a)) -> quietly (bind m k).
Proof.
  intros Hm Hk w. apply wp_bind. eapply wp_mono; [apply Hm | |]; simpl; auto.
  intros a w' Hq. eapply wp_mono; [apply Hk | |]; simpl; eauto with run.
Qed.

Lemma reading_bind_l {A B} (m : M A) (k : A -> M B) :
  reading m -> (forall a, quietly (k a)) -> reading (bind m k).
Proof.
  intros Hm Hk w. apply wp_bind. eapply wp_mono; [apply Hm | |]; simpl; auto.
  intros a w' Hq. eapply wp_mono; [apply Hk | |]; simpl; eauto with run.
Qed.

Lemma reading_bind_r {A B} (m : M A) (k : A -> M B) :
  quietly m -> (forall a, reading (k a)) -> reading (bind m k).
Proof.
  intros Hm Hk w. apply wp_bind. eapply wp_mono; [apply Hm | |]; simpl; auto.
  intros a w' Hq. eapply wp_mono; [apply Hk | |]; simpl; eauto with run.
Qed.

Lemma quietly_for_each {X} (l : list X) (f : X -> M unit) :
  (forall x, quietly (f x)) -> quietly (for_each l f).
Proof.
  intros Hf. induction l; simpl; [apply quietly_ret|].
  apply quietly_bind; auto.
Qed.

Lemma quietly_for_fold {X St} (l : list X) (f : St -> X -> M St) :
  (forall s x, quietly (f s x)) -> forall s, quietly (for_fold l f s).
Proof.
  intros Hf. induction l; intros s; simpl; [apply quietly_ret|].
  apply quietly_bind; auto.
Qed.

(** A [try] whose body starts by reading a line: whatever happens next,
    that line is gone when the statement ends. *)
Lemma reading_try_input {A} p (k : string -> M A) e (handler : M A) :
  (forall line, quietly (k line)) -> quietly handler ->
  reading (try_except (bind (input p) k) e handler).
Proof.
  intros Hk Hh w. apply wp_try_except, wp_bind.
  assert (Hin : wp (input p) (fun _ w' => reads w w')
                   (fun oe w' => oe = None /\ quiet w w') w).
  { unfold wp, input, reads, quiet, grown.
    destruct (stdin w) eqn:E; simpl; eauto 10 with arith. }
  eapply wp_mono; [apply Hin | |].
  - intros line w' Hr. eapply wp_mono; [apply Hk | |]; [solve [frame]|].
    intros [e'|] w'' Hq; [|solve [frame]].
    destruct (exn_eqb e' e); [|solve [frame]].
    eapply wp_mono; [apply Hh | |]; solve [frame].
  - intros oe w' [-> Hq]. exact Hq.
Qed.

Lemma reading_while {St A} (body : St -> M (St + A)) :
  (forall s, reading (body s)) -> forall s, reading (while_true body s).
Proof.
  intros Hb s w.
  apply (wp_while body (fun _ w1 => quiet w w1)); [|apply quiet_refl].
  intros s1 w1 Hq. eapply wp_mono; [apply Hb | |]; simpl; eauto with run.
  intros [s'|a] w' Hr; eauto with run.
  split; eauto with run. unfold reads in Hr. tauto.
Qed.

Lemma reading_progress {St A} (body : St -> M (St + A)) :
  (forall s, reading (body s)) -> progress body.
Proof.
  intros Hb s w s' w' E. specialize (Hb s w). unfold wp in Hb.
  rewrite E in Hb. unfold reads in Hb. tauto.
Qed.

Ltac quietly_step :=
  match goal with
  | |- quietly (ret _) => apply quietly_ret
  | |- quietly (again _) => apply quietly_ret
  | |- quietly (leave _) => apply quietly_ret
  | |- quietly (raise _) => apply quietly_raise
  | |- quietly (lift _) => apply quietly_lift
  | |- quietly (lift_value_error _) => apply quietly_lift_value_error
  | |- quietly (print _) => apply quietly_print
  | |- quietly now => apply quietly_now
  | |- quietly platform_system => apply quietly_platform_system
  | |- quietly (os_path_isfile _) => apply quietly_os_path_isfile
  | |- quietly (getitem _ _) => apply quietly_getitem
  | |- quietly (dict_get _ _) => apply quietly_dict_get
  | |- quietly (input _) => apply reading_quietly, reading_input
  | |- quietly (for_each _ _) => apply quietly_for_each; intros ?
  | |- quietly (for_fold _ _ _) => apply quietly_for_fold; intros ? ?
  | |- quietly (bind _ _) => apply quietly_bind; [|intros ?]
  | |- quietly (if ?b then _ else _) => destruct b
  | |- quietly (match ?x with _ => _ end) => destruct x
  | H : reading ?m |- quietly ?m => apply reading_quietly, H
  | H : forall s, reading (@?m s) |- quietly _ => apply reading_quietly, H
  | |- quietly _ => progress cbv zeta
  end.

Ltac quietly_tac := repeat quietly_step.

Lemma reading_user_info_round u : reading (user_info_round u).
Proof. apply reading_try_input; [intros line|]; quietly_tac. Qed.

Lemma reading_input_user_info : reading input_user_info.
Proof. apply reading_while, reading_user_info_round. Qed.

Lemma reading_yes_no_round message u : reading (yes_no_round message u).
Proof.
  apply reading_bind_l; [apply reading_input | intros line]. quietly_tac.
Qed.

Lemma reading_prompt_yes_no message : reading (prompt_yes_no message).
Proof. apply reading_while, reading_yes_no_round. Qed.

Lemma reading_weight_reps_sets_round u : reading (weight_reps_sets_round u).
Proof. apply reading_try_input; [intros line|]; quietly_tac. Qed.

Lemma reading_input_weight_reps_sets : reading input_weight_reps_sets.
Proof. apply reading_while, reading_weight_reps_sets_round. Qed.

Lemma quietly_chosen {X} (items : list X) s : quietly (chosen items s).
Proof. unfold chosen. quietly_tac. Qed.

Lemma reading_exercise_round self part data : reading (exercise_round self part data).
Proof.
  unfold exercise_round.
  do 3 (apply reading_bind_r; [quietly_tac | intros ?]).
  apply reading_bind_l; [apply reading_input | intros line].
  pose proof reading_input_weight_reps_sets.
  pose proof reading_prompt_yes_no.
  pose proof (@quietly_chosen string).
  quietly_tac; auto.
Qed.

Lemma quietly_select_part self data part_index : quietly (select_part self data part_index).
Proof.
  unfold select_part. pose proof (@quietly_chosen string).
  quietly_tac; auto.
  apply reading_quietly, reading_while. intros s. apply reading_exercise_round.
Qed.

Lemma reading_input_body_parts_and_exercises `{SetOrder} self :
  reading (input_body_parts_and_exercises self).
Proof.
  unfold input_body_parts_and_exercises.
  do 2 (apply reading_bind_r; [quietly_tac | intros ?]).
  apply reading_bind_l; [apply reading_input | intros line].
  quietly_tac. apply quietly_select_part.
Qed.

(** * The BMI calculator *)

Lemma ltb_spec (a b : Q) : Py.ltb a b = true <-> (a < b)%Q.
Proof.
  unfold Py.ltb. rewrite negb_true_iff. split; intros H.
  - apply Qnot_le_lt. intros Hle. apply Qle_bool_iff in Hle. congruence.
  - destruct (Qle_bool b a) eqn:E; auto.
    apply Qle_bool_iff in E. exfalso. eapply Qlt_not_le; eauto.
Qed.

Lemma ltb_false (a b : Q) : Py.ltb a b = false <-> (b <= a)%Q.
Proof.
  unfold Py.ltb. rewrite negb_false_iff. apply Qle_bool_iff.
Qed.

Lemma leb_spec (a b : Q) : Py.leb a b = true <-> (a <= b)%Q.
Proof. apply Qle_bool_iff. Qed.

Lemma leb_false (a b : Q) : Py.leb a b = false <-> (b < a)%Q.
Proof.
  unfold Py.leb. split; intros H.
  - apply Qnot_le_lt. intros Hle. apply Qle_bool_iff in Hle. congruence.
  - destruct (Qle_bool a b) eqn:E; auto.
    apply Qle_bool_iff in E. exfalso. eapply Qlt_not_le; eauto.
Qed.

(** For a positive height the function returns, and the value is the
    quotient of the weight by the square of the height in metres. *)
Lemma calculate_bmi_value (weight height_cm : Q) :
  (0 < height_cm)%Q ->
  exists bmi category,
    calculate_bmi weight height_cm = inr (bmi, category) /\
    (bmi == weight / (height_cm / 100) ^ 2)%Q.
Proof.
  intros Hh. unfold calculate_bmi.
  destruct (Qeq_bool (Qred (height_cm / 100) ^ 2) 0) eqn:E.
  - apply Qeq_bool_iff in E. rewrite Qred_correct in E.
    exfalso. assert (Hm : (0 < height_cm / 100)%Q).
    { apply Qlt_shift_div_l; [reflexivity|]. now rewrite Qmult_0_l. }
    assert (Hsq : (0 < (height_cm / 100) ^ 2)%Q).
    { simpl. apply Qmult_lt_0_compat; exact Hm. }
    rewrite E in Hsq. now apply Qlt_irrefl in Hsq.
  - eexists _, _. split; [reflexivity|].
    rewrite Qred_correct. now rewrite Qred_correct.
Qed.

(** The four branches of lines 10-17, as the code has them: the last
    branch takes what the first three leave, which is more than the
    values above 29.9. *)
Lemma calculate_bmi_category (weight height_cm bmi : Q) (category : string) :
  calculate_bmi weight height_cm = inr (bmi, category) ->
  ((bmi < 18.5)%Q /\ category = "Underweight") \/
  ((18.5 <= bmi)%Q /\ (bmi <= 24.9)%Q /\ category = "Normal weight") \/
  ((25 <= bmi)%Q /\ (bmi <= 29.9)%Q /\ category = "Overweight") \/
  ((((24.9 < bmi)%Q /\ (bmi < 25)%Q) \/ (29.9 < bmi)%Q) /\ category = "Obesity").
Proof.
  unfold calculate_bmi.
  destruct (Qeq_bool _ 0); [discriminate|].
  set (b := Qred (weight / Qred (height_cm / 100) ^ 2)).
  intros E. injection E as <- <-.
  destruct (Py.ltb b 18.5) eqn:E1.
  { left. split; [now apply ltb_spec | reflexivity]. }
  apply ltb_false in E1.
  destruct (Py.leb 18.5 b) eqn:E2; [|apply leb_false in E2; exfalso; eapply Qlt_not_le; eauto].
  destruct (Py.leb b 24.9) eqn:E3; simpl.
  { right. left. repeat split; auto; now apply leb_spec. }
  apply leb_false in E3.
  destruct (Py.leb 25 b) eqn:E4; simpl.
  - apply leb_spec in E4. destruct (Py.leb b 29.9) eqn:E5; simpl.
    + right. right. left. repeat split; auto; now apply leb_spec.
    + right. right. right. apply leb_false in E5. auto.
  - right. right. right. apply leb_false in E4. auto.
Qed.

(** C1.  At weight 99.8 kg and height 200 cm, both positive, the BMI is
    24.95: it is not above 29.9, it lies between the upper bound 24.9 of
    the second branch and the lower bound 25 of the third, and the
    category returned is the one of the last branch. *)
Theorem calculate_bmi_between_24_9_and_25 :
  (0 < 99.8)%Q /\ (0 < 200)%Q /\
  calculate_bmi 99.8 200 = inr (499 # 20, "Obesity") /\
  (499 # 20 == 24.95)%Q /\ ~ (29.9 < 499 # 20)%Q /\
  (24.9 < 499 # 20)%Q /\ (499 # 20 < 25)%Q.
Proof.
  repeat split; try reflexivity. intros H. discriminate H.
Qed.

(** * The prompts, one round at a time *)

Lemma progress_user_info_round : progress user_info_round.
Proof. apply reading_progress, reading_user_info_round. Qed.

Lemma progress_yes_no_round message : progress (yes_no_round message).
Proof. apply reading_progress, reading_yes_no_round. Qed.

Lemma progress_weight_reps_sets_round : progress weight_reps_sets_round.
Proof. apply reading_progress, reading_weight_reps_sets_round. Qed.

Lemma progress_exercise_round self part : progress (exercise_round self part).
Proof. apply reading_progress, reading_exercise_round. Qed.

(** Unfolds the monad on a world whose fields are at hand. *)
Ltac run :=
  unfold try_except, bind, input, print, now, lift_value_error, lift, raise, ret,
    again, leave, console; simpl.

Ltac tidy := repeat rewrite <- app_assoc; simpl.

Section WeightRepsSets.

Variable w : world.

Lemma round_weight_malformed a rest :
  stdin w = a :: rest -> Py.float a = None ->
  weight_reps_sets_round tt w =
  Ok (inl tt) (console rest [weight_prompt; invalid_numbers] w).
Proof.
  destruct w; simpl; intros -> Ha.
  unfold weight_reps_sets_round. run. rewrite Ha. run. tidy. reflexivity.
Qed.

Lemma round_reps_malformed a b rest x :
  stdin w = a :: b :: rest -> Py.float a = Some x -> Py.int b = None ->
  weight_reps_sets_round tt w =
  Ok (inl tt) (console rest [weight_prompt; reps_prompt; invalid_numbers] w).
Proof.
  destruct w; simpl; intros -> Ha Hb.
  unfold weight_reps_sets_round. run. rewrite Ha. run. rewrite Hb. run. tidy.
  reflexivity.
Qed.

Lemma round_sets_malformed a b c rest x r :
  stdin w = a :: b :: c :: rest ->
  Py.float a = Some x -> Py.int b = Some r -> Py.int c = None ->
  weight_reps_sets_round tt w =
  Ok (inl tt) (console rest [weight_prompt; reps_prompt; sets_prompt; invalid_numbers] w).
Proof.
  destruct w; simpl; intros -> Ha Hb Hc.
  unfold weight_reps_sets_round. run. rewrite Ha. run. rewrite Hb. run.
  rewrite Hc. run. tidy. reflexivity.
Qed.

Lemma round_not_positive a b c rest x r s :
  stdin w = a :: b :: c :: rest ->
  Py.float a = Some x -> Py.int b = Some r -> Py.int c = Some s ->
  Py.ltb 0 x && (0 <? r) && (0 <? s) = false ->
  weight_reps_sets_round tt w =
  Ok (inl tt) (console rest [weight_prompt; reps_prompt; sets_prompt; not_positive] w).
Proof.
  destruct w; simpl; intros -> Ha Hb Hc Hp.
  unfold weight_reps_sets_round. run. rewrite Ha. run. rewrite Hb. run.
  rewrite Hc. run. rewrite Hp. run. tidy. reflexivity.
Qed.

Lemma round_positive a b c rest x r s :
  stdin w = a :: b :: c :: rest ->
  Py.float a = Some x -> Py.int b = Some r -> Py.int c = Some s ->
  Py.ltb 0 x && (0 <? r) && (0 <? s) = true ->
  weight_reps_sets_round tt w =
  Ok (inr (x, r, s)) (console rest [weight_prompt; reps_prompt; sets_prompt] w).
Proof.
  destruct w; simpl; intros -> Ha Hb Hc Hp.
  unfold weight_reps_sets_round. run. rewrite Ha. run. rewrite Hb. run.
  rewrite Hc. run. rewrite Hp. run. tidy. reflexivity.
Qed.

End WeightRepsSets.

Lemma input_weight_reps_sets_unfold w :
  input_weight_reps_sets w =
  match weight_reps_sets_round tt w with
  | Ok (inl _) w' => input_weight_reps_sets w'
  | Ok (inr a) w' => Ok a w'
  | Raise e w' => Raise e w'
  | Waiting w' => Waiting w'
  | OutOfFuel => OutOfFuel
  end.
Proof.
  unfold input_weight_reps_sets.
  rewrite (while_unfold _ progress_weight_reps_sets_round).
  destruct (weight_reps_sets_round tt w) as [[[]|a] w'|e w'|w'|]; reflexivity.
Qed.

(** What a round of the loop can end in: a triple, read from three lines in
    a row of that very round and positive; another round, after one
    to three lines; or the wait for a line.  It raises nothing. *)
Lemma weight_reps_sets_round_ends w :
  match weight_reps_sets_round tt w with
  | Ok (inr (x, r, s)) w' =>
      exists a b c, stdin w = a :: b :: c :: stdin w' /\
        Py.float a = Some x /\ Py.int b = Some r /\ Py.int c = Some s /\
        (0 < x)%Q /\ 0 < r /\ 0 < s
  | Ok (inl _) w' => exists pre, stdin w = pre ++ stdin w'
  | Raise _ _ => False
  | Waiting w' => stdin w' = []
  | OutOfFuel => False
  end.
Proof.
  destruct w as [ins out fs clk tk sys].
  unfold weight_reps_sets_round. run.
  destruct ins as [|a ins]; run; [reflexivity|].
  destruct (Py.float a) as [x|] eqn:Ha; run; [|now exists [a]].
  destruct ins as [|b ins]; run; [reflexivity|].
  destruct (Py.int b) as [r|] eqn:Hb; run; [|now exists [a; b]].
  destruct ins as [|c ins]; run; [reflexivity|].
  destruct (Py.int c) as [s|] eqn:Hc; run; [|now exists [a; b; c]].
  destruct (Py.ltb 0 x && (0 <? r) && (0 <? s)) eqn:Hp; run; [|now exists [a; b; c]].
  apply andb_prop in Hp as [Hp Hs]. apply andb_prop in Hp as [Hx Hr].
  exists a, b, c. repeat split; auto; try lia. now apply ltb_spec.
Qed.

(** The triple the loop returns was typed as three lines in a row, the
    last three lines read, and is positive. *)
Lemma input_weight_reps_sets_result w x r s w' :
  input_weight_reps_sets w = Ok (x, r, s) w' ->
  exists pre a b c,
    stdin w = pre ++ a :: b :: c :: stdin w' /\
    Py.float a = Some x /\ Py.int b = Some r /\ Py.int c = Some s /\
    (0 < x)%Q /\ 0 < r /\ 0 < s.
Proof.
  intros E.
  assert (Hwp : wp input_weight_reps_sets
    (fun t w' => exists pre a b c,
       stdin w = pre ++ a :: b :: c :: stdin w' /\
       Py.float a = Some (fst (fst t)) /\ Py.int b = Some (snd (fst t)) /\
       Py.int c = Some (snd t) /\
       (0 < fst (fst t))%Q /\ 0 < snd (fst t) /\ 0 < snd t)
    (fun _ _ => True) w).
  { apply (wp_while _ (fun _ w1 => exists pre, stdin w = pre ++ stdin w1)).
    2: now exists [].
    intros [] w1 [pre Hpre].
    pose proof (weight_reps_sets_round_ends w1) as Hr.
    pose proof (reading_weight_reps_sets_round tt w1) as Hq.
    unfold wp in *.
    destruct (weight_reps_sets_round tt w1) as [[[]|[[x1 r1] s1]] w2|e w2|w2|]; auto.
    - destruct Hr as [pre' Hr]. split.
      + exists (pre ++ pre'). rewrite Hpre, Hr. now rewrite app_assoc.
      + unfold reads in Hq. tauto.
    - destruct Hr as (a & b & c & Hr & H1).
      exists pre, a, b, c. rewrite Hpre, Hr. auto. }
  unfold wp in Hwp. rewrite E in Hwp. exact Hwp.
Qed.

(** C10.  Weight, reps and sets stand or fall together.  When a line of
    the three is malformed, or the three are read and one is not positive,
    the loop starts again at the weight prompt, in a world that holds
    nothing of the values read in that round: what it does next depends
    only on the lines not read yet.  The triple that is returned at last
    was typed as three lines in a row, the last three that were read. *)
Theorem weight_reps_sets_validated_together (w : world) :
  (forall a rest, stdin w = a :: rest -> Py.float a = None ->
     input_weight_reps_sets w =
     input_weight_reps_sets (console rest [weight_prompt; invalid_numbers] w)) /\
  (forall a b rest x, stdin w = a :: b :: rest ->
     Py.float a = Some x -> Py.int b = None ->
     input_weight_reps_sets w =
     input_weight_reps_sets
       (console rest [weight_prompt; reps_prompt; invalid_numbers] w)) /\
  (forall a b c rest x r, stdin w = a :: b :: c :: rest ->
     Py.float a = Some x -> Py.int b = Some r -> Py.int c = None ->
     input_weight_reps_sets w =
     input_weight_reps_sets
       (console rest [weight_prompt; reps_prompt; sets_prompt; invalid_numbers] w)) /\
  (forall a b c rest x r s, stdin w = a :: b :: c :: rest ->
     Py.float a = Some x -> Py.int b = Some r -> Py.int c = Some s ->
     ~ ((0 < x)%Q /\ 0 < r /\ 0 < s) ->
     input_weight_reps_sets w =
     input_weight_reps_sets
       (console rest [weight_prompt; reps_prompt; sets_prompt; not_positive] w)) /\
  (forall x r s w', input_weight_reps_sets w = Ok (x, r, s) w' ->
     exists pre a b c, stdin w = pre ++ a :: b :: c :: stdin w' /\
       Py.float a = Some x /\ Py.int b = Some r /\ Py.int c = Some s).
Proof.
  repeat split.
  - intros a rest Hw Ha. rewrite input_weight_reps_sets_unfold.
    now rewrite (round_weight_malformed w a rest Hw Ha).
  - intros a b rest x Hw Ha Hb. rewrite input_weight_reps_sets_unfold.
    now rewrite (round_reps_malformed w a b rest x Hw Ha Hb).
  - intros a b c rest x r Hw Ha Hb Hc. rewrite input_weight_reps_sets_unfold.
    now rewrite (round_sets_malformed w a b c rest x r Hw Ha Hb Hc).
  - intros a b c rest x r s Hw Ha Hb Hc Hn. rewrite input_weight_reps_sets_unfold.
    rewrite (round_not_positive w a b c rest x r s Hw Ha Hb Hc); [reflexivity|].
    destruct (Py.ltb 0 x && (0 <? r) && (0 <? s)) eqn:Hp; [|reflexivity].
    exfalso. apply Hn.
    apply andb_prop in Hp as [Hp Hs]. apply andb_prop in Hp as [Hx Hr].
    repeat split; try lia. now apply ltb_spec.
  - intros x r s w' E.
    destruct (input_weight_reps_sets_result w x r s w' E)
      as (pre & a & b & c & H1 & H2 & H3 & H4 & _).
    exists pre, a, b, c. auto.
Qed.

(** A weight of 60 typed before the malformed reps "ten" is dropped: the
    loop asks again and returns the next three lines. *)
Lemma weight_reps_sets_validated_together_witness :
  input_weight_reps_sets (fresh ["60"; "ten"; "62.5"; "10"; "3"]) =
  Ok ((125 # 2)%Q, 10, 3)
     (console [] [weight_prompt; reps_prompt; invalid_numbers;
                  weight_prompt; reps_prompt; sets_prompt]
        (fresh ["60"; "ten"; "62.5"; "10"; "3"])).
Proof.
  rewrite (proj1 (proj2 (weight_reps_sets_validated_together
                           (fresh ["60"; "ten"; "62.5"; "10"; "3"])))
             "60" "ten" ["62.5"; "10"; "3"] 60%Q eq_refl eq_refl eq_refl).
  reflexivity.
Defined.

(** * The records of a pass *)

Lemma wp_seq {A B} (m : M A) (k : A -> M B) Q w :
  quietly m ->
  (forall a w', wp (k a) Q (fun _ _ => True) w') ->
  wp (bind m k) Q (fun _ _ => True) w.
Proof.
  intros Hm Hk. apply wp_bind. eapply wp_mono; [apply Hm | |]; simpl; auto.
Qed.

Lemma wp_frame {A} (m : M A) (R : world -> world -> Prop) (P : A -> Prop) w :
  wp m (fun _ w' => R w w') (fun _ w' => quiet w w') w ->
  wp m (fun a _ => P a) (fun _ _ => True) w ->
  wp m (fun a w' => R w w' /\ P a) (fun _ w' => quiet w w') w.
Proof.
  intros H1 H2. eapply wp_mono; [apply (wp_conj _ _ _ _ _ _ H1 H2) | |];
    simpl; tauto.
Qed.

Lemma wp_input_weight_reps_sets w :
  wp input_weight_reps_sets
     (fun t _ => (0 < fst (fst t))%Q /\ 0 < snd (fst t) /\ 0 < snd t)
     (fun _ _ => True) w.
Proof.
  pose proof (reading_input_weight_reps_sets w) as Hq. unfold wp in *.
  destruct (input_weight_reps_sets w) as [[[x r] s] w'|e w'|w'|] eqn:E; auto.
  apply input_weight_reps_sets_result in E.
  destruct E as (pre & a & b & c & _ & _ & _ & _ & H). exact H.
Qed.

Lemma wp_exercise_round_records self part data w :
  Forall is_record data ->
  wp (exercise_round self part data)
     (fun r _ => Forall is_record (round_data r)) (fun _ _ => True) w.
Proof.
  intros Hd. unfold exercise_round.
  apply wp_seq; [quietly_tac | intros _ w1].
  apply wp_seq; [quietly_tac | intros items w2].
  apply wp_seq; [quietly_tac | intros _ w3].
  apply wp_seq; [quietly_tac | intros ex_choice w4].
  destruct (valid_choice ex_choice (length items)); [|exact Hd].
  apply wp_seq; [apply quietly_chosen | intros exercise w5].
  apply wp_bind. eapply wp_mono; [apply wp_input_weight_reps_sets | | auto].
  intros [[x r] s] w6 (Hx & Hr & Hs). simpl in Hx, Hr, Hs.
  apply wp_seq; [quietly_tac | intros t w7].
  apply wp_seq; [apply reading_quietly, reading_prompt_yes_no | intros more w8].
  assert (Forall is_record
            (data ++ [[Str (strftime_datetime t); Str part; Str exercise;
                       Float x; Int r; Int s]])).
  { apply Forall_app. split; [exact Hd|]. constructor; [|constructor].
    now exists (strftime_datetime t), part, exercise, x, r, s. }
  destruct more; assumption.
Qed.

Lemma wp_exercise_round self part data w :
  Forall is_record data ->
  wp (exercise_round self part data)
     (fun r w' => reads w w' /\ Forall is_record (round_data r))
     (fun _ w' => quiet w w') w.
Proof.
  intros Hd. apply wp_frame;
    [apply reading_exercise_round | now apply wp_exercise_round_records].
Qed.

Lemma wp_select_part_records self data part_index w :
  Forall is_record data ->
  wp (select_part self data part_index)
     (fun d _ => Forall is_record d) (fun _ _ => True) w.
Proof.
  intros Hd. unfold select_part.
  destruct (valid_choice part_index (length (body_parts self))).
  - apply wp_seq; [apply quietly_chosen | intros part w1].
    apply (wp_while _ (fun d _ => Forall is_record d)); [|exact Hd].
    intros d w2 Hd2. eapply wp_mono; [apply wp_exercise_round, Hd2 | |]; simpl; auto.
    intros [d'|d'] w3 [Hr Hd3]; simpl in Hd3; auto.
    split; [exact Hd3|]. unfold reads in Hr. tauto.
  - apply wp_seq; [quietly_tac | intros _ w1]. exact Hd.
Qed.

Lemma wp_input_body_parts_and_exercises `{SetOrder} self w :
  wp (input_body_parts_and_exercises self)
     (fun data w' => reads w w' /\ Forall is_record data)
     (fun _ w' => quiet w w') w.
Proof.
  apply wp_frame; [apply reading_input_body_parts_and_exercises|].
  unfold input_body_parts_and_exercises.
  apply wp_seq; [quietly_tac | intros _ w1].
  apply wp_seq; [quietly_tac | intros _ w2].
  apply wp_seq; [quietly_tac | intros parts_choice w3].
  apply wp_seq; [quietly_tac | intros selected_parts w4].
  apply (wp_for_fold _ _ (fun d _ => Forall is_record d)); [|constructor].
  intros d tok w5 _ Hd. now apply wp_select_part_records.
Qed.

(** * The record store *)

Lemma data_row_cons u e0 rest w :
  data_row u (e0 :: rest) w = Ok (e0 :: profile_cells u ++ rest) w.
Proof. reflexivity. Qed.

Lemma write_rows u path data :
  Forall (fun e => e <> []) data ->
  forall w c, files w !! path = Some c ->
    for_each data (fun entry => r <- data_row u entry ;; writerow path r) w =
    Ok tt (mkWorld (stdin w) (stdout w)
             (<[path := c ++ map (profile_row u) data]> (files w))
             (clock w) (ticks w) (system w)).
Proof.
  induction 1 as [|entry data Hne _ IH]; intros w c Hc.
  - destruct w as [ins out fs clk tk sys]. simpl in *.
    unfold ret. rewrite app_nil_r, insert_id by exact Hc. reflexivity.
  - destruct entry as [|e0 rest]; [congruence|].
    cbn [for_each]. unfold bind at 1. unfold bind at 1.
    rewrite data_row_cons. unfold writerow at 1.
    rewrite (IH _ (c ++ [e0 :: profile_cells u ++ rest])).
    + simpl. rewrite insert_insert_eq, <- app_assoc. reflexivity.
    + simpl. rewrite lookup_insert_eq. rewrite Hc. reflexivity.
Qed.

(** [save_fitness_data] in one equation: the file of the day gets the
    header when it was not there, then one row per entry. *)
Lemma save_fitness_data_eq self data w :
  Forall (fun e => e <> []) data ->
  save_fitness_data self data w =
  Ok tt (mkWorld (stdin w)
           (stdout w ++ [("Data successfully saved to: " ++ log_path self w)%string])
           (<[log_path self w :=
                content (files w) (log_path self w)
                ++ (if bool_decide (is_Some (files w !! log_path self w))
                    then [] else [headers])
                ++ map (profile_row (user_info self)) data]> (files w))
           (clock w) (S (ticks w)) (system w)).
Proof.
  intros Hd. destruct w as [ins out fs clk tk sys].
  unfold save_fitness_data, log_path, log_extension, content. simpl.
  set (path := os_path_join sys (folder_path self) _).
  unfold bind at 1. unfold now at 1. simpl.
  unfold bind at 1. unfold platform_system at 1. simpl. fold path.
  unfold bind at 1. unfold os_path_isfile at 1. simpl.
  unfold bind at 1. unfold open_append at 1. simpl.
  destruct (fs !! path) as [c|] eqn:Hc.
  - rewrite bool_decide_eq_true_2 by eauto. simpl.
    unfold bind at 1. unfold ret at 1.
    unfold bind at 1.
    rewrite (write_rows _ _ _ Hd _ c) by exact Hc. reflexivity.
  - rewrite bool_decide_eq_false_2 by (intros [? ?]; discriminate). simpl.
    unfold bind at 1. unfold writerow at 1. simpl.
    unfold bind at 1.
    rewrite (write_rows _ _ _ Hd _ [headers]).
    + simpl. rewrite lookup_insert_eq. simpl.
      rewrite !insert_insert_eq. reflexivity.
    + simpl. rewrite lookup_insert_eq. simpl. rewrite lookup_insert_eq. reflexivity.
Qed.

Lemma count_headers_app r1 r2 :
  count_headers (r1 ++ r2) = (count_headers r1 + count_headers r2)%nat.
Proof. unfold count_headers. now rewrite List.filter_app, List.length_app. Qed.

Lemma profile_row_not_headers u entry : profile_row u entry <> headers.
Proof. destruct entry; discriminate. Qed.

Lemma count_headers_data u data : count_headers (map (profile_row u) data) = 0%nat.
Proof.
  unfold count_headers. induction data as [|e data IH]; [reflexivity|].
  simpl. rewrite bool_decide_eq_false_2 by apply profile_row_not_headers.
  exact IH.
Qed.

Lemma count_headers_batches u (ds : list (list (list cell))) :
  count_headers (concat (map (map (profile_row u)) ds)) = 0%nat.
Proof.
  induction ds as [|d ds IH]; [reflexivity|].
  simpl. now rewrite count_headers_app, count_headers_data, IH.
Qed.

Lemma saves_eq self ds :
  Forall (Forall (fun e => e <> [])) ds ->
  forall w, same_day w ->
  exists w',
    saves self ds w = Ok tt w' /\
    clock w' = clock w /\ system w' = system w /\ stdin w' = stdin w /\
    (forall path, path <> log_path self w -> files w' !! path = files w !! path) /\
    content (files w') (log_path self w) =
      content (files w) (log_path self w) ++ written self ds w.
Proof.
  induction 1 as [|data ds Hd _ IH]; intros w Hday.
  - exists w. unfold saves, written, content. simpl.
    rewrite app_nil_r. repeat split; auto.
  - unfold saves. cbn [for_each]. unfold bind at 1.
    rewrite (save_fitness_data_eq self data w Hd).
    set (p := log_path self w).
    set (w1 := mkWorld _ _ _ _ _ _).
    assert (Hp : log_path self w1 = p).
    { unfold log_path, w1. simpl. now rewrite (Hday (S (ticks w))). }
    assert (Hday1 : same_day w1).
    { intros n. unfold w1. simpl. now rewrite !Hday. }
    destruct (IH w1 Hday1) as (w' & E & Hc & Hs & Hi & Ho & Hw).
    exists w'. fold (saves self ds). rewrite E, Hc, Hs, Hi.
    repeat split; auto.
    + intros path Hne. rewrite Ho by now rewrite Hp.
      unfold w1. simpl. now rewrite lookup_insert_ne.
    + rewrite Hp in Hw. rewrite Hw.
      unfold written at 2. fold p. unfold header_if_new.
      unfold content at 1. unfold w1 at 1. simpl. rewrite lookup_insert_eq. simpl.
      rewrite <- !app_assoc. do 2 f_equal. simpl. f_equal.
      unfold written. destruct ds as [|d ds']; [reflexivity|].
      rewrite Hp. unfold header_if_new, w1. simpl. rewrite lookup_insert_eq.
      rewrite bool_decide_eq_true_2 by eauto. reflexivity.
Qed.

(** C4.  A call of [save_fitness_data] writes the header exactly when the
    file of the day is not there at that moment.  So, over any number of
    calls on one day, what is written to that file holds the header once,
    as its first row, when the file was not there at the first call, and
    not at all when it was: the rows of the file then are the rows it had,
    that header if any, and the rows of all the batches.  A file that was
    not there, or that held one header, holds one header after the calls. *)
Theorem header_written_iff_new_file self (ds : list (list (list cell))) (w : world) :
  Forall (Forall (fun e => e <> [])) ds ->
  same_day w ->
  exists w',
    saves self ds w = Ok tt w' /\
    content (files w') (log_path self w) =
      content (files w) (log_path self w) ++ written self ds w /\
    written self ds w =
      match ds with
      | [] => []
      | _ :: _ =>
          (if bool_decide (is_Some (files w !! log_path self w)) then [] else [headers])
          ++ concat (map (map (profile_row (user_info self))) ds)
      end /\
    count_headers (written self ds w) =
      match ds with
      | [] => 0%nat
      | _ :: _ => if bool_decide (is_Some (files w !! log_path self w)) then 0%nat else 1%nat
      end /\
    (ds <> [] ->
     files w !! log_path self w = None \/
     (is_Some (files w !! log_path self w) /\
      count_headers (content (files w) (log_path self w)) = 1%nat) ->
     count_headers (content (files w') (log_path self w)) = 1%nat).
Proof.
  intros Hd Hday.
  destruct (saves_eq self ds Hd w Hday) as (w' & E & _ & _ & _ & _ & Hw).
  assert (Hn : count_headers (written self ds w) =
      match ds with
      | [] => 0%nat
      | _ :: _ => if bool_decide (is_Some (files w !! log_path self w)) then 0%nat else 1%nat
      end).
  { unfold written, header_if_new. destruct ds as [|d ds']; [reflexivity|].
    rewrite count_headers_app, count_headers_batches.
    destruct (bool_decide _); reflexivity. }
  exists w'. repeat split; auto.
  intros Hne Hfile. rewrite Hw, count_headers_app, Hn.
  destruct ds as [|d ds']; [congruence|].
  destruct Hfile as [Hnone|[Hsome Hone]].
  - unfold content. rewrite Hnone.
    rewrite bool_decide_eq_false_2 by (intros [? ?]; discriminate). reflexivity.
  - rewrite bool_decide_eq_true_2 by exact Hsome. rewrite Hone. reflexivity.
Qed.

(** Two calls on one day in a folder without the file: one header, then
    the rows of both. *)
Lemma header_written_iff_new_file_witness :
  exists w',
    saves example_app
      [[[Str "2026-11-03 09:05:07"; Str "Chest"; Str "Bench Press";
         Float 60; Int 10; Int 3]];
       [[Str "2026-11-03 09:40:00"; Str "Legs"; Str "Leg Press";
         Float 120; Int 8; Int 4]]] (fresh []) = Ok tt w' /\
    content (files w') "gym/2026-11-03.csv" =
      [headers;
       [Str "2026-11-03 09:05:07"; Float 180; Float 80; Float (2000 # 81);
        Str "Normal weight"; Str "Chest"; Str "Bench Press"; Float 60; Int 10; Int 3];
       [Str "2026-11-03 09:40:00"; Float 180; Float 80; Float (2000 # 81);
        Str "Normal weight"; Str "Legs"; Str "Leg Press"; Float 120; Int 8; Int 4]] /\
    count_headers (content (files w') "gym/2026-11-03.csv") = 1%nat.
Proof.
  destruct (header_written_iff_new_file example_app
              [[[Str "2026-11-03 09:05:07"; Str "Chest"; Str "Bench Press";
                 Float 60; Int 10; Int 3]];
               [[Str "2026-11-03 09:40:00"; Str "Legs"; Str "Leg Press";
                 Float 120; Int 8; Int 4]]] (fresh []))
    as (w' & E & Hc & _ & _ & _).
  - repeat constructor; discriminate.
  - intros n. reflexivity.
  - exists w'. split; [exact E|].
    change (log_path example_app (fresh [])) with "gym/2026-11-03.csv" in Hc.
    rewrite Hc. split; reflexivity.
Defined.

(** * The top-level loop *)

Lemma logged_refl u fs : logged u fs fs.
Proof. intros path. exists []. now rewrite app_nil_r. Qed.

Lemma logged_trans u fs1 fs2 fs3 :
  logged u fs1 fs2 -> logged u fs2 fs3 -> logged u fs1 fs3.
Proof.
  intros H12 H23 path.
  destruct (H12 path) as (a1 & E1 & F1). destruct (H23 path) as (a2 & E2 & F2).
  exists (a1 ++ a2). rewrite E2, E1, <- app_assoc. split; [reflexivity|].
  apply Forall_app. now split.
Qed.

Lemma is_record_nonempty data :
  Forall is_record data -> Forall (fun e => e <> []) data.
Proof.
  apply List.Forall_impl. intros e (ts & part & ex & x & r & s & -> & _). discriminate.
Qed.

Lemma is_record_log_row u data :
  Forall is_record data -> Forall (is_log_row u) (map (profile_row u) data).
Proof.
  intros Hd. apply List.Forall_map. revert Hd. apply List.Forall_impl.
  intros e (ts & part & ex & x & r & s & -> & Hp).
  now exists ts, part, ex, x, r, s.
Qed.

Lemma logged_save u fs path data :
  Forall is_record data ->
  logged u fs (<[path := content fs path ++ header_if_new fs path
                          ++ map (profile_row u) data]> fs).
Proof.
  intros Hd p. destruct (decide (p = path)) as [->|Hne].
  - exists (header_if_new fs path ++ map (profile_row u) data).
    unfold content at 1. rewrite lookup_insert_eq. split; [reflexivity|].
    apply Forall_app. split.
    + unfold header_if_new. destruct (bool_decide _); repeat constructor.
    + eapply List.Forall_impl; [|apply is_record_log_row, Hd]. simpl. auto.
  - exists []. unfold content. rewrite lookup_insert_ne by congruence.
    now rewrite app_nil_r.
Qed.

(** A round of the top-level loop: files only grow by rows of the profile
    of [self], whatever the end, and a round that goes on has read a
    line. *)
Lemma wp_main_round `{SetOrder} self w :
  wp (main_round self tt)
     (fun r w' =>
        logged (user_info self) (files w) (files w') /\
        match r with
        | inl _ => (length (stdin w') < length (stdin w))%nat
        | inr _ => True
        end)
     (fun _ w' => logged (user_info self) (files w) (files w')) w.
Proof.
  unfold main_round. apply wp_bind.
  eapply wp_mono; [apply wp_input_body_parts_and_exercises | |].
  2: { intros e w1 (Hf & _). simpl. rewrite Hf. apply logged_refl. }
  intros data w1 [(Hf & _ & _ & Hlen) Hd].
  destruct data as [|entry data].
  - unfold wp. run. rewrite Hf. split; [apply logged_refl | exact Hlen].
  - apply wp_bind. unfold wp at 1.
    rewrite (save_fitness_data_eq self _ w1 (is_record_nonempty _ Hd)).
    set (w2 := mkWorld _ _ _ _ _ _).
    assert (Hl : logged (user_info self) (files w) (files w2)).
    { unfold w2. cbn [files]. rewrite Hf. exact (logged_save _ _ _ _ Hd). }
    apply wp_bind. eapply wp_mono; [apply reading_prompt_yes_no | |].
    + intros another w3 (Hf3 & _ & _ & Hlen3).
      assert (Hl3 : logged (user_info self) (files w) (files w3)) by now rewrite Hf3.
      destruct another; unfold wp; run; split; auto.
      unfold w2 in Hlen3. simpl in Hlen3. lia.
    + intros e w3 (Hf3 & _). simpl. now rewrite Hf3.
Qed.

Lemma progress_main_round `{SetOrder} self : progress (main_round self).
Proof.
  intros [] w s' w' E. pose proof (wp_main_round self w) as Hw.
  unfold wp in Hw. rewrite E in Hw. tauto.
Qed.

(** The loop never stops for want of fuel, and however it ends, the files
    have only grown by headers and by rows of the profile of [self] with
    positive numbers. *)
Lemma wp_main_loop `{SetOrder} self w :
  wp (main_loop self)
     (fun _ w' => logged (user_info self) (files w) (files w'))
     (fun _ w' => logged (user_info self) (files w) (files w')) w.
Proof.
  apply (wp_while _ (fun _ w1 => logged (user_info self) (files w) (files w1)));
    [|apply logged_refl].
  intros [] w1 Hl. eapply wp_mono; [apply wp_main_round | |]; simpl.
  - intros [[]|[]] w2 [Hl2 Hlen]; [split; [|exact Hlen]|];
      eapply logged_trans; eauto.
  - intros e w2 Hl2. eapply logged_trans; eauto.
Qed.

Lemma main_loop_logged `{SetOrder} self w w' :
  end_world (main_loop self w) = Some w' ->
  logged (user_info self) (files w) (files w').
Proof.
  intros E. pose proof (wp_main_loop self w) as Hw. unfold wp in Hw.
  destruct (main_loop self w); simpl in E; try discriminate;
    injection E as <-; exact Hw.
Qed.

Lemma main_loop_unfold `{SetOrder} self w :
  main_loop self w =
  match main_round self tt w with
  | Ok (inl _) w' => main_loop self w'
  | Ok (inr a) w' => Ok a w'
  | Raise e w' => Raise e w'
  | Waiting w' => Waiting w'
  | OutOfFuel => OutOfFuel
  end.
Proof.
  unfold main_loop. rewrite (while_unfold _ (progress_main_round self)).
  destruct (main_round self tt w) as [[[]|a] w'|e w'|w'|]; reflexivity.
Qed.

(** ** One order of iteration, for the examples *)

Lemma existsb_eqb_In x (l : list string) :
  existsb (String.eqb x) l = true <-> List.In x l.
Proof.
  rewrite existsb_exists. split.
  - intros (y & Hy & E). apply String.eqb_eq in E. now subst.
  - intros Hx. exists x. split; [exact Hx | apply String.eqb_refl].
Qed.

Lemma first_seen_In seen l x :
  List.In x (first_seen seen l) <-> List.In x l /\ ~ List.In x seen.
Proof.
  revert seen. induction l as [|y l IH]; intros seen; simpl; [tauto|].
  destruct (existsb (String.eqb y) seen) eqn:E.
  - apply existsb_eqb_In in E. rewrite IH. split.
    + tauto.
    + intros [[->|Hx] Hn]; tauto.
  - assert (Hy : ~ List.In y seen).
    { intros Hy. apply existsb_eqb_In in Hy. congruence. }
    simpl. rewrite IH. simpl. split.
    + intros [->|[Hx Hn]]; tauto.
    + intros [[->|Hx] Hn]; [tauto|].
      destruct (string_dec y x) as [->|Hne]; tauto.
Qed.

Lemma first_seen_NoDup seen l : List.NoDup (first_seen seen l).
Proof.
  revert seen. induction l as [|y l IH]; intros seen; simpl; [constructor|].
  destruct (existsb (String.eqb y) seen); [apply IH|].
  constructor; [|apply IH].
  rewrite first_seen_In. simpl. tauto.
Qed.

#[local] Instance first_seen_order : SetOrder.
Proof.
  refine {| set_iter := first_seen [] |}.
  - apply first_seen_NoDup.
  - intros l x. rewrite first_seen_In. simpl. tauto.
Defined.

(** * The selection of body parts *)

Lemma insert_key_perm x l : Permutation (insert_key x l) (x :: l).
Proof.
  induction l as [|y l IH]; simpl; [reflexivity|].
  destruct (fst x <=? fst y); [reflexivity|].
  rewrite IH. apply perm_swap.
Qed.

Lemma sort_perm kl : Permutation (fold_right insert_key [] kl) kl.
Proof.
  induction kl as [|x kl IH]; simpl; [reflexivity|].
  rewrite insert_key_perm. now constructor.
Qed.

Lemma insert_key_hd x y l :
  key_le y x -> HdRel key_le y l -> HdRel key_le y (insert_key x l).
Proof.
  intros Hyx Hl. destruct l as [|z l]; simpl; [now constructor|].
  destruct (fst x <=? fst z); constructor; auto.
  now inversion Hl.
Qed.

Lemma insert_key_sorted x l :
  Sorted key_le l -> Sorted key_le (insert_key x l).
Proof.
  induction 1 as [|y l Hs IH Hh]; simpl; [repeat constructor|].
  destruct (fst x <=? fst y) eqn:E.
  - apply Z.leb_le in E. repeat constructor; auto.
  - apply Z.leb_gt in E. constructor; [exact IH|].
    apply insert_key_hd; [unfold key_le; lia | exact Hh].
Qed.

Lemma sort_sorted kl : Sorted key_le (fold_right insert_key [] kl).
Proof.
  induction kl as [|x kl IH]; simpl; [constructor|].
  now apply insert_key_sorted.
Qed.

Lemma keyed_Some l kl :
  keyed l = Some kl ->
  kl = map (fun s => (int_key s, s)) l /\
  Forall (fun s => Py.int s = Some (int_key s)) l.
Proof.
  revert kl. induction l as [|s l IH]; simpl; intros kl E.
  - injection E as <-. split; [reflexivity | constructor].
  - destruct (Py.int s) as [k|] eqn:Hs; [|discriminate].
    destruct (keyed l) as [r|]; [|discriminate].
    assert (Hk : int_key s = k) by (unfold int_key; now rewrite Hs).
    injection E as <-. destruct (IH r eq_refl) as [-> Hl].
    rewrite Hk. split; [reflexivity|].
    constructor; [congruence | exact Hl].
Qed.

Lemma keyed_None l :
  keyed l = None <-> exists s, List.In s l /\ Py.int s = None.
Proof.
  induction l as [|s l IH]; simpl.
  - split; [discriminate | intros (s & [] & _)].
  - destruct (Py.int s) as [k|] eqn:Hs.
    + destruct (keyed l) as [r|].
      * split; [discriminate|]. intros (t & [<-|Ht] & Hn); [congruence|].
        assert (@None (list (Z * string)) = None) as _ by reflexivity.
        destruct IH as [_ IH]. discriminate IH. eauto.
      * split; [|reflexivity]. intros _.
        destruct IH as [IH _]. destruct (IH eq_refl) as (t & Ht & Hn). eauto.
    + split; [|reflexivity]. intros _. exists s. auto.
Qed.

Lemma sorted_keys kl :
  Sorted key_le kl -> Sorted Z.le (map fst kl).
Proof.
  induction 1 as [|x l Hs IH Hh]; simpl; constructor; [exact IH|].
  destruct Hh; simpl; constructor; auto.
Qed.

(** What [sorted(l, key=int)] returns: a rearrangement of [l] in which the
    keys do not decrease; it raises exactly when [int] rejects a token. *)
Lemma sorted_key_int_spec l :
  match sorted_key_int l with
  | Some sel =>
      Permutation sel l /\ Sorted Z.le (map int_key sel) /\
      Forall (fun s => Py.int s = Some (int_key s)) sel
  | None => exists s, List.In s l /\ Py.int s = None
  end.
Proof.
  unfold sorted_key_int. destruct (keyed l) as [kl|] eqn:E; simpl.
  - destruct (keyed_Some l kl E) as [-> Hl].
    set (kl := map (fun s => (int_key s, s)) l).
    assert (Hperm : Permutation (map snd (fold_right insert_key [] kl)) l).
    { rewrite (Permutation_map snd (sort_perm kl)). unfold kl.
      rewrite map_map. simpl. now rewrite map_id. }
    assert (Hfst : map fst (fold_right insert_key [] kl)
                   = map int_key (map snd (fold_right insert_key [] kl))).
    { rewrite map_map. apply map_ext_in. intros [k s] Hin. simpl.
      apply (Permutation_in _ (sort_perm kl)) in Hin. unfold kl in Hin.
      apply in_map_iff in Hin. destruct Hin as (t & [= <- <-] & _). reflexivity. }
    repeat split; [exact Hperm | |].
    + rewrite <- Hfst. apply sorted_keys, sort_sorted.
    + rewrite List.Forall_forall in *. intros s Hs. apply Hl.
      now apply (Permutation_in _ Hperm).
  - now apply keyed_None.
Qed.

(** Two sorted lists of integers with the same elements, counted with
    their repetitions, are one list. *)
Lemma sorted_perm_eq (l1 l2 : list Z) :
  Sorted Z.le l1 -> Sorted Z.le l2 -> Permutation l1 l2 -> l1 = l2.
Proof.
  intros H1 H2. apply Sorted_StronglySorted in H1; [|intros ? ? ?; lia].
  apply Sorted_StronglySorted in H2; [|intros ? ? ?; lia].
  revert l2 H2. induction H1 as [|a l1 Hs1 IH Ha]; intros l2 H2 Hp.
  - apply Permutation_nil in Hp. now subst.
  - destruct H2 as [|b l2 Hs2 Hb].
    + apply Permutation_sym, Permutation_nil in Hp. discriminate.
    + assert (a = b).
      { assert (Hin1 : List.In a (b :: l2))
          by (apply (Permutation_in _ Hp); now left).
        assert (Hin2 : List.In b (a :: l1))
          by (apply (Permutation_in _ (Permutation_sym Hp)); now left).
        rewrite List.Forall_forall in Ha, Hb.
        destruct Hin1 as [->|Hin1]; [reflexivity|].
        destruct Hin2 as [->|Hin2]; [reflexivity|].
        specialize (Ha _ Hin2). specialize (Hb _ Hin1). lia. }
      subst b. f_equal. apply IH; [exact Hs2|].
      now apply Permutation_cons_inv in Hp.
Qed.

(** Two iterations over sets with the same elements are rearrangements of
    one another. *)
Lemma set_iter_perm (O1 O2 : SetOrder) l1 l2 :
  (forall t, List.In t l1 <-> List.In t l2) ->
  Permutation (@set_iter O1 l1) (@set_iter O2 l2).
Proof.
  intros Hl. apply Permutation.NoDup_Permutation; try apply set_iter_NoDup.
  intros t. rewrite !set_iter_In. apply Hl.
Qed.

Lemma map_eq_inj_on {X Y} (f : X -> Y) (l1 l2 : list X) :
  (forall a b, List.In a l1 -> List.In b l2 -> f a = f b -> a = b) ->
  map f l1 = map f l2 -> l1 = l2.
Proof.
  revert l2. induction l1 as [|a l1 IH]; intros [|b l2] Hinj E; simpl in E;
    try discriminate; [reflexivity|].
  injection E as Hab E. f_equal.
  - apply Hinj; simpl; auto.
  - apply IH; [|exact E]. intros x y Hx Hy. apply Hinj; simpl; auto.
Qed.

Lemma console_console ins1 o1 ins2 o2 w :
  console ins2 o2 (console ins1 o1 w) = console ins2 (o1 ++ o2) w.
Proof. unfold console. simpl. now rewrite app_assoc. Qed.

Lemma for_each_print {X} (f : X -> string) (l : list X) w :
  for_each l (fun x => print (f x)) w = Ok tt (console (stdin w) (map f l) w).
Proof.
  revert w. induction l as [|x l IH]; intros w.
  - destruct w. unfold console. simpl. unfold ret. now rewrite app_nil_r.
  - cbn [for_each]. unfold bind at 1. unfold print at 1. rewrite IH.
    unfold console. simpl. now rewrite <- app_assoc.
Qed.

(** The pass in one equation: the menu, the line of tokens, then either
    the [ValueError] of [sorted] or the tokens in the order [sorted] gave
    them. *)
Lemma input_body_parts_and_exercises_eq `{SetOrder} self w line rest :
  stdin w = line :: rest ->
  input_body_parts_and_exercises self w =
  match sorted_key_int (set_iter (Py.split "," line)) with
  | Some selected_parts =>
      for_fold selected_parts (select_part self) [] (console rest (parts_menu self) w)
  | None => Raise ValueError (console rest (parts_menu self) w)
  end.
Proof.
  intros Hw. unfold input_body_parts_and_exercises.
  unfold bind at 1. unfold print at 1.
  unfold bind at 1. rewrite for_each_print.
  unfold bind at 1. unfold input at 1. simpl. rewrite Hw.
  unfold bind at 1.
  assert (E : forall ins,
    mkWorld ins
      ((stdout w ++ ["--- Select Body Parts You Trained ---"]) ++
        map (fun ip => (Py.str_nat (fst ip) ++ ". " ++ snd ip)%string)
          (enumerate 1 (body_parts self)) ++ [parts_prompt])
      (files w) (clock w) (ticks w) (system w)
    = console ins (parts_menu self) w).
  { intros ins. unfold console, parts_menu, numbered. simpl.
    now rewrite <- !app_assoc. }
  unfold parts_prompt in E. rewrite <- app_assoc, E.
  destruct (sorted_key_int _); reflexivity.
Qed.

Lemma select_part_invalid self data part_index w :
  valid_choice part_index (length (body_parts self)) = false ->
  select_part self data part_index w =
  Ok data (console (stdin w) [invalid_part] w).
Proof. intros E. unfold select_part. rewrite E. reflexivity. Qed.

Lemma exercise_round_invalid self part items data w line rest :
  assoc (exercises self) part = Some items ->
  stdin w = line :: rest ->
  valid_choice line (length items) = false ->
  exercise_round self part data w =
  Ok (inl data) (console rest (exercise_menu part items) w).
Proof.
  intros Hi Hw Hv. unfold exercise_round.
  unfold bind at 1. unfold print at 1.
  unfold bind at 1. unfold dict_get. rewrite Hi. unfold ret at 1.
  unfold bind at 1. rewrite for_each_print.
  unfold bind at 1. unfold input at 1. simpl. rewrite Hw, Hv.
  unfold again, ret, console, exercise_menu, numbered. simpl.
  now rewrite <- !app_assoc.
Qed.

(** A token that [int] rejects stops the pass and the top-level loop with
    an uncaught [ValueError], before any token is looked at. *)
Lemma rejected_token_raises `{SetOrder} self w line rest tok :
  stdin w = line :: rest ->
  List.In tok (Py.split "," line) -> Py.int tok = None ->
  input_body_parts_and_exercises self w = Raise ValueError (console rest (parts_menu self) w) /\
  main_loop self w = Raise ValueError (console rest (parts_menu self) w).
Proof.
  intros Hw Hin Hn.
  assert (E : input_body_parts_and_exercises self w
              = Raise ValueError (console rest (parts_menu self) w)).
  { rewrite (input_body_parts_and_exercises_eq self w line rest Hw).
    pose proof (sorted_key_int_spec (set_iter (Py.split "," line))) as Hs.
    destruct (sorted_key_int _) as [sel|]; [|reflexivity].
    destruct Hs as (Hp & _ & Hall). exfalso.
    rewrite List.Forall_forall in Hall.
    assert (Ht : List.In tok sel).
    { apply (Permutation_in _ (Permutation_sym Hp)). now apply set_iter_In. }
    apply Hall in Ht. congruence. }
  split; [exact E|].
  rewrite main_loop_unfold. unfold main_round, bind. now rewrite E.
Qed.

(** C2.  On the line "1,a" the token "a" is not a digit string, and it is
    neither reported nor skipped: the pass raises [ValueError] right after
    the line is read, nothing of the valid token "1" is processed, and the
    top-level loop, which catches nothing, ends with that exception. *)
Theorem non_integer_token_stops_the_program (O : SetOrder) (self : FitnessApp)
    (rest out : list string) (fs : gmap string (list (list cell)))
    (clk : nat -> datetime) (tk : nat) (sys : string) :
  let w := mkWorld ("1,a" :: rest) out fs clk tk sys in
  Py.isdigit "a" = false /\
  input_body_parts_and_exercises self w =
    Raise ValueError (console rest (parts_menu self) w) /\
  main_loop self w = Raise ValueError (console rest (parts_menu self) w).
Proof.
  intros w. split; [reflexivity|].
  apply (rejected_token_raises self w "1,a" rest "a"); try reflexivity.
  right. now left.
Qed.

Lemma NoDup_map_inj {X Y} (f : X -> Y) (l : list X) a b :
  List.NoDup (map f l) -> List.In a l -> List.In b l -> f a = f b -> a = b.
Proof.
  induction l as [|x l IH]; simpl; intros Hn Ha Hb E; [tauto|].
  inversion Hn as [|? ? Hx Hn']; subst.
  destruct Ha as [->|Ha], Hb as [->|Hb]; auto.
  - exfalso. apply Hx. rewrite E. now apply in_map.
  - exfalso. apply Hx. rewrite <- E. now apply in_map.
Qed.

(** When the tokens are integers with distinct values, the order of the
    selection is fixed, whatever the order of the set. *)
Lemma selection_when_keys_distinct `{SetOrder} tokens expected :
  (forall t, List.In t expected <-> List.In t tokens) ->
  Forall (fun s => Py.int s = Some (int_key s)) expected ->
  Sorted Z.le (map int_key expected) ->
  List.NoDup (map int_key expected) ->
  sorted_key_int (set_iter tokens) = Some expected.
Proof.
  intros Hel Hint Hsort Hnd.
  pose proof (sorted_key_int_spec (set_iter tokens)) as Hs.
  destruct (sorted_key_int (set_iter tokens)) as [sel|].
  - destruct Hs as (Hp & Hs & _). f_equal.
    assert (Hpe : Permutation sel expected).
    { rewrite Hp. apply Permutation.NoDup_Permutation.
      - apply set_iter_NoDup.
      - now apply NoDup_map_inv in Hnd.
      - intros t. rewrite set_iter_In. symmetry. apply Hel. }
    apply (map_eq_inj_on int_key).
    + intros a b Ha Hb. apply (NoDup_map_inj int_key expected); auto.
      now apply (Permutation_in _ Hpe).
    + apply sorted_perm_eq; auto. now apply Permutation_map.
  - destruct Hs as (s & Hin & Hn). exfalso.
    apply set_iter_In, Hel in Hin. rewrite List.Forall_forall in Hint.
    apply Hint in Hin. congruence.
Qed.

Ltac distinct_keys :=
  apply selection_when_keys_distinct;
  [ intros t; simpl; tauto
  | repeat constructor
  | repeat constructor; vm_compute; discriminate
  | repeat (constructor; [simpl; intuition discriminate|]); constructor ].

Lemma selection_3_1_1_5 `{SetOrder} :
  sorted_key_int (set_iter (Py.split "," "3,1,1,5")) = Some ["1"; "3"; "5"].
Proof. change (Py.split "," "3,1,1,5") with ["3"; "1"; "1"; "5"]. distinct_keys. Qed.

Lemma selection_0_2_99 `{SetOrder} :
  sorted_key_int (set_iter (Py.split "," "0,2,99")) = Some ["0"; "2"; "99"].
Proof. change (Py.split "," "0,2,99") with ["0"; "2"; "99"]. distinct_keys. Qed.

(** The line "0,2,99": 0 and 99 are reported and skipped, and the pass
    goes on with body part 2, Back. *)
Lemma tokens_0_2_99_select_back `{SetOrder} :
  exists w',
    input_body_parts_and_exercises example_app
      (fresh ["0,2,99"; "1"; "50"; "8"; "3"; "n"]) =
    Ok [[Str "2026-11-03 09:05:07"; Str "Back"; Str "Lat Pull Down";
         Float 50; Int 8; Int 3]] w' /\
    stdin w' = [] /\
    List.count_occ string_dec (stdout w') invalid_part = 2%nat.
Proof.
  rewrite (input_body_parts_and_exercises_eq example_app
             (fresh ["0,2,99"; "1"; "50"; "8"; "3"; "n"]) "0,2,99"
             ["1"; "50"; "8"; "3"; "n"] eq_refl).
  rewrite selection_0_2_99. eexists. vm_compute. repeat split; reflexivity.
Qed.

Lemma selection_single `{SetOrder} (tok : string) (k : Z) :
  Py.split "," tok = [tok] -> Py.int tok = Some k ->
  sorted_key_int (set_iter (Py.split "," tok)) = Some [tok].
Proof.
  intros -> Hk. apply selection_when_keys_distinct.
  - tauto.
  - repeat constructor. unfold int_key. now rewrite Hk.
  - repeat constructor.
  - repeat constructor. simpl. tauto.
Qed.

(** The values of the selection, in order, depend only on which tokens
    occur in the line: not on their order, their repetitions, or the order
    in which the set hands them out. *)
Lemma selection_independent (O1 O2 : SetOrder) (l1 l2 : list string) :
  (forall t, List.In t l1 <-> List.In t l2) ->
  option_map (map int_key) (sorted_key_int (@set_iter O1 l1)) =
  option_map (map int_key) (sorted_key_int (@set_iter O2 l2)).
Proof.
  intros Hl.
  pose proof (sorted_key_int_spec (@set_iter O1 l1)) as H1.
  pose proof (sorted_key_int_spec (@set_iter O2 l2)) as H2.
  pose proof (set_iter_perm O1 O2 l1 l2 Hl) as Hp.
  destruct (sorted_key_int (@set_iter O1 l1)) as [s1|],
           (sorted_key_int (@set_iter O2 l2)) as [s2|]; simpl.
  - destruct H1 as (P1 & S1 & _), H2 as (P2 & S2 & _). f_equal.
    apply sorted_perm_eq; auto. apply Permutation_map.
    now rewrite P1, Hp, P2.
  - exfalso. destruct H1 as (P1 & _ & A1), H2 as (t & Hin & Hn).
    rewrite List.Forall_forall in A1.
    assert (Ht : List.In t s1).
    { apply (Permutation_in _ (Permutation_sym P1)).
      apply (Permutation_in _ (Permutation_sym Hp)). exact Hin. }
    apply A1 in Ht. congruence.
  - exfalso. destruct H2 as (P2 & _ & A2), H1 as (t & Hin & Hn).
    rewrite List.Forall_forall in A2.
    assert (Ht : List.In t s2).
    { apply (Permutation_in _ (Permutation_sym P2)).
      apply (Permutation_in _ Hp). exact Hin. }
    apply A2 in Ht. congruence.
  - reflexivity.
Qed.

(** C6.  The tokens of the line are taken as a set and sorted by their
    integer value.  When [sorted] returns, the selection holds each token
    of the line once, in an order in which the values do not decrease,
    and the values in that order are the same for every line with the same
    tokens and every order of the set; [sorted] fails to return only when
    [int] rejects a token.  The pass then handles the selection from left
    to right.  For "3,1,1,5" the selection is 1, 3, 5, which are Chest,
    Arms and Legs. *)
Theorem selection_is_a_sorted_set (O : SetOrder) (line : string) :
  match sorted_key_int (set_iter (Py.split "," line)) with
  | Some selected_parts =>
      List.NoDup selected_parts /\
      (forall t, List.In t selected_parts <-> List.In t (Py.split "," line)) /\
      Sorted Z.le (map int_key selected_parts) /\
      (forall (O' : SetOrder) (line' : string),
         (forall t, List.In t (Py.split "," line') <-> List.In t (Py.split "," line)) ->
         option_map (map int_key) (sorted_key_int (@set_iter O' (Py.split "," line')))
         = Some (map int_key selected_parts)) /\
      (forall self w rest, stdin w = line :: rest ->
         input_body_parts_and_exercises self w =
         for_fold selected_parts (select_part self) []
           (console rest (parts_menu self) w))
  | None => exists t, List.In t (Py.split "," line) /\ Py.int t = None
  end /\
  sorted_key_int (set_iter (Py.split "," "3,1,1,5")) = Some ["1"; "3"; "5"] /\
  (forall w, chosen the_body_parts "1" w = Ok "Chest" w /\
             chosen the_body_parts "3" w = Ok "Arms" w /\
             chosen the_body_parts "5" w = Ok "Legs" w).
Proof.
  split; [|split; [apply selection_3_1_1_5 | intros w; repeat split]].
  pose proof (sorted_key_int_spec (set_iter (Py.split "," line))) as Hs.
  destruct (sorted_key_int (set_iter (Py.split "," line))) as [sel|] eqn:E.
  - destruct Hs as (Hp & Hsort & _). repeat split.
    + apply (Permutation_NoDup (Permutation_sym Hp)), set_iter_NoDup.
    + intros Ht. apply set_iter_In. now apply (Permutation_in _ Hp).
    + intros Ht. apply (Permutation_in _ (Permutation_sym Hp)).
      now apply set_iter_In.
    + exact Hsort.
    + intros O' line' Hl.
      rewrite (selection_independent O' O _ (Py.split "," line) Hl).
      now rewrite E.
    + intros self w rest Hw.
      rewrite (input_body_parts_and_exercises_eq self w line rest Hw).
      now rewrite E.
  - destruct Hs as (t & Hin & Hn). exists t. split; [|exact Hn].
    exact (proj1 (set_iter_In _ _) Hin).
Qed.

(** The line "3,1,1,5", then one exercise for each body part: the records
    come out for Chest, Arms and Legs, in that order. *)
Lemma selection_is_a_sorted_set_witness :
  exists w',
    input_body_parts_and_exercises example_app
      (fresh ["3,1,1,5"; "1"; "60"; "10"; "3"; "n"; "1"; "20"; "12"; "3"; "n";
              "1"; "100"; "8"; "4"; "n"]) =
    Ok [ [Str "2026-11-03 09:05:07"; Str "Chest"; Str "Incline Smith Press";
          Float 60; Int 10; Int 3];
         [Str "2026-11-03 09:05:07"; Str "Arms"; Str "Bicep Curl (Free Weights)";
          Float 20; Int 12; Int 3];
         [Str "2026-11-03 09:05:07"; Str "Legs"; Str "Leg Press";
          Float 100; Int 8; Int 4] ] w' /\
    stdin w' = [].
Proof.
  destruct (selection_is_a_sorted_set first_seen_order "3,1,1,5") as [H _].
  destruct H as (_ & _ & _ & _ & H).
  eexists.
  rewrite (H example_app
             (fresh ["3,1,1,5"; "1"; "60"; "10"; "3"; "n"; "1"; "20"; "12"; "3"; "n";
                     "1"; "100"; "8"; "4"; "n"])
             ["1"; "60"; "10"; "3"; "n"; "1"; "20"; "12"; "3"; "n";
              "1"; "100"; "8"; "4"; "n"] eq_refl).
  vm_compute. split; reflexivity.
Defined.

(** * The exercises of a body part *)

(** C3, as the spec has it, fails.  For Chest, the number 99 is out of
    range.  The line after it, "1", is
    read as the number of an exercise of Chest again, and a record for
    Chest is collected: the loop was not left. *)
Lemma invalid_exercise_index_keeps_the_body_part :
  (exists w',
     while_true (exercise_round example_app "Chest") []
       (fresh ["99"; "1"; "60"; "10"; "3"; "n"]) =
     Ok [[Str "2026-11-03 09:05:07"; Str "Chest"; Str "Incline Smith Press";
          Float 60; Int 10; Int 3]] w' /\
     stdin w' = []) /\
  ~ invalid_exercise_index_leaves_the_loop.
Proof.
  assert (E : exists w',
     while_true (exercise_round example_app "Chest") []
       (fresh ["99"; "1"; "60"; "10"; "3"; "n"]) =
     Ok [[Str "2026-11-03 09:05:07"; Str "Chest"; Str "Incline Smith Press";
          Float 60; Int 10; Int 3]] w' /\
     stdin w' = []).
  { eexists. vm_compute. split; reflexivity. }
  split; [exact E|]. intros Hclaim.
  destruct E as (w1 & E & _).
  destruct (Hclaim example_app "Chest"
              ["Incline Smith Press"; "Close Grip Flat Press"; "Wide Grip Flat Press";
               "Decline Chest Press"; "Pec Deck Fly"; "High-To-Low Cable Fly";
               "Mid Cable Fly"; "Low-To-High Cable Fly"; "Bench Press";
               "Incline Machine Press"]
              [] (fresh ["99"; "1"; "60"; "10"; "3"; "n"]) "99"
              ["1"; "60"; "10"; "3"; "n"] eq_refl eq_refl eq_refl)
    as (w2 & E2 & _).
  rewrite E in E2. discriminate E2.
Qed.

(** C3, as the code has it.  An invalid exercise number ends nothing: no
    message is printed, no record is added, and the loop goes on for the
    same body part with the same records, so that the menu of that body
    part is shown again and the next line is read as the number of one of
    its exercises. *)
Theorem invalid_exercise_index_asks_again self part items data w line rest :
  assoc (exercises self) part = Some items ->
  stdin w = line :: rest ->
  valid_choice line (length items) = false ->
  exercise_round self part data w =
    Ok (inl data) (console rest (exercise_menu part items) w) /\
  while_true (exercise_round self part) data w =
    while_true (exercise_round self part) data
      (console rest (exercise_menu part items) w).
Proof.
  intros Hi Hw Hv.
  pose proof (exercise_round_invalid self part items data w line rest Hi Hw Hv) as E.
  split; [exact E|].
  rewrite (while_unfold _ (progress_exercise_round self part)). now rewrite E.
Qed.

Lemma invalid_exercise_index_asks_again_witness :
  exists w',
    while_true (exercise_round example_app "Chest") []
      (fresh ["99"; "1"; "60"; "10"; "3"; "n"]) =
    Ok [[Str "2026-11-03 09:05:07"; Str "Chest"; Str "Incline Smith Press";
         Float 60; Int 10; Int 3]] w' /\
    stdin w' = [] /\
    List.count_occ string_dec (stdout w') exercise_prompt = 2%nat.
Proof.
  eexists.
  rewrite (proj2 (invalid_exercise_index_asks_again example_app "Chest"
             ["Incline Smith Press"; "Close Grip Flat Press"; "Wide Grip Flat Press";
              "Decline Chest Press"; "Pec Deck Fly"; "High-To-Low Cable Fly";
              "Mid Cable Fly"; "Low-To-High Cable Fly"; "Bench Press";
              "Incline Machine Press"]
             [] (fresh ["99"; "1"; "60"; "10"; "3"; "n"]) "99"
             ["1"; "60"; "10"; "3"; "n"] eq_refl eq_refl eq_refl)).
  vm_compute. repeat split; reflexivity.
Defined.

(** * The end of the program *)

(** The only round that leaves the top-level loop: a pass with records,
    saved, and the answer no. *)
Lemma main_round_leaves `{SetOrder} self w a w' :
  main_round self tt w = Ok (inr a) w' ->
  exists data w1 w2, data <> [] /\
    input_body_parts_and_exercises self w = Ok data w1 /\
    save_fitness_data self data w1 = Ok tt w2 /\
    prompt_yes_no another_set w2 = Ok false w'.
Proof.
  unfold main_round, bind.
  destruct (input_body_parts_and_exercises self w) as [data w1|e w1|w1|] eqn:E1;
    try discriminate.
  destruct data as [|entry data]; [discriminate|].
  destruct (save_fitness_data self (entry :: data) w1) as [[] w2|e w2|w2|] eqn:E2;
    try discriminate.
  fold another_set.
  destruct (prompt_yes_no another_set w2) as [another w3|e w3|w3|] eqn:E3;
    try discriminate.
  destruct another; simpl; [discriminate|].
  intros [= <- <-]. exists (entry :: data), w1, w2. repeat split; auto.
Qed.

(** C7.  A pass that returns no record writes no file; the failure
    message is printed and the loop runs again from the menu of body
    parts.  A pass with records that is saved and answered with yes runs
    the loop again too.  The loop returns only from a round in which the
    pass had records, they were saved, and the answer was no. *)
Theorem main_loop_ends_only_on_no (O : SetOrder) (self : FitnessApp) (w : world) :
  (forall w1, input_body_parts_and_exercises self w = Ok [] w1 ->
     files w1 = files w /\
     main_round self tt w = Ok (inl tt) (console (stdin w1) [start_over] w1) /\
     main_loop self w = main_loop self (console (stdin w1) [start_over] w1)) /\
  (forall data w1 w2 w3, data <> [] ->
     input_body_parts_and_exercises self w = Ok data w1 ->
     save_fitness_data self data w1 = Ok tt w2 ->
     prompt_yes_no another_set w2 = Ok true w3 ->
     main_loop self w = main_loop self w3) /\
  (forall w', main_loop self w = Ok tt w' ->
     exists w0 data w1 w2, data <> [] /\
       input_body_parts_and_exercises self w0 = Ok data w1 /\
       save_fitness_data self data w1 = Ok tt w2 /\
       prompt_yes_no another_set w2 = Ok false w').
Proof.
  split; [|split].
  - intros w1 E1. split; [|split].
    + pose proof (reading_input_body_parts_and_exercises self w) as Hr.
      unfold wp in Hr. rewrite E1 in Hr. unfold reads in Hr. tauto.
    + unfold main_round, bind. rewrite E1. reflexivity.
    + rewrite main_loop_unfold. unfold main_round, bind. rewrite E1. reflexivity.
  - intros data w1 w2 w3 Hne E1 E2 E3.
    rewrite main_loop_unfold. unfold main_round, bind. rewrite E1.
    destruct data as [|entry data]; [congruence|].
    rewrite E2. fold another_set. rewrite E3. reflexivity.
  - intros w' E.
    assert (Hwp : wp (main_loop self)
      (fun _ w' => exists w0 data w1 w2, data <> [] /\
         input_body_parts_and_exercises self w0 = Ok data w1 /\
         save_fitness_data self data w1 = Ok tt w2 /\
         prompt_yes_no another_set w2 = Ok false w')
      (fun _ _ => True) w).
    { apply (wp_while _ (fun _ _ => True)); [|exact I].
      intros [] w0 _. pose proof (wp_main_round self w0) as Hr.
      unfold wp in *.
      destruct (main_round self tt w0) as [[[]|[]] w2|e w2|w2|] eqn:E0; auto.
      - split; [exact I | tauto].
      - destruct (main_round_leaves self w0 tt w2 E0) as (data & w1 & w3 & Hm).
        exists w0, data, w1, w3. exact Hm. }
    unfold wp in Hwp. rewrite E in Hwp. exact Hwp.
Qed.

(** A pass with the invalid body part 9 returns nothing: the message is
    printed, no file is written, and the next line opens a new pass, which
    is saved; the answer no then ends the run. *)
Lemma main_loop_ends_only_on_no_witness :
  exists w',
    main_loop example_app (fresh ["9"; "1"; "1"; "60"; "10"; "3"; "n"; "n"]) = Ok tt w' /\
    List.In start_over (stdout w') /\
    files w' !! "gym/2026-11-03.csv" =
      Some [headers;
            [Str "2026-11-03 09:05:07"; Float 180; Float 80; Float (2000 # 81);
             Str "Normal weight"; Str "Chest"; Str "Incline Smith Press";
             Float 60; Int 10; Int 3]].
Proof.
  destruct (main_loop_ends_only_on_no first_seen_order example_app
              (fresh ["9"; "1"; "1"; "60"; "10"; "3"; "n"; "n"])) as [H _].
  eassert (E : input_body_parts_and_exercises example_app
                 (fresh ["9"; "1"; "1"; "60"; "10"; "3"; "n"; "n"]) = Ok [] _)
    by (vm_compute; reflexivity).
  destruct (H _ E) as (_ & _ & Hm). rewrite Hm.
  eexists. vm_compute. repeat split; auto 20.
Defined.

(** * The end-to-end scenario *)

(** C8, as the spec has it, fails on the BMI cell.  In a fresh folder the
    run of the scenario leaves the header and one data row in the file of
    the day; the BMI printed is 24.69, but the fourth cell of the row is
    the BMI as computed, 2000/81 = 24.6913..., which is not 24.69. *)
Lemma scenario_row_holds_the_unrounded_bmi :
  exists w',
    main "gym" (fresh scenario) = Ok tt w' /\
    files w' !! "gym/2026-11-03.csv" =
      Some [headers;
            [Str "2026-11-03 09:05:07"; Float 180; Float 80; Float (2000 # 81);
             Str "Normal weight"; Str "Chest"; Str "Incline Smith Press";
             Float 60; Int 10; Int 3]] /\
    files w' !! "gym/2026-11-03.csv" <>
      Some [headers;
            [Str "2026-11-03 09:05:07"; Float 180; Float 80; Float 24.69;
             Str "Normal weight"; Str "Chest"; Str "Incline Smith Press";
             Float 60; Int 10; Int 3]] /\
    ~ (2000 # 81 == 24.69)%Q /\
    List.In "Your BMI is: 24.69 (Normal weight)" (stdout w').
Proof.
  eexists. vm_compute. repeat split; auto 10; discriminate.
Qed.

(** ** The valid answers, step by step *)

(** [prompt_yes_no] on the next line: yes, no, or the question again. *)
Lemma prompt_yes_no_eq message w line rest :
  stdin w = line :: rest ->
  prompt_yes_no message w =
  if existsb (String.eqb (Py.lower line)) ["yes"; "y"]
  then Ok true (console rest [(message ++ yes_no_suffix)%string] w)
  else if existsb (String.eqb (Py.lower line)) ["no"; "n"]
  then Ok false (console rest [(message ++ yes_no_suffix)%string] w)
  else prompt_yes_no message
         (console rest [(message ++ yes_no_suffix)%string; invalid_yes_no] w).
Proof.
  intros Hw. unfold prompt_yes_no.
  rewrite (while_unfold _ (progress_yes_no_round message)).
  unfold yes_no_round at 1. unfold bind at 1. unfold input at 1. rewrite Hw.
  cbv zeta.
  destruct (existsb (String.eqb (Py.lower line)) ["yes"; "y"]); [reflexivity|].
  destruct (existsb (String.eqb (Py.lower line)) ["no"; "n"]); [reflexivity|].
  unfold bind, print, again, ret, console. simpl. now rewrite <- app_assoc.
Qed.

(** Three lines that parse to positive numbers end the loop at once. *)
Lemma input_weight_reps_sets_valid w a b c rest x r s :
  stdin w = a :: b :: c :: rest ->
  Py.float a = Some x -> Py.int b = Some r -> Py.int c = Some s ->
  Py.ltb 0 x && (0 <? r) && (0 <? s) = true ->
  input_weight_reps_sets w =
  Ok (x, r, s) (console rest [weight_prompt; reps_prompt; sets_prompt] w).
Proof.
  intros Hw Ha Hb Hc Hp. rewrite input_weight_reps_sets_unfold.
  now rewrite (round_positive w a b c rest x r s Hw Ha Hb Hc Hp).
Qed.

Lemma exercise_round_valid self part items data w line rest k exercise :
  assoc (exercises self) part = Some items ->
  stdin w = line :: rest ->
  valid_choice line (length items) = true ->
  Py.int line = Some k -> 0 <= k - 1 ->
  nth_error items (Z.to_nat (k - 1)) = Some exercise ->
  exercise_round self part data w =
  record_exercise part exercise data (console rest (exercise_menu part items) w).
Proof.
  intros Hi Hw Hv Hk Hpos Hn. unfold exercise_round.
  unfold bind at 1. unfold print at 1.
  unfold bind at 1. unfold dict_get. rewrite Hi. unfold ret at 1.
  unfold bind at 1. rewrite for_each_print.
  unfold bind at 1. unfold input at 1. cbn [stdin stdout files clock ticks system console].
  rewrite Hw, Hv.
  unfold bind at 1. unfold chosen, bind at 1. rewrite Hk.
  unfold lift_value_error, ret at 1. unfold getitem.
  destruct (k - 1 <? 0) eqn:E; [apply Z.ltb_lt in E; lia|]. rewrite E, Hn.
  unfold ret at 1.
  replace (mkWorld rest _ _ _ _ _) with (console rest (exercise_menu part items) w).
  - reflexivity.
  - unfold console, exercise_menu, numbered. simpl. now rewrite <- !app_assoc.
Qed.

(** ** The scenario, step by step *)

(** Two lines that parse to positive numbers end [input_user_info]. *)
Lemma input_user_info_valid w a b rest h k bmi category :
  stdin w = a :: b :: rest ->
  Py.float a = Some h -> Py.float b = Some k ->
  Py.ltb 0 h && Py.ltb 0 k = true ->
  calculate_bmi k h = inr (bmi, category) ->
  input_user_info w =
  Ok (mkUserInfo h k bmi category)
     (console rest
        [height_prompt; profile_weight_prompt;
         ("Your BMI is: " ++ Py.format_2f bmi ++ " (" ++ category ++ ")")%string] w).
Proof.
  intros Hw Ha Hb Hp Hc. unfold input_user_info.
  rewrite (while_unfold _ progress_user_info_round).
  destruct w as [ins out fs clk tk sys]. simpl in Hw. subst ins.
  unfold user_info_round. run. rewrite Ha. run. rewrite Hb. run. rewrite Hp, Hc.
  run. tidy. reflexivity.
Qed.

Lemma scenario_init folder w rest :
  stdin w = "180" :: "80" :: rest ->
  init folder w =
  Ok (scenario_app folder)
     (console rest [welcome; height_prompt; profile_weight_prompt;
                    "Your BMI is: 24.69 (Normal weight)"] w).
Proof.
  intros Hw. unfold init. unfold bind at 1. unfold print at 1.
  unfold bind at 1.
  erewrite (input_user_info_valid _ "180" "80" rest 180%Q 80%Q (2000 # 81)%Q "Normal weight");
    [| exact Hw | reflexivity | reflexivity | reflexivity | reflexivity].
  unfold ret, scenario_app, console. simpl. rewrite <- app_assoc. reflexivity.
Qed.

Lemma scenario_chest folder w rest :
  stdin w = "1" :: "60" :: "10" :: "3" :: "n" :: rest ->
  for_fold ["1"] (select_part (scenario_app folder)) [] w =
  Ok [[Str (strftime_datetime (clock w (ticks w))); Str "Chest";
       Str "Incline Smith Press"; Float 60; Int 10; Int 3]]
     (mkWorld rest
        (stdout w ++ exercise_menu "Chest"
                       ["Incline Smith Press"; "Close Grip Flat Press";
                        "Wide Grip Flat Press"; "Decline Chest Press"; "Pec Deck Fly";
                        "High-To-Low Cable Fly"; "Mid Cable Fly";
                        "Low-To-High Cable Fly"; "Bench Press"; "Incline Machine Press"]
                   ++ [weight_prompt; reps_prompt; sets_prompt;
                       (another_exercise ++ yes_no_suffix)%string])
        (files w) (clock w) (S (ticks w)) (system w)).
Proof.
  intros Hw. cbn [for_fold]. unfold bind at 1. unfold select_part.
  change (valid_choice "1" (length (body_parts (scenario_app folder)))) with true.
  cbv iota. unfold bind at 1.
  change (chosen (body_parts (scenario_app folder)) "1" w) with (Ok "Chest" w).
  cbv beta iota.
  rewrite (while_unfold _ (progress_exercise_round _ _)).
  rewrite (exercise_round_valid (scenario_app folder) "Chest" _ [] w "1" _ 1
             "Incline Smith Press" eq_refl Hw eq_refl eq_refl ltac:(lia) eq_refl).
  unfold record_exercise. unfold bind at 1.
  erewrite (input_weight_reps_sets_valid _ "60" "10" "3" _ 60%Q 10 3);
    [| reflexivity | reflexivity | reflexivity | reflexivity | reflexivity].
  unfold bind at 1. unfold now at 1. unfold bind at 1.
  erewrite prompt_yes_no_eq by reflexivity.
  change (existsb (String.eqb (Py.lower "n")) ["yes"; "y"]) with false.
  change (existsb (String.eqb (Py.lower "n")) ["no"; "n"]) with true.
  cbv iota. cbn [negb]. unfold leave, ret, console.
  cbn [stdin stdout files clock ticks system app].
  rewrite <- !app_assoc. reflexivity.
Qed.

(** C8, as the code has it.  Whatever the folder, the platform, the clock
    and the order of the set: when the file of the day is not there, the
    run of the scenario prints the BMI as 24.69 with the category Normal
    weight and returns, and the file of the day then holds the header and
    one data row, whose BMI cell is the quotient 80 / 1.8^2 = 2000/81 in
    full. *)
Theorem scenario_writes_header_and_one_row (O : SetOrder) (folder : string) (w : world) :
  let path := os_path_join (system w) folder
                (strftime_date (clock w (S (ticks w))) ++ "." ++ log_extension (system w)) in
  stdin w = scenario ->
  files w !! path = None ->
  exists w',
    main folder w = Ok tt w' /\
    List.In "Your BMI is: 24.69 (Normal weight)" (stdout w') /\
    files w' =
      <[path := [headers;
                 [Str (strftime_datetime (clock w (ticks w))); Float 180; Float 80;
                  Float (2000 # 81); Str "Normal weight"; Str "Chest";
                  Str "Incline Smith Press"; Float 60; Int 10; Int 3]]]> (files w) /\
    (2000 # 81 == 80 / (180 / 100) ^ 2)%Q.
Proof.
  intros path Hw Hnew. unfold main. unfold bind at 1.
  rewrite (scenario_init folder w _ Hw).
  set (w1 := console _ _ w).
  rewrite main_loop_unfold. unfold main_round. unfold bind at 1.
  rewrite (input_body_parts_and_exercises_eq (scenario_app folder) w1 "1"
             ["1"; "60"; "10"; "3"; "n"; "n"] eq_refl).
  rewrite (selection_single "1" 1 eq_refl eq_refl).
  rewrite (scenario_chest folder
             (console ["1"; "60"; "10"; "3"; "n"; "n"]
                (parts_menu (scenario_app folder)) w1) ["n"] eq_refl).
  set (w2 := mkWorld ["n"] _ _ _ _ _).
  unfold bind at 1.
  rewrite save_fitness_data_eq by (repeat constructor; discriminate).
  unfold bind at 1.
  erewrite prompt_yes_no_eq by reflexivity.
  change (existsb (String.eqb (Py.lower "n")) ["yes"; "y"]) with false.
  change (existsb (String.eqb (Py.lower "n")) ["no"; "n"]) with true.
  cbv iota. cbn [negb]. unfold leave, ret. eexists. split; [reflexivity|].
  unfold console. cbn [stdout files]. split; [|split].
  - do 2 (apply in_or_app; left). unfold w2. cbn [stdout].
    apply in_or_app; left. unfold console at 1. cbn [stdout].
    apply in_or_app; left. unfold w1, console. cbn [stdout].
    apply in_or_app; right. do 3 right. now left.
  - unfold log_path, content.
    change (folder_path (scenario_app folder)) with folder.
    change (user_info (scenario_app folder))
      with (mkUserInfo 180 80 (2000 # 81) "Normal weight").
    cbn [system clock ticks files w2 w1 console]. fold path. rewrite Hnew.
    rewrite bool_decide_eq_false_2 by (intros [? ?]; discriminate).
    reflexivity.
  - reflexivity.
Qed.

Lemma scenario_writes_header_and_one_row_witness :
  exists w',
    main "gym" (fresh scenario) = Ok tt w' /\
    files w' !! "gym/2026-11-03.csv" =
      Some [headers;
            [Str "2026-11-03 09:05:07"; Float 180; Float 80; Float (2000 # 81);
             Str "Normal weight"; Str "Chest"; Str "Incline Smith Press";
             Float 60; Int 10; Int 3]].
Proof.
  destruct (scenario_writes_header_and_one_row first_seen_order "gym"
              (fresh scenario) eq_refl eq_refl) as (w' & E & _ & Hf & _).
  exists w'. split; [exact E|]. rewrite Hf. vm_compute. reflexivity.
Defined.

(** * What is collected and what is persisted *)

(** C9.  The loop of lines 134-144 returns only a positive weight, a
    positive number of reps and a positive number of sets; every entry a
    pass returns was built from such a triple; and every data row the
    top-level loop adds to a file, however the run ends, holds such a
    triple. *)
Theorem records_hold_positive_numbers (O : SetOrder) (self : FitnessApp) (w : world) :
  (forall x r s w', input_weight_reps_sets w = Ok (x, r, s) w' ->
     (0 < x)%Q /\ 0 < r /\ 0 < s) /\
  (forall data w', input_body_parts_and_exercises self w = Ok data w' ->
     Forall (fun entry =>
               exists ts part exercise x r s,
                 entry = [Str ts; Str part; Str exercise; Float x; Int r; Int s] /\
                 (0 < x)%Q /\ 0 < r /\ 0 < s) data) /\
  (forall w' path, end_world (main_loop self w) = Some w' ->
     exists added,
       content (files w') path = content (files w) path ++ added /\
       Forall (fun row =>
                 row = headers \/
                 exists ts part exercise x r s,
                   row = [Str ts; Float (height_cm (user_info self));
                          Float (weight_kg (user_info self));
                          Float (BMI (user_info self));
                          Str (BMI_Category (user_info self));
                          Str part; Str exercise; Float x; Int r; Int s] /\
                   (0 < x)%Q /\ 0 < r /\ 0 < s) added).
Proof.
  split; [|split].
  - intros x r s w' E.
    destruct (input_weight_reps_sets_result w x r s w' E)
      as (pre & a & b & c & _ & _ & _ & _ & Hp). exact Hp.
  - intros data w' E.
    pose proof (wp_input_body_parts_and_exercises self w) as Hw.
    unfold wp in Hw. rewrite E in Hw. apply Hw.
  - intros w' path E. exact (main_loop_logged self w w' E path).
Qed.

Lemma records_hold_positive_numbers_witness :
  exists w',
    input_body_parts_and_exercises example_app
      (fresh ["2"; "1"; "0"; "8"; "3"; "-5"; "8"; "3"; "50"; "8"; "3"; "n"]) =
    Ok [[Str "2026-11-03 09:05:07"; Str "Back"; Str "Lat Pull Down";
         Float 50; Int 8; Int 3]] w' /\
    (0 < 50)%Q /\ 0 < 8 /\ 0 < 3.
Proof.
  eassert (E : input_body_parts_and_exercises example_app
                 (fresh ["2"; "1"; "0"; "8"; "3"; "-5"; "8"; "3"; "50"; "8"; "3"; "n"])
               = Ok _ _) by (vm_compute; reflexivity).
  eexists. split; [exact E|].
  destruct (records_hold_positive_numbers first_seen_order example_app
              (fresh ["2"; "1"; "0"; "8"; "3"; "-5"; "8"; "3"; "50"; "8"; "3"; "n"]))
    as (_ & H & _).
  specialize (H _ _ E). inversion H as [|entry rest Hentry _]. subst.
  destruct Hentry as (ts & part & ex & x & r & s & Heq & Hp).
  injection Heq as _ _ _ <- <- <-. exact Hp.
Defined.

(** C5.  One call of [save_fitness_data] appends, after the header if the
    file is new, one row per entry, in the order of the entries; the row of
    an entry is its time stamp, the height, weight, BMI and category of
    [self.user_info], then body part, exercise, weight, reps and sets.
    The profile is the one start-up captured: [__init__] prints the
    welcome line and runs [input_user_info] from there, the profile of the
    application object is the value that very run returned, and the
    top-level loop starts in the world that run ended in.  Every data row
    the top-level loop adds to any file, over all its calls, carries that
    profile. *)
Theorem rows_join_profile_and_record (O : SetOrder) (self : FitnessApp) :
  (forall data w, Forall is_record data ->
     exists w',
       save_fitness_data self data w = Ok tt w' /\
       content (files w') (log_path self w) =
         content (files w) (log_path self w)
         ++ header_if_new (files w) (log_path self w)
         ++ map (profile_row (user_info self)) data) /\
  (forall ts part exercise x r s,
     profile_row (user_info self)
       [Str ts; Str part; Str exercise; Float x; Int r; Int s] =
     [Str ts; Float (height_cm (user_info self)); Float (weight_kg (user_info self));
      Float (BMI (user_info self)); Str (BMI_Category (user_info self));
      Str part; Str exercise; Float x; Int r; Int s]) /\
  (forall folder w0 app w,
     init folder w0 = Ok app w ->
     main folder w0 = main_loop app w /\
     input_user_info (console (stdin w0) [welcome] w0) = Ok (user_info app) w /\
     forall w' path, end_world (main_loop app w) = Some w' ->
       exists added,
         content (files w') path = content (files w) path ++ added /\
         Forall (fun row =>
                   row = headers \/
                   exists entry, is_record entry /\
                     row = profile_row (user_info app) entry) added).
Proof.
  split; [|split].
  - intros data w Hd.
    rewrite (save_fitness_data_eq self data w (is_record_nonempty _ Hd)).
    eexists. split; [reflexivity|].
    unfold content at 1. cbn [files]. rewrite lookup_insert_eq. reflexivity.
  - reflexivity.
  - intros folder w0 app w E. split; [|split].
    + unfold main, bind. now rewrite E.
    + unfold init, bind in E. unfold print at 1 in E.
      match type of E with
      | context [input_user_info ?w1] =>
          change (input_user_info w1 = Ok (user_info app) w);
          destruct (input_user_info w1) as [u w2|e w2|w2|]; try discriminate
      end.
      unfold ret in E. injection E as <- <-. reflexivity.
    + intros w' path Hend.
      destruct (main_loop_logged app w w' Hend path) as (added & Hc & Hr).
      exists added. split; [exact Hc|].
      revert Hr. apply List.Forall_impl. intros row [->|Hrow]; [now left|right].
      destruct Hrow as (ts & part & ex & x & r & s & -> & Hp).
      exists [Str ts; Str part; Str ex; Float x; Int r; Int s].
      split; [|reflexivity]. now exists ts, part, ex, x, r, s.
Qed.

Lemma rows_join_profile_and_record_witness :
  (exists w',
     save_fitness_data example_app
       [[Str "2026-11-03 09:05:07"; Str "Chest"; Str "Bench Press";
         Float 60; Int 10; Int 3];
        [Str "2026-11-03 09:12:40"; Str "Back"; Str "Barbell Row";
         Float 50; Int 8; Int 4]] (fresh []) = Ok tt w' /\
     content (files w') "gym/2026-11-03.csv" =
       [headers;
        [Str "2026-11-03 09:05:07"; Float 180; Float 80; Float (2000 # 81);
         Str "Normal weight"; Str "Chest"; Str "Bench Press"; Float 60; Int 10; Int 3];
        [Str "2026-11-03 09:12:40"; Float 180; Float 80; Float (2000 # 81);
         Str "Normal weight"; Str "Back"; Str "Barbell Row"; Float 50; Int 8; Int 4]]) /\
  (exists app w,
     init "gym" (fresh ["180"; "80"]) = Ok app w /\
     input_user_info (console ["180"; "80"] [welcome] (fresh ["180"; "80"])) =
       Ok (user_info app) w /\
     user_info app = mkUserInfo 180 80 (2000 # 81) "Normal weight").
Proof.
  split.
  2: { eassert (Ei : init "gym" (fresh ["180"; "80"]) = Ok _ _)
         by (vm_compute; reflexivity).
       destruct (proj2 (proj2 (rows_join_profile_and_record first_seen_order
                                 example_app)) "gym" _ _ _ Ei) as (_ & Hu & _).
       eexists _, _. split; [exact Ei|]. split; [exact Hu | reflexivity]. }
  destruct (rows_join_profile_and_record first_seen_order example_app) as [H _].
  destruct (H [[Str "2026-11-03 09:05:07"; Str "Chest"; Str "Bench Press";
                Float 60; Int 10; Int 3];
               [Str "2026-11-03 09:12:40"; Str "Back"; Str "Barbell Row";
                Float 50; Int 8; Int 4]] (fresh []))
    as (w' & E & Hc).
  - repeat constructor.
    + exists "2026-11-03 09:05:07", "Chest", "Bench Press", 60%Q, 10, 3.
      repeat split; reflexivity.
    + exists "2026-11-03 09:12:40", "Back", "Barbell Row", 50%Q, 8, 4.
      repeat split; reflexivity.
  - exists w'. split; [exact E|]. exact Hc.
Defined.


(** * The embedding is adequate *)

Lemma is_digit_range c : Py.is_digit c = true <-> 48 <= Py.code c <= 57.
Proof. unfold Py.is_digit. rewrite andb_true_iff, !Z.leb_le. tauto. Qed.

Lemma is_digit_not_space c : Py.is_digit c = true -> Py.is_space c = false.
Proof.
  rewrite is_digit_range. intros H. unfold Py.is_space.
  apply orb_false_iff. split.
  - apply andb_false_iff. right. apply Z.leb_gt. lia.
  - apply Z.eqb_neq. lia.
Qed.

Lemma is_digit_not_char c (d : ascii) :
  Py.is_digit c = true -> ~ 48 <= Py.code d <= 57 -> Ascii.eqb c d = false.
Proof.
  rewrite is_digit_range. intros Hc Hd.
  destruct (Ascii.eqb c d) eqn:E; [|reflexivity].
  apply Ascii.eqb_eq in E. subst. tauto.
Qed.

Lemma lstrip_digit c cs : Py.is_digit c = true -> Py.lstrip (c :: cs) = c :: cs.
Proof. intros H. simpl. now rewrite (is_digit_not_space c H). Qed.

Lemma strip_digits cs :
  forallb Py.is_digit cs = true -> Py.strip cs = cs.
Proof.
  intros H. unfold Py.strip.
  assert (Hl : forall l, forallb Py.is_digit l = true -> Py.lstrip l = l).
  { intros [|c l] Hd; [reflexivity|]. simpl in Hd.
    apply andb_prop in Hd as [Hc _]. now apply lstrip_digit. }
  rewrite (Hl cs H). rewrite Hl; [apply rev_involutive|].
  rewrite forallb_forall in *. intros c Hc. apply H. now apply in_rev.
Qed.

Lemma scan_digits_all cs : forallb Py.is_digit cs = true ->
  forall acc n, 0 <= acc ->
    exists v m, Py.scan_digits acc n cs = (v, m, []) /\ 0 <= v.
Proof.
  induction cs as [|c cs IH]; intros H acc n Hacc; simpl.
  - now exists acc, n.
  - simpl in H. apply andb_prop in H as [Hc Hcs]. rewrite Hc.
    apply IH; [exact Hcs|].
    apply is_digit_range in Hc. unfold Py.digit_val. lia.
Qed.

(** A digit string is an integer literal, of a value that is not negative:
    where [isdigit()] holds, [int()] raises nothing. *)
Lemma isdigit_int s :
  Py.isdigit s = true -> exists k, Py.int s = Some k /\ 0 <= k.
Proof.
  unfold Py.isdigit, Py.int.
  destruct (list_ascii_of_string s) as [|c cs] eqn:E; [discriminate|].
  intros H. rewrite (strip_digits _ H).
  simpl in H. apply andb_prop in H as [Hc Hcs].
  unfold Py.sign.
  rewrite (is_digit_not_char c "-" Hc) by (vm_compute; intros [H1 _]; now apply H1).
  rewrite (is_digit_not_char c "+" Hc) by (vm_compute; intros [H1 _]; now apply H1).
  unfold Py.digitpart. rewrite Hc.
  destruct (scan_digits_all cs Hcs (Py.digit_val c) 1) as (v & m & Es & Hv).
  { apply is_digit_range in Hc. unfold Py.digit_val. lia. }
  rewrite Es. exists (1 * v). split; [reflexivity | lia].
Qed.

(** After the test of lines 125 and 132, the item is there: [chosen]
    raises nothing. *)
Lemma chosen_after_valid_choice {X} (items : list X) s w :
  valid_choice s (length items) = true ->
  exists x, chosen items s w = Ok x w /\ List.In x items.
Proof.
  unfold valid_choice. intros H. apply andb_prop in H as [Hd Hr].
  destruct (isdigit_int s Hd) as (k & Hk & _). rewrite Hk in Hr.
  apply andb_prop in Hr as [H1 H2]. apply Z.leb_le in H1, H2.
  unfold chosen, bind. rewrite Hk. unfold lift_value_error, ret, getitem.
  destruct (k - 1 <? 0) eqn:E; [apply Z.ltb_lt in E; lia|]. rewrite E.
  destruct (nth_error items (Z.to_nat (k - 1))) as [x|] eqn:En.
  - exists x. split; [reflexivity|]. eapply nth_error_In, En.
  - exfalso. apply nth_error_None in En. lia.
Qed.

(** X2.  The whole program, on any lines and with any order of the set, ends
    in a value, an exception or the wait for a line: the bound on the
    rounds of its loops is never what stops it. *)
Lemma main_never_out_of_fuel `{SetOrder} folder w : main folder w <> OutOfFuel.
Proof.
  assert (Hi : quietly (init folder)).
  { unfold init. pose proof reading_input_user_info. quietly_tac. }
  unfold main, bind. specialize (Hi w). unfold wp in Hi.
  destruct (init folder w) as [app w1|e w1|w1|]; try discriminate; [|tauto].
  pose proof (wp_main_loop app w1) as Hm. unfold wp in Hm.
  destruct (main_loop app w1); try discriminate. tauto.
Qed.

(** * More on the BMI calculator *)

(** X3.  A height of zero makes [calculate_bmi] divide by zero, whatever the
    weight, a weight of zero too. *)
Theorem calculate_bmi_of_zero_height (weight height_cm : Q) :
  (height_cm == 0)%Q -> calculate_bmi weight height_cm = inl ZeroDivisionError.
Proof.
  intros H. unfold calculate_bmi.
  destruct (Qeq_bool (Qred (height_cm / 100) ^ 2) 0) eqn:E; [reflexivity|].
  exfalso. apply Qeq_bool_neq in E. apply E. rewrite Qred_correct, H. reflexivity.
Qed.

Lemma calculate_bmi_of_zero_height_witness :
  calculate_bmi 80 0 = inl ZeroDivisionError /\
  calculate_bmi 0 0 = inl ZeroDivisionError.
Proof.
  split; apply calculate_bmi_of_zero_height; reflexivity.
Defined.

(** * More on the record store *)

(** X4.  A call with entries that all have a first cell returns; it reads no
    line, prints its one line, leaves every other file as it was, and the
    file of the day is there afterwards with its former rows first: rows
    are added at the end, none is removed or rewritten. *)
Theorem save_fitness_data_only_appends self (data : list (list cell)) (w : world) :
  Forall (fun e => e <> []) data ->
  exists w',
    save_fitness_data self data w = Ok tt w' /\
    stdin w' = stdin w /\
    stdout w' = stdout w ++ [("Data successfully saved to: " ++ log_path self w)%string] /\
    ticks w' = S (ticks w) /\
    (forall path, path <> log_path self w -> files w' !! path = files w !! path) /\
    is_Some (files w' !! log_path self w) /\
    exists more,
      content (files w') (log_path self w) = content (files w) (log_path self w) ++ more /\
      length more =
        (length data + if bool_decide (is_Some (files w !! log_path self w)) then 0 else 1)%nat.
Proof.
  intros Hd. rewrite (save_fitness_data_eq self data w Hd).
  eexists. split; [reflexivity|]. cbn [stdin stdout ticks files].
  repeat split.
  - intros path Hne. now rewrite lookup_insert_ne.
  - rewrite lookup_insert_eq. eauto.
  - eexists. unfold content at 1. rewrite lookup_insert_eq. cbn [default].
    split; [reflexivity|].
    rewrite List.length_app, List.length_map.
    destruct (bool_decide _); simpl; lia.
Qed.

Lemma save_fitness_data_only_appends_witness :
  exists w',
    save_fitness_data example_app
      [[Str "2026-11-03 09:05:07"; Str "Chest"; Str "Bench Press"; Float 60; Int 10; Int 3]]
      (fresh []) = Ok tt w' /\
    stdout w' = ["Data successfully saved to: gym/2026-11-03.csv"] /\
    length (content (files w') "gym/2026-11-03.csv") = 2%nat.
Proof.
  destruct (save_fitness_data_only_appends example_app
              [[Str "2026-11-03 09:05:07"; Str "Chest"; Str "Bench Press";
                Float 60; Int 10; Int 3]] (fresh []))
    as (w' & E & _ & Ho & _ & _ & _ & more & Hc & Hl).
  - repeat constructor. discriminate.
  - exists w'. split; [exact E|]. split; [exact Ho|].
    change (log_path example_app (fresh [])) with "gym/2026-11-03.csv" in Hc.
    rewrite Hc, List.length_app, Hl. reflexivity.
Defined.

(** X5.  With nothing to save, the call still opens the file: a file that was
    not there is created with the header as its only row, and a file
    that was there is left as it was. *)
Theorem save_fitness_data_of_nothing self (w : world) :
  exists w',
    save_fitness_data self [] w = Ok tt w' /\
    files w' =
      match files w !! log_path self w with
      | Some _ => files w
      | None => <[log_path self w := [headers]]> (files w)
      end.
Proof.
  rewrite (save_fitness_data_eq self [] w) by constructor.
  eexists. split; [reflexivity|]. cbn [files]. unfold content.
  destruct (files w !! log_path self w) as [c|] eqn:E.
  - rewrite bool_decide_eq_true_2 by eauto. simpl. rewrite app_nil_r.
    now apply insert_id.
  - rewrite bool_decide_eq_false_2 by (intros [? ?]; discriminate). reflexivity.
Qed.

Lemma for_each_app {X} (l1 l2 : list X) (f : X -> M unit) w :
  for_each (l1 ++ l2) f w = (for_each l1 f ;; for_each l2 f) w.
Proof.
  revert w. induction l1 as [|x l1 IH]; intros w; simpl.
  - reflexivity.
  - unfold bind in *. destruct (f x w) as [[] w1|e w1|w1|]; auto.
Qed.

(** X6.  An entry without cells stops the call with [IndexError] at line 100:
    the header, if the file was new, and the rows of the entries before it
    are in the file by then, nothing of the entries after it, and the line
    that reports success is not printed. *)
Theorem save_fitness_data_of_an_empty_entry self (good rest : list (list cell)) (w : world) :
  Forall (fun e => e <> []) good ->
  save_fitness_data self (good ++ [] :: rest) w =
  Raise IndexError
    (mkWorld (stdin w) (stdout w)
       (<[log_path self w :=
            content (files w) (log_path self w)
            ++ header_if_new (files w) (log_path self w)
            ++ map (profile_row (user_info self)) good]> (files w))
       (clock w) (S (ticks w)) (system w)).
Proof.
  intros Hd. destruct w as [ins out fs clk tk sys].
  unfold save_fitness_data, log_path, log_extension, content, header_if_new. simpl.
  set (path := os_path_join sys (folder_path self) _).
  unfold bind at 1. unfold now at 1. simpl.
  unfold bind at 1. unfold platform_system at 1. simpl. fold path.
  unfold bind at 1. unfold os_path_isfile at 1. simpl.
  unfold bind at 1. unfold open_append at 1. simpl.
  assert (Hrows : forall w1 c, files w1 !! path = Some c ->
    for_each (good ++ [] :: rest)
      (fun entry => r <- data_row (user_info self) entry ;; writerow path r) w1 =
    Raise IndexError
      (mkWorld (stdin w1) (stdout w1)
         (<[path := c ++ map (profile_row (user_info self)) good]> (files w1))
         (clock w1) (ticks w1) (system w1))).
  { intros w1 c Hc. rewrite for_each_app. unfold bind at 1.
    rewrite (write_rows _ _ _ Hd _ c Hc). reflexivity. }
  destruct (fs !! path) as [c|] eqn:Hc.
  - rewrite bool_decide_eq_true_2 by eauto. simpl.
    unfold bind at 1. unfold ret at 1. unfold bind at 1.
    rewrite (Hrows _ c) by exact Hc. reflexivity.
  - rewrite bool_decide_eq_false_2 by (intros [? ?]; discriminate). simpl.
    unfold bind at 1. unfold writerow at 1. simpl. unfold bind at 1.
    rewrite (Hrows _ [headers]).
    + simpl. rewrite lookup_insert_eq. simpl. rewrite !insert_insert_eq. reflexivity.
    + simpl. rewrite lookup_insert_eq. simpl. rewrite lookup_insert_eq. reflexivity.
Qed.

Lemma save_fitness_data_of_an_empty_entry_witness :
  exists w',
    save_fitness_data example_app
      [[Str "2026-11-03 09:05:07"; Str "Chest"; Str "Bench Press"; Float 60; Int 10; Int 3];
       []] (fresh []) = Raise IndexError w' /\
    length (content (files w') "gym/2026-11-03.csv") = 2%nat /\ stdout w' = [].
Proof.
  pose proof (save_fitness_data_of_an_empty_entry example_app
             [[Str "2026-11-03 09:05:07"; Str "Chest"; Str "Bench Press";
               Float 60; Int 10; Int 3]] [] (fresh [])) as E.
  cbn [app] in E. eexists. rewrite E.
  - split; [reflexivity|]. vm_compute. split; reflexivity.
  - repeat constructor. discriminate.
Defined.

(** * One file for each day *)

Lemma append_cons c (s t : string) : (String c s ++ t = String c (s ++ t))%string.
Proof. reflexivity. Qed.

Lemma append_nil (t : string) : ("" ++ t = t)%string.
Proof. reflexivity. Qed.

Lemma append_inv_head (a b1 b2 : string) : (a ++ b1 = a ++ b2)%string -> b1 = b2.
Proof.
  induction a as [|c a IH]; intros H; [exact H|].
  rewrite !append_cons in H. injection H as H. now apply IH.
Qed.

Lemma list_ascii_of_string_append (s t : string) :
  list_ascii_of_string (s ++ t) = list_ascii_of_string s ++ list_ascii_of_string t.
Proof. induction s as [|c s IH]; [reflexivity|]. rewrite append_cons. cbn. now rewrite IH. Qed.

Lemma list_ascii_of_string_inj (s t : string) :
  list_ascii_of_string s = list_ascii_of_string t -> s = t.
Proof.
  intros H. rewrite <- (string_of_list_ascii_of_string s),
    <- (string_of_list_ascii_of_string t). now rewrite H.
Qed.

Lemma append_inv_tail (s1 s2 t : string) : (s1 ++ t = s2 ++ t)%string -> s1 = s2.
Proof.
  intros H. apply list_ascii_of_string_inj.
  apply (f_equal list_ascii_of_string) in H.
  rewrite !list_ascii_of_string_append in H. now apply app_inv_tail in H.
Qed.

(** In one folder and on one platform, [os.path.join] sends different
    file names to different paths. *)
Lemma os_path_join_inj sys a b1 b2 :
  os_path_join sys a b1 = os_path_join sys a b2 -> b1 = b2.
Proof.
  unfold os_path_join. destruct (String.eqb a ""); [auto|].
  destruct (ends_with _ a).
  - apply append_inv_head.
  - intros H. apply append_inv_head in H. now injection H.
Qed.

Lemma no_dash_append s t : no_dash s -> no_dash t -> no_dash (s ++ t).
Proof.
  induction s as [|c s IH]; [auto|]. rewrite append_cons. cbn.
  intros [Hc Hs] Ht. auto.
Qed.

Lemma no_dash_string_of_uint d : no_dash (NilEmpty.string_of_uint d).
Proof. induction d; cbn; auto; split; auto; discriminate. Qed.

Lemma no_dash_two_digits n : no_dash (two_digits n).
Proof.
  unfold two_digits. apply no_dash_append; [|apply no_dash_string_of_uint].
  destruct (Nat.ltb n 10); cbn; repeat split; discriminate.
Qed.

Lemma no_dash_four_digits n : no_dash (four_digits n).
Proof.
  unfold four_digits. apply no_dash_append; [|apply no_dash_string_of_uint].
  destruct (Nat.ltb n 10); [cbn; repeat split; discriminate|].
  destruct (Nat.ltb n 100); [cbn; repeat split; discriminate|].
  destruct (Nat.ltb n 1000); cbn; repeat split; discriminate.
Qed.

(** Two strings without a dash, each followed by one: the dash is found at
    the same place in both. *)
Lemma split_at_dash s1 s2 r1 r2 :
  no_dash s1 -> no_dash s2 ->
  (s1 ++ String "-" r1 = s2 ++ String "-" r2)%string -> s1 = s2 /\ r1 = r2.
Proof.
  revert s2. induction s1 as [|c s1 IH]; intros [|d s2] H1 H2 H;
    rewrite ?append_cons, ?append_nil in H; cbn in *.
  - injection H as H. auto.
  - injection H as Hc _. destruct H2 as [Hd _]. congruence.
  - injection H as Hc _. destruct H1 as [Hd _]. congruence.
  - injection H as Hc H. destruct H1 as [_ H1], H2 as [_ H2].
    destruct (IH s2 H1 H2 H) as [-> ->]. now subst.
Qed.

Lemma nat_of_digits_str_nat n : nat_of_digits (Py.str_nat n) = Some n.
Proof.
  unfold nat_of_digits, Py.str_nat. rewrite NilEmpty.usu. simpl.
  now rewrite DecimalNat.Unsigned.of_to.
Qed.

Lemma nat_of_digits_zero s : nat_of_digits (String "0" s) = nat_of_digits s.
Proof.
  unfold nat_of_digits. cbn.
  destruct (NilEmpty.uint_of_string s) as [d|]; reflexivity.
Qed.

Lemma nat_of_digits_two_digits n : nat_of_digits (two_digits n) = Some n.
Proof.
  unfold two_digits. destruct (Nat.ltb n 10).
  - change ("0" ++ Py.str_nat n)%string with (String "0" (Py.str_nat n)).
    rewrite nat_of_digits_zero. apply nat_of_digits_str_nat.
  - change ("" ++ Py.str_nat n)%string with (Py.str_nat n). apply nat_of_digits_str_nat.
Qed.

Lemma nat_of_digits_four_digits n : nat_of_digits (four_digits n) = Some n.
Proof.
  unfold four_digits.
  destruct (Nat.ltb n 10).
  { change ("000" ++ Py.str_nat n)%string
      with (String "0" (String "0" (String "0" (Py.str_nat n)))).
    rewrite !nat_of_digits_zero. apply nat_of_digits_str_nat. }
  destruct (Nat.ltb n 100).
  { change ("00" ++ Py.str_nat n)%string with (String "0" (String "0" (Py.str_nat n))).
    rewrite !nat_of_digits_zero. apply nat_of_digits_str_nat. }
  destruct (Nat.ltb n 1000).
  { change ("0" ++ Py.str_nat n)%string with (String "0" (Py.str_nat n)).
    rewrite !nat_of_digits_zero. apply nat_of_digits_str_nat. }
  change ("" ++ Py.str_nat n)%string with (Py.str_nat n). apply nat_of_digits_str_nat.
Qed.

(** The date a reading is printed as names its year, month and day. *)
Lemma strftime_date_inj t1 t2 :
  strftime_date t1 = strftime_date t2 <->
  year t1 = year t2 /\ month t1 = month t2 /\ day t1 = day t2.
Proof.
  split.
  - unfold strftime_date. intros H.
    change (four_digits (year t1)
              ++ String "-" (two_digits (month t1) ++ String "-" (two_digits (day t1)))
            = four_digits (year t2)
              ++ String "-" (two_digits (month t2) ++ String "-" (two_digits (day t2))))%string
      in H.
    apply split_at_dash in H as [Hy H]; try apply no_dash_four_digits.
    apply split_at_dash in H as [Hm Hd]; try apply no_dash_two_digits.
    apply (f_equal nat_of_digits) in Hy, Hm, Hd.
    rewrite !nat_of_digits_four_digits in Hy. rewrite !nat_of_digits_two_digits in Hm, Hd.
    injection Hy as Hy. injection Hm as Hm. injection Hd as Hd. auto.
  - intros (Hy & Hm & Hd). unfold strftime_date. now rewrite Hy, Hm, Hd.
Qed.

(** X7.  On one platform, two calls of [save_fitness_data] write to one file
    exactly when the clock shows one year, month and day at both; a call
    on another day leaves the file of the first day as it is. *)
Theorem one_file_per_day self (w1 w2 : world) :
  system w1 = system w2 ->
  (log_path self w1 = log_path self w2 <->
   year (clock w1 (ticks w1)) = year (clock w2 (ticks w2)) /\
   month (clock w1 (ticks w1)) = month (clock w2 (ticks w2)) /\
   day (clock w1 (ticks w1)) = day (clock w2 (ticks w2))) /\
  (forall data w',
     Forall (fun e => e <> []) data ->
     strftime_date (clock w1 (ticks w1)) <> strftime_date (clock w2 (ticks w2)) ->
     save_fitness_data self data w2 = Ok tt w' ->
     files w' !! log_path self w1 = files w2 !! log_path self w1).
Proof.
  intros Hs.
  assert (Hiff : log_path self w1 = log_path self w2 <->
                 strftime_date (clock w1 (ticks w1)) = strftime_date (clock w2 (ticks w2))).
  { unfold log_path. rewrite Hs. split.
    - intros H. apply os_path_join_inj in H. now apply append_inv_tail in H.
    - intros H. now rewrite H. }
  split.
  - rewrite Hiff. apply strftime_date_inj.
  - intros data w' Hd Hne E.
    rewrite (save_fitness_data_eq self data w2 Hd) in E. injection E as <-.
    cbn [files]. apply lookup_insert_ne.
    intros H. apply Hne. now apply Hiff.
Qed.

Lemma one_file_per_day_witness :
  log_path example_app (fresh []) <>
  log_path example_app
    (mkWorld [] [] ∅ (fun _ => mkDatetime 2026 11 4 0 0 1) 0 "Linux").
Proof.
  intros H.
  apply (proj1 (one_file_per_day example_app (fresh [])
                  (mkWorld [] [] ∅ (fun _ => mkDatetime 2026 11 4 0 0 1) 0 "Linux")
                  eq_refl)) in H.
  destruct H as (_ & _ & H). discriminate H.
Defined.

(** * The yes/no prompt *)

Lemma prompt_yes_no_waits message w :
  stdin w = [] ->
  prompt_yes_no message w = Waiting (console [] [(message ++ yes_no_suffix)%string] w).
Proof.
  intros Hw. unfold prompt_yes_no.
  rewrite (while_unfold _ (progress_yes_no_round message)).
  unfold yes_no_round, bind, input. rewrite Hw. reflexivity.
Qed.

Lemma first_answer (ins : list string) :
  Forall (fun l => yes_no_answer l = None) ins \/
  exists pre line rest b,
    ins = pre ++ line :: rest /\
    Forall (fun l => yes_no_answer l = None) pre /\ yes_no_answer line = Some b.
Proof.
  induction ins as [|l ins IH]; [left; constructor|].
  destruct (yes_no_answer l) as [b|] eqn:E.
  - right. exists [], l, ins, b. repeat split; auto.
  - destruct IH as [IH|(pre & line & rest & b & -> & Hp & Hl)].
    + left. now constructor.
    + right. exists (l :: pre), line, rest, b. repeat split; auto.
Qed.

Lemma prompt_yes_no_answered message pre : forall w line rest b,
  stdin w = pre ++ line :: rest ->
  Forall (fun l => yes_no_answer l = None) pre ->
  yes_no_answer line = Some b ->
  prompt_yes_no message w =
  Ok b (console rest (rejected_answers message pre
                      ++ [(message ++ yes_no_suffix)%string]) w).
Proof.
  induction pre as [|l pre IH]; intros w0 line rest b Hw Hp Hl.
  - rewrite (prompt_yes_no_eq message w0 line rest Hw).
    unfold yes_no_answer in Hl.
    destruct (existsb (String.eqb (Py.lower line)) ["yes"; "y"]);
      [now injection Hl as <-|].
    destruct (existsb (String.eqb (Py.lower line)) ["no"; "n"]);
      [now injection Hl as <-|discriminate].
  - inversion Hp as [|? ? Hl0 Hp']; subst.
    rewrite (prompt_yes_no_eq message w0 l (pre ++ line :: rest) Hw).
    unfold yes_no_answer in Hl0.
    destruct (existsb (String.eqb (Py.lower l)) ["yes"; "y"]); [discriminate|].
    destruct (existsb (String.eqb (Py.lower l)) ["no"; "n"]); [discriminate|].
    set (w1 := console (pre ++ line :: rest) _ w0).
    rewrite (IH w1 line rest b eq_refl Hp' Hl). unfold w1.
    rewrite console_console. reflexivity.
Qed.

Lemma prompt_yes_no_unanswered message ins : forall w,
  stdin w = ins -> Forall (fun l => yes_no_answer l = None) ins ->
  prompt_yes_no message w =
  Waiting (console [] (rejected_answers message ins
                       ++ [(message ++ yes_no_suffix)%string]) w).
Proof.
  induction ins as [|l ins IH]; intros w0 Hw Hp.
  - now apply prompt_yes_no_waits.
  - inversion Hp as [|? ? Hl0 Hp']; subst.
    rewrite (prompt_yes_no_eq message w0 l ins Hw).
    unfold yes_no_answer in Hl0.
    destruct (existsb (String.eqb (Py.lower l)) ["yes"; "y"]); [discriminate|].
    destruct (existsb (String.eqb (Py.lower l)) ["no"; "n"]); [discriminate|].
    set (w1 := console ins _ w0).
    rewrite (IH w1 eq_refl Hp'). unfold w1.
    rewrite console_console. reflexivity.
Qed.

Lemma prompt_yes_no_never_raises message w e w' :
  prompt_yes_no message w <> Raise e w'.
Proof.
  intros E.
  destruct (first_answer (stdin w)) as [Hp|(pre & line & rest & b & Hw & Hp & Hl)].
  - rewrite (prompt_yes_no_unanswered message _ w eq_refl Hp) in E. discriminate.
  - rewrite (prompt_yes_no_answered message pre w line rest b Hw Hp Hl) in E.
    discriminate.
Qed.

(** X8.  The prompt returns the answer of the first line that is one of yes, y,
    no and n in any case of letters; each line before it costs the prompt
    and the message of line 113; with no such line the program waits at
    the prompt.  It raises nothing. *)
Theorem prompt_yes_no_takes_the_first_answer (message : string) (w : world) :
  (forall pre line rest b,
     stdin w = pre ++ line :: rest ->
     Forall (fun l => yes_no_answer l = None) pre ->
     yes_no_answer line = Some b ->
     prompt_yes_no message w =
     Ok b (console rest (rejected_answers message pre
                         ++ [(message ++ yes_no_suffix)%string]) w)) /\
  (Forall (fun l => yes_no_answer l = None) (stdin w) ->
     prompt_yes_no message w =
     Waiting (console [] (rejected_answers message (stdin w)
                          ++ [(message ++ yes_no_suffix)%string]) w)) /\
  (forall e w', prompt_yes_no message w <> Raise e w').
Proof.
  split; [|split].
  - intros pre line rest b. apply prompt_yes_no_answered.
  - apply prompt_yes_no_unanswered. reflexivity.
  - intros e w'. apply prompt_yes_no_never_raises.
Qed.

(** A line with a blank before the word is not an answer, nor is "maybe";
    "Y" is. *)
Lemma prompt_yes_no_takes_the_first_answer_witness :
  prompt_yes_no another_exercise (fresh [" yes"; "maybe"; "Y"; "n"]) =
  Ok true
     (console ["n"]
        [(another_exercise ++ yes_no_suffix)%string; invalid_yes_no;
         (another_exercise ++ yes_no_suffix)%string; invalid_yes_no;
         (another_exercise ++ yes_no_suffix)%string]
        (fresh [" yes"; "maybe"; "Y"; "n"])).
Proof.
  apply (proj1 (prompt_yes_no_takes_the_first_answer another_exercise
                  (fresh [" yes"; "maybe"; "Y"; "n"]))
           [" yes"; "maybe"] "Y" ["n"] true eq_refl).
  - repeat constructor.
  - reflexivity.
Defined.

(** * The profile *)

Lemma input_user_info_unfold w :
  input_user_info w =
  match user_info_round tt w with
  | Ok (inl _) w' => input_user_info w'
  | Ok (inr a) w' => Ok a w'
  | Raise e w' => Raise e w'
  | Waiting w' => Waiting w'
  | OutOfFuel => OutOfFuel
  end.
Proof.
  unfold input_user_info.
  rewrite (while_unfold _ progress_user_info_round).
  destruct (user_info_round tt w) as [[[]|a] w'|e w'|w'|]; reflexivity.
Qed.

Section UserInfoRound.

Variable w : world.

Lemma round_height_malformed a rest :
  stdin w = a :: rest -> Py.float a = None ->
  user_info_round tt w = Ok (inl tt) (console rest [height_prompt; invalid_numbers] w).
Proof.
  destruct w; simpl; intros -> Ha.
  unfold user_info_round. run. rewrite Ha. run. tidy. reflexivity.
Qed.

Lemma round_profile_weight_malformed a b rest h :
  stdin w = a :: b :: rest -> Py.float a = Some h -> Py.float b = None ->
  user_info_round tt w =
  Ok (inl tt) (console rest [height_prompt; profile_weight_prompt; invalid_numbers] w).
Proof.
  destruct w; simpl; intros -> Ha Hb.
  unfold user_info_round. run. rewrite Ha. run. rewrite Hb. run. tidy. reflexivity.
Qed.

Lemma round_profile_not_positive a b rest h k :
  stdin w = a :: b :: rest -> Py.float a = Some h -> Py.float b = Some k ->
  Py.ltb 0 h && Py.ltb 0 k = false ->
  user_info_round tt w =
  Ok (inl tt) (console rest [height_prompt; profile_weight_prompt; profile_not_positive] w).
Proof.
  destruct w; simpl; intros -> Ha Hb Hp.
  unfold user_info_round. run. rewrite Ha. run. rewrite Hb. run. rewrite Hp. run.
  tidy. reflexivity.
Qed.

End UserInfoRound.

Lemma reading_user_info_round_with float calc fmt u :
  reading (user_info_round_with float calc fmt u).
Proof. apply reading_try_input; [intros line|]; quietly_tac. Qed.

(** What a round of the loop of [input_user_info] can end in. *)
Lemma user_info_round_with_ends float calc fmt w :
  match user_info_round_with float calc fmt tt w with
  | Ok (inr u) w' =>
      exists a b, stdin w = a :: b :: stdin w' /\
        float a = Some (height_cm u) /\ float b = Some (weight_kg u) /\
        (0 < height_cm u)%Q /\ (0 < weight_kg u)%Q /\
        calc (weight_kg u) (height_cm u) = inr (BMI u, BMI_Category u) /\
        w' = console (stdin w')
               [height_prompt; profile_weight_prompt;
                ("Your BMI is: " ++ fmt (BMI u) ++ " (" ++ BMI_Category u ++ ")")%string] w
  | Ok (inl _) w' => exists pre, stdin w = pre ++ stdin w'
  | Raise e w' =>
      e <> ValueError /\
      exists a b h k, stdin w = a :: b :: stdin w' /\
        float a = Some h /\ float b = Some k /\
        (0 < h)%Q /\ (0 < k)%Q /\ calc k h = inl e
  | Waiting w' => stdin w' = []
  | OutOfFuel => False
  end.
Proof.
  destruct w as [ins out fs clk tk sys].
  unfold user_info_round_with. run.
  destruct ins as [|a ins]; run; [reflexivity|].
  destruct (float a) as [h|] eqn:Ha; run; [|now exists [a]].
  destruct ins as [|b ins]; run; [reflexivity|].
  destruct (float b) as [k|] eqn:Hb; run; [|now exists [a; b]].
  destruct (Py.ltb 0 h && Py.ltb 0 k) eqn:Hp; run; [|now exists [a; b]].
  apply andb_prop in Hp as [Hh Hk]. apply ltb_spec in Hh, Hk.
  destruct (calc k h) as [e|[bmi category]] eqn:Hc; run.
  - destruct e; run;
      try (split; [discriminate|]; exists a, b, h, k; now auto 10).
    now exists [a; b].
  - exists a, b. repeat split; auto. tidy. reflexivity.
Qed.

(** X9.  Whatever [float], [calculate_bmi] and the format [.2f] compute:
    the profile [input_user_info] returns was typed as two lines in a row,
    the last two that were read; height and weight are positive; BMI and
    category are what [calculate_bmi] returned for them; and the line that
    shows them is the last one printed.  A [ValueError] never leaves the
    loop.  Any other exception of [calculate_bmi] on a positive height and
    weight does: it is raised right after the two lines were read, and it
    is the only way the loop raises.  The embedding of [input_user_info]
    is the instance for the built-ins of the embedding. *)
Theorem input_user_info_result (float : string -> option Q)
    (calc : Q -> Q -> exn + (Q * string)) (fmt : Q -> string) (w : world) :
  (forall u w', input_user_info_with float calc fmt w = Ok u w' ->
     exists pre a b,
       stdin w = pre ++ a :: b :: stdin w' /\
       float a = Some (height_cm u) /\ float b = Some (weight_kg u) /\
       (0 < height_cm u)%Q /\ (0 < weight_kg u)%Q /\
       calc (weight_kg u) (height_cm u) = inr (BMI u, BMI_Category u) /\
       exists printed,
         stdout w' = stdout w ++ printed
           ++ [("Your BMI is: " ++ fmt (BMI u) ++ " (" ++ BMI_Category u ++ ")")%string]) /\
  (forall e w', input_user_info_with float calc fmt w = Raise e w' ->
     e <> ValueError /\
     exists pre a b h k,
       stdin w = pre ++ a :: b :: stdin w' /\
       float a = Some h /\ float b = Some k /\
       (0 < h)%Q /\ (0 < k)%Q /\ calc k h = inl e) /\
  (forall a b rest h k e,
     stdin w = a :: b :: rest ->
     float a = Some h -> float b = Some k -> (0 < h)%Q -> (0 < k)%Q ->
     calc k h = inl e -> e <> ValueError ->
     input_user_info_with float calc fmt w =
     Raise e (console rest [height_prompt; profile_weight_prompt] w)) /\
  input_user_info = input_user_info_with Py.float calculate_bmi Py.format_2f.
Proof.
  assert (Hwp : wp (input_user_info_with float calc fmt)
    (fun u w' => exists pre a b,
       stdin w = pre ++ a :: b :: stdin w' /\
       float a = Some (height_cm u) /\ float b = Some (weight_kg u) /\
       (0 < height_cm u)%Q /\ (0 < weight_kg u)%Q /\
       calc (weight_kg u) (height_cm u) = inr (BMI u, BMI_Category u) /\
       exists printed,
         stdout w' = stdout w ++ printed
           ++ [("Your BMI is: " ++ fmt (BMI u) ++ " (" ++ BMI_Category u ++ ")")%string])
    (fun oe w' => forall e, oe = Some e ->
       e <> ValueError /\
       exists pre a b h k,
         stdin w = pre ++ a :: b :: stdin w' /\
         float a = Some h /\ float b = Some k /\
         (0 < h)%Q /\ (0 < k)%Q /\ calc k h = inl e) w).
  { apply (wp_while _ (fun _ w1 => (exists pre, stdin w = pre ++ stdin w1) /\ grown w w1)).
    2: { split; [now exists [] | apply grown_refl]. }
    intros [] w1 [[pre Hpre] [o Ho]].
    pose proof (user_info_round_with_ends float calc fmt w1) as Hr.
    pose proof (reading_user_info_round_with float calc fmt tt w1) as Hq.
    unfold wp in *.
    destruct (user_info_round_with float calc fmt tt w1) as [[[]|u] w2|e w2|w2|]; auto.
    - destruct Hr as [pre' Hr]. destruct Hq as (_ & _ & (_ & Hg) & Hlen).
      split; [split|exact Hlen].
      + exists (pre ++ pre'). rewrite Hpre, Hr. now rewrite app_assoc.
      + eapply grown_trans; [exists o; exact Ho | exact Hg].
    - destruct Hr as (a & b & Hr & Ha & Hb & Hh & Hk & Hc & Hw2).
      exists pre, a, b. rewrite Hpre, Hr. repeat split; auto.
      exists (o ++ [height_prompt; profile_weight_prompt]).
      rewrite Hw2. unfold console. cbn [stdout]. rewrite Ho.
      rewrite <- !app_assoc. reflexivity.
    - intros e' [= <-]. destruct Hr as (Hne & a & b & h & k & Hr & H).
      split; [exact Hne|]. exists pre, a, b, h, k. rewrite Hpre, Hr. auto.
    - discriminate. }
  unfold wp in Hwp. split; [|split; [|split]].
  - intros u w' E. rewrite E in Hwp. exact Hwp.
  - intros e w' E. rewrite E in Hwp. now apply Hwp.
  - intros a b rest h k e Hw Ha Hb Hh Hk Hc Hne.
    unfold input_user_info_with.
    rewrite (while_unfold _ (reading_progress _ (reading_user_info_round_with float calc fmt))).
    assert (Hp : Py.ltb 0 h && Py.ltb 0 k = true).
    { apply andb_true_intro. split; now apply ltb_spec. }
    destruct w as [ins out fs clk tk sys]. simpl in Hw. subst ins.
    unfold user_info_round_with. run. rewrite Ha. run. rewrite Hb. run.
    rewrite Hp, Hc. run. destruct e; try contradiction; run; tidy; reflexivity.
  - reflexivity.
Qed.

(** After the malformed "tall" and the weight 0, the lines 180 and 80 make
    the profile; and a BMI function that divides by zero on them stops the
    loop with that exception. *)
Lemma input_user_info_result_witness :
  (exists u w',
     input_user_info (fresh ["tall"; "180"; "0"; "180"; "80"; "1"]) = Ok u w' /\
     height_cm u = 180%Q /\ weight_kg u = 80%Q /\ stdin w' = ["1"] /\
     (0 < height_cm u)%Q /\ (0 < weight_kg u)%Q) /\
  input_user_info_with Py.float (fun _ _ => inl ZeroDivisionError) Py.format_2f
    (fresh ["180"; "80"; "1"]) =
  Raise ZeroDivisionError
    (console ["1"] [height_prompt; profile_weight_prompt] (fresh ["180"; "80"; "1"])).
Proof.
  split.
  - destruct (input_user_info (fresh ["tall"; "180"; "0"; "180"; "80"; "1"]))
      as [u w'|e w'|w'|] eqn:E; try (vm_compute in E; discriminate E).
    exists u, w'.
    destruct (proj1 (input_user_info_result Py.float calculate_bmi Py.format_2f
                       (fresh ["tall"; "180"; "0"; "180"; "80"; "1"])) u w' E)
      as (pre & a & b & _ & _ & _ & Hh & Hk & _).
    vm_compute in E. injection E as <- <-.
    repeat split; auto; reflexivity.
  - apply (proj1 (proj2 (proj2 (input_user_info_result Py.float
                                  (fun _ _ => inl ZeroDivisionError) Py.format_2f
                                  (fresh ["180"; "80"; "1"]))))
             "180" "80" ["1"] 180%Q 80%Q ZeroDivisionError);
      try reflexivity; discriminate.
Defined.

(** X10.  Height and weight of the profile stand or fall together, as the three
    numbers of an exercise do: after a malformed height the weight is not
    asked for; after a malformed weight, or when one of the two is not
    positive, the loop starts again at the height, in a world that holds
    nothing of what was read. *)
Theorem profile_validated_together (w : world) :
  (forall a rest, stdin w = a :: rest -> Py.float a = None ->
     input_user_info w =
     input_user_info (console rest [height_prompt; invalid_numbers] w)) /\
  (forall a b rest h, stdin w = a :: b :: rest ->
     Py.float a = Some h -> Py.float b = None ->
     input_user_info w =
     input_user_info
       (console rest [height_prompt; profile_weight_prompt; invalid_numbers] w)) /\
  (forall a b rest h k, stdin w = a :: b :: rest ->
     Py.float a = Some h -> Py.float b = Some k ->
     ~ ((0 < h)%Q /\ (0 < k)%Q) ->
     input_user_info w =
     input_user_info
       (console rest [height_prompt; profile_weight_prompt; profile_not_positive] w)).
Proof.
  repeat split.
  - intros a rest Hw Ha. rewrite input_user_info_unfold.
    now rewrite (round_height_malformed w a rest Hw Ha).
  - intros a b rest h Hw Ha Hb. rewrite input_user_info_unfold.
    now rewrite (round_profile_weight_malformed w a b rest h Hw Ha Hb).
  - intros a b rest h k Hw Ha Hb Hn. rewrite input_user_info_unfold.
    rewrite (round_profile_not_positive w a b rest h k Hw Ha Hb); [reflexivity|].
    destruct (Py.ltb 0 h && Py.ltb 0 k) eqn:Hp; [|reflexivity].
    exfalso. apply Hn. apply andb_prop in Hp as [Hh Hk].
    split; now apply ltb_spec.
Qed.

(** A height of 180 typed before the malformed weight "heavy" is dropped:
    the loop asks for the height again. *)
Lemma profile_validated_together_witness :
  input_user_info (fresh ["180"; "heavy"; "175"; "70"]) =
  input_user_info
    (console ["175"; "70"] [height_prompt; profile_weight_prompt; invalid_numbers]
       (fresh ["180"; "heavy"; "175"; "70"])).
Proof.
  apply (proj1 (proj2 (profile_validated_together (fresh ["180"; "heavy"; "175"; "70"])))
           "180" "heavy" ["175"; "70"] 180%Q eq_refl eq_refl eq_refl).
Defined.

(** * The pass over the body parts *)

(** ** What does not read the clock *)

Lemma steady_ret {A} (a : A) : steady (ret a).
Proof. intros w w' [= <-]. reflexivity. Qed.

Lemma steady_raise {A} e : steady (@raise A e).
Proof. intros w w' [= <-]. reflexivity. Qed.

Lemma steady_lift {A} (r : exn + A) : steady (lift r).
Proof. destruct r; [apply steady_raise | apply steady_ret]. Qed.

Lemma steady_lift_value_error {A} (o : option A) : steady (lift_value_error o).
Proof. destruct o; [apply steady_ret | apply steady_raise]. Qed.

Lemma steady_print s : steady (print s).
Proof. intros w w' [= <-]. reflexivity. Qed.

Lemma steady_input p : steady (input p).
Proof. intros w w'. unfold input. destruct (stdin w); intros [= <-]; reflexivity. Qed.

Lemma steady_getitem {X} (l : list X) i : steady (getitem l i).
Proof.
  unfold getitem. destruct (_ <? 0); [apply steady_raise|].
  destruct (nth_error _ _); [apply steady_ret | apply steady_raise].
Qed.

Lemma steady_dict_get {X} (d : list (string * X)) k : steady (dict_get d k).
Proof. unfold dict_get. destruct (assoc d k); [apply steady_ret | apply steady_raise]. Qed.

Lemma steady_bind {A B} (m : M A) (k : A -> M B) :
  steady m -> (forall a, steady (k a)) -> steady (bind m k).
Proof.
  intros Hm Hk w w'. unfold bind. specialize (Hm w).
  destruct (m w) as [a w1|e w1|w1|]; simpl; intros H.
  - rewrite (Hk a w1 w' H). now apply Hm.
  - now apply Hm.
  - now apply Hm.
  - discriminate.
Qed.

Lemma steady_try_except {A} (body handler : M A) e :
  steady body -> steady handler -> steady (try_except body e handler).
Proof.
  intros Hb Hh w w'. unfold try_except. specialize (Hb w).
  destruct (body w) as [a w1|e1 w1|w1|]; simpl; intros H; try now apply Hb.
  destruct (exn_eqb e1 e); [|now apply Hb].
  rewrite (Hh w1 w' H). now apply Hb.
Qed.

Lemma steady_for_each {X} (l : list X) (f : X -> M unit) :
  (forall x, steady (f x)) -> steady (for_each l f).
Proof.
  intros Hf. induction l as [|x l IH]; [apply steady_ret|].
  apply steady_bind; [apply Hf | intros _; exact IH].
Qed.

Lemma steady_loop {St A} (body : St -> M (St + A)) :
  (forall s, steady (body s)) -> forall n s, steady (loop n body s).
Proof.
  intros Hb. induction n as [|n IH]; intros s w w'; [discriminate|].
  rewrite loop_S. specialize (Hb s w).
  destruct (body s w) as [[s1|a] w1|e w1|w1|]; simpl; intros H; try now apply Hb.
  rewrite (IH s1 w1 w' H). now apply Hb.
Qed.

Lemma steady_while {St A} (body : St -> M (St + A)) :
  (forall s, steady (body s)) -> forall s, steady (while_true body s).
Proof. intros Hb s w w'. unfold while_true. now apply steady_loop. Qed.

Ltac steady_step :=
  match goal with
  | |- steady (ret _) => apply steady_ret
  | |- steady (again _) => apply steady_ret
  | |- steady (leave _) => apply steady_ret
  | |- steady (raise _) => apply steady_raise
  | |- steady (lift _) => apply steady_lift
  | |- steady (lift_value_error _) => apply steady_lift_value_error
  | |- steady (print _) => apply steady_print
  | |- steady (input _) => apply steady_input
  | |- steady (getitem _ _) => apply steady_getitem
  | |- steady (dict_get _ _) => apply steady_dict_get
  | |- steady (for_each _ _) => apply steady_for_each; intros ?
  | |- steady (try_except _ _ _) => apply steady_try_except
  | |- steady (bind _ _) => apply steady_bind; [|intros ?]
  | |- steady (while_true _ _) => apply steady_while; intros ?
  | |- steady (if ?b then _ else _) => destruct b
  | |- steady (match ?x with _ => _ end) => destruct x
  | |- steady _ => progress cbv zeta
  end.

Ltac steady_tac := repeat steady_step.

Lemma steady_input_user_info : steady input_user_info.
Proof. unfold input_user_info. steady_tac. unfold user_info_round. steady_tac. Qed.

Lemma steady_prompt_yes_no message : steady (prompt_yes_no message).
Proof. unfold prompt_yes_no. steady_tac. unfold yes_no_round. steady_tac. Qed.

Lemma steady_input_weight_reps_sets : steady input_weight_reps_sets.
Proof.
  unfold input_weight_reps_sets. steady_tac. unfold weight_reps_sets_round. steady_tac.
Qed.

Lemma input_weight_reps_sets_never_raises w e w' :
  input_weight_reps_sets w <> Raise e w'.
Proof.
  assert (Hwp : wp input_weight_reps_sets (fun _ _ => True) (fun oe _ => oe = None) w).
  { apply (wp_while _ (fun _ _ => True)); [|exact I].
    intros [] w1 _.
    pose proof (weight_reps_sets_round_ends w1) as Hr.
    pose proof (reading_weight_reps_sets_round tt w1) as Hq.
    unfold wp in *.
    destruct (weight_reps_sets_round tt w1) as [[[]|[[x r] s]] w2|e0 w2|w2|]; auto.
    - split; [exact I|]. unfold reads in Hq. tauto.
    - destruct Hr. }
  intros E. unfold wp in Hwp. rewrite E in Hwp. discriminate.
Qed.

(** ** A round of the exercise loop *)

Lemma valid_choice_item {X} (items : list X) s :
  valid_choice s (length items) = true ->
  exists k x, Py.int s = Some k /\ 0 <= k - 1 /\
    nth_error items (Z.to_nat (k - 1)) = Some x.
Proof.
  unfold valid_choice. intros H. apply andb_prop in H as [Hd Hr].
  destruct (isdigit_int s Hd) as (k & Hk & _). rewrite Hk in Hr.
  apply andb_prop in Hr as [H1 H2]. apply Z.leb_le in H1, H2.
  destruct (nth_error items (Z.to_nat (k - 1))) as [x|] eqn:En.
  - exists k, x. repeat split; auto. lia.
  - exfalso. apply nth_error_None in En. lia.
Qed.

Lemma exercise_round_waits self part items data w :
  assoc (exercises self) part = Some items -> stdin w = [] ->
  exercise_round self part data w = Waiting (console [] (exercise_menu part items) w).
Proof.
  intros Hi Hw. unfold exercise_round.
  unfold bind at 1. unfold print at 1.
  unfold bind at 1. unfold dict_get. rewrite Hi. unfold ret at 1.
  unfold bind at 1. rewrite for_each_print.
  unfold bind at 1. unfold input at 1. simpl. rewrite Hw.
  unfold console, exercise_menu, numbered. simpl. now rewrite <- !app_assoc.
Qed.

Lemma exercise_round_key_error self part data w :
  assoc (exercises self) part = None ->
  exists w', exercise_round self part data w = Raise KeyError w'.
Proof.
  intros Hi. unfold exercise_round.
  unfold bind at 1. unfold print at 1.
  unfold bind at 1. unfold dict_get. rewrite Hi. unfold raise. eauto.
Qed.

(** What a round of the loop of lines 127-149 can end in.  It goes on with
    the records it had, the clock not read; or it has read the clock once
    and added one record of that reading, for an exercise of the list of
    [part]; or the list of [part] is missing; or it waits for a line. *)
Lemma exercise_round_ends self part data w :
  match exercise_round self part data w with
  | Ok r w' =>
      (r = inl data /\ ticks w' = ticks w) \/
      (exists items exercise x rr s,
         assoc (exercises self) part = Some items /\ List.In exercise items /\
         round_data r =
           data ++ [[Str (strftime_datetime (clock w (ticks w))); Str part;
                     Str exercise; Float x; Int rr; Int s]] /\
         ticks w' = S (ticks w))
  | Raise e _ => e = KeyError /\ assoc (exercises self) part = None
  | Waiting _ => True
  | OutOfFuel => False
  end.
Proof.
  destruct (assoc (exercises self) part) as [items|] eqn:Hi.
  2: { destruct (exercise_round_key_error self part data w Hi) as [w' ->]. auto. }
  destruct (stdin w) as [|line rest] eqn:Hw.
  { now rewrite (exercise_round_waits self part items data w Hi Hw). }
  destruct (valid_choice line (length items)) eqn:Hv.
  2: { rewrite (exercise_round_invalid self part items data w line rest Hi Hw Hv).
       left. split; reflexivity. }
  destruct (valid_choice_item items line Hv) as (k & exercise & Hk & Hpos & Hn).
  rewrite (exercise_round_valid self part items data w line rest k exercise
             Hi Hw Hv Hk Hpos Hn).
  set (w1 := console rest (exercise_menu part items) w).
  unfold record_exercise, bind.
  pose proof (reading_input_weight_reps_sets w1) as Hq.
  pose proof (steady_input_weight_reps_sets w1) as Ht.
  unfold wp in Hq.
  destruct (input_weight_reps_sets w1) as [[[x r] s] w2|e w2|w2|] eqn:E1; auto.
  2: { exfalso. exact (input_weight_reps_sets_never_raises _ _ _ E1). }
  destruct Hq as (_ & Hclk & _). specialize (Ht w2 eq_refl).
  unfold now. cbn [stdin stdout files clock ticks system].
  set (w3 := mkWorld _ _ _ _ (S (ticks w2)) _).
  pose proof (reading_prompt_yes_no another_exercise w3) as Hq3.
  pose proof (steady_prompt_yes_no another_exercise w3) as Ht3.
  unfold wp in Hq3. fold another_exercise.
  destruct (prompt_yes_no another_exercise w3) as [more w4|e w4|w4|] eqn:E3; auto.
  2: { exfalso. exact (prompt_yes_no_never_raises _ _ _ _ E3). }
  specialize (Ht3 w4 eq_refl). unfold w3 in Ht3. cbn [ticks] in Ht3.
  assert (Hts : clock w2 (ticks w2) = clock w (ticks w)).
  { rewrite Hclk, Ht. reflexivity. }
  rewrite Hts.
  assert (Htk : ticks w4 = S (ticks w)) by (rewrite Ht3, Ht; reflexivity).
  destruct more; cbn [negb]; unfold leave, again, ret; cbv beta iota;
    right; exists items, exercise, x, r, s;
    (split; [reflexivity|]); (split; [eapply nth_error_In, Hn|]);
    split; auto.
Qed.

(** ** The records of a pass, the catalogue and the clock *)

Lemma stamped_app clk n a b :
  stamped clk n a -> stamped clk (n + length a) b -> stamped clk n (a ++ b).
Proof.
  revert n. induction a as [|e a IH]; intros n Ha Hb.
  - simpl in *. now rewrite Nat.add_0_r in Hb.
  - destruct Ha as [He Ha]. split; [exact He|]. apply IH; [exact Ha|].
    replace (S n + length a)%nat with (n + length (e :: a))%nat by (simpl; lia).
    exact Hb.
Qed.

Lemma stamped_nth clk n data i entry :
  stamped clk n data -> nth_error data i = Some entry ->
  hd_error entry = Some (Str (strftime_datetime (clk (n + i)%nat))).
Proof.
  revert n i. induction data as [|e data IH]; intros n [|i] Hs Hn;
    try discriminate.
  - injection Hn as <-. rewrite Nat.add_0_r. apply Hs.
  - replace (n + S i)%nat with (S n + i)%nat by lia.
    apply IH; [apply Hs | exact Hn].
Qed.

Lemma collected_refl self w data : collected self w data data w.
Proof.
  split; [reflexivity|]. exists []. rewrite app_nil_r, Nat.add_0_r.
  repeat split; constructor.
Qed.

Lemma collected_trans self w1 w2 w3 d1 d2 d3 :
  collected self w1 d1 d2 w2 -> collected self w2 d2 d3 w3 ->
  collected self w1 d1 d3 w3.
Proof.
  intros (Hc1 & n1 & -> & Ht1 & Hs1 & Hf1) (Hc2 & n2 & -> & Ht2 & Hs2 & Hf2).
  split; [congruence|]. exists (n1 ++ n2). rewrite <- app_assoc.
  split; [reflexivity|]. split; [rewrite Ht2, Ht1, List.length_app; lia|].
  split.
  - apply stamped_app; [exact Hs1|]. rewrite <- Ht1, <- Hc1. exact Hs2.
  - apply Forall_app. now split.
Qed.

Lemma collected_same self w data w' :
  clock w' = clock w -> ticks w' = ticks w -> collected self w data data w'.
Proof.
  intros Hc Ht. split; [exact Hc|]. exists [].
  rewrite app_nil_r, Nat.add_0_r. repeat split; auto; constructor.
Qed.

Lemma collected_record self w data w' part exercise items x r s :
  clock w' = clock w -> ticks w' = S (ticks w) ->
  List.In part (body_parts self) ->
  assoc (exercises self) part = Some items -> List.In exercise items ->
  collected self w data
    (data ++ [[Str (strftime_datetime (clock w (ticks w))); Str part; Str exercise;
               Float x; Int r; Int s]]) w'.
Proof.
  intros Hc Ht Hp Hi He. split; [exact Hc|]. eexists. split; [reflexivity|].
  split; [simpl; lia|]. split; [simpl; auto|].
  constructor; [|constructor].
  now exists (strftime_datetime (clock w (ticks w))), part, exercise, items, x, r, s.
Qed.

(** The loop of lines 127-149 for a body part of the menu: it is left
    only with a record more than it had. *)
Lemma exercise_loop_ends self part data w :
  List.In part (body_parts self) ->
  wp (while_true (exercise_round self part) data)
     (fun d w' => collected self w data d w' /\ d <> [])
     (fun oe _ => forall e, oe = Some e ->
        e = KeyError /\ assoc (exercises self) part = None) w.
Proof.
  intros Hp.
  apply (wp_while _ (fun d1 w1 => collected self w data d1 w1));
    [|apply collected_refl].
  intros d1 w1 Hc.
  pose proof (exercise_round_ends self part d1 w1) as Hr.
  pose proof (reading_exercise_round self part d1 w1) as Hq.
  unfold wp in *.
  destruct (exercise_round self part d1 w1) as [[d2|d2] w2|e w2|w2|]; auto.
  - destruct Hq as (_ & Hclk & _ & Hlen). split; [|exact Hlen].
    destruct Hr as [[[= ->] Ht]|(items & ex & x & r & s & Hi & He & Hd & Ht)].
    + eapply collected_trans; [exact Hc|]. now apply collected_same.
    + simpl in Hd. subst d2. eapply collected_trans; [exact Hc|].
      now apply (collected_record self w1 d1 w2 part ex items).
  - destruct Hq as (_ & Hclk & _).
    destruct Hr as [[[=] _]|(items & ex & x & r & s & Hi & He & Hd & Ht)].
    simpl in Hd. subst d2. split.
    + eapply collected_trans; [exact Hc|].
      now apply (collected_record self w1 d1 w2 part ex items).
    + intros E. now apply app_eq_nil in E as [_ [=]].
  - intros e' [= <-]. exact Hr.
  - discriminate.
Qed.

(** The body of the [for] of lines 124-151 for one token. *)
Lemma select_part_ends self data tok w :
  wp (select_part self data tok)
     (fun d w' =>
        collected self w data d w' /\
        (valid_choice tok (length (body_parts self)) = true -> d <> []))
     (fun oe _ => forall e, oe = Some e ->
        e = KeyError /\
        exists part, List.In part (body_parts self) /\
                     assoc (exercises self) part = None) w.
Proof.
  unfold select_part.
  destruct (valid_choice tok (length (body_parts self))) eqn:Hv.
  - destruct (chosen_after_valid_choice (body_parts self) tok w Hv) as (part & Hch & Hp).
    apply wp_bind. unfold wp at 1. rewrite Hch.
    eapply wp_mono; [apply (exercise_loop_ends self part data w Hp) | |].
    + intros d w' [Hc Hne]. split; auto.
    + intros oe w' Hx e E. destruct (Hx e E) as [-> Hn]. split; [reflexivity|].
      now exists part.
  - unfold wp, bind, print, ret. cbn [stdin stdout files clock ticks system].
    split; [|discriminate]. now apply collected_same.
Qed.

Lemma input_body_parts_and_exercises_waits `{SetOrder} self w :
  stdin w = [] ->
  input_body_parts_and_exercises self w = Waiting (console [] (parts_menu self) w).
Proof.
  intros Hw. unfold input_body_parts_and_exercises.
  unfold bind at 1. unfold print at 1.
  unfold bind at 1. rewrite for_each_print.
  unfold bind at 1. unfold input at 1. simpl. rewrite Hw.
  unfold console, parts_menu, numbered, parts_prompt. simpl.
  now rewrite <- !app_assoc.
Qed.

(** However a pass ends: the records it returns, and the exceptions it
    can raise. *)
Lemma input_body_parts_and_exercises_ends `{SetOrder} self w :
  wp (input_body_parts_and_exercises self)
     (fun d w' => collected self w [] d w')
     (fun oe w' => forall e, oe = Some e ->
        (e = ValueError /\
         exists line rest, stdin w = line :: rest /\
           sorted_key_int (set_iter (Py.split "," line)) = None /\
           w' = console rest (parts_menu self) w) \/
        (e = KeyError /\
         exists part, List.In part (body_parts self) /\
                      assoc (exercises self) part = None)) w.
Proof.
  destruct (stdin w) as [|line rest] eqn:Hw.
  { unfold wp. rewrite (input_body_parts_and_exercises_waits self w Hw). discriminate. }
  unfold wp at 1. rewrite (input_body_parts_and_exercises_eq self w line rest Hw).
  destruct (sorted_key_int (set_iter (Py.split "," line))) as [sel|] eqn:Hs.
  2: { intros e [= <-]. left. split; [reflexivity|]. now exists line, rest. }
  change (wp (for_fold sel (select_part self) [])
            (fun d w' => collected self w [] d w')
            (fun oe w' => forall e, oe = Some e ->
               (e = ValueError /\
                exists line0 rest0, line :: rest = line0 :: rest0 /\
                  sorted_key_int (set_iter (Py.split "," line0)) = None /\
                  w' = console rest0 (parts_menu self) w) \/
               (e = KeyError /\
                exists part, List.In part (body_parts self) /\
                             assoc (exercises self) part = None))
            (console rest (parts_menu self) w)).
  apply (wp_for_fold _ _ (fun d w1 => collected self w [] d w1)).
  2: { now apply collected_same. }
  intros d tok w1 _ Hc.
  eapply wp_mono; [apply select_part_ends | |].
  - intros d' w2 [Hc2 _]. eapply collected_trans; eauto.
  - intros oe w2 Hx e E. right. exact (Hx e E).
Qed.

(** X11.  Every entry a pass returns names a body part of the menu and an
    exercise of the list of that part in [self.exercises]. *)
Theorem records_name_exercises_of_the_catalogue (O : SetOrder) (self : FitnessApp)
    (w : world) :
  forall data w', input_body_parts_and_exercises self w = Ok data w' ->
    Forall (fun entry =>
              exists ts part exercise items x r s,
                entry = [Str ts; Str part; Str exercise; Float x; Int r; Int s] /\
                List.In part (body_parts self) /\
                assoc (exercises self) part = Some items /\
                List.In exercise items) data.
Proof.
  intros data w' E. pose proof (input_body_parts_and_exercises_ends self w) as Hw.
  unfold wp in Hw. rewrite E in Hw.
  destruct Hw as (_ & new & -> & _ & _ & Hf). exact Hf.
Qed.

(** X12.  The clock is read once for each record and at no other time of a
    pass: it was read as often as there are entries, and the entry at
    index [i] starts with the [i]-th of these readings, to the second. *)
Theorem one_clock_reading_per_record (O : SetOrder) (self : FitnessApp) (w : world) :
  forall data w', input_body_parts_and_exercises self w = Ok data w' ->
    clock w' = clock w /\
    ticks w' = (ticks w + length data)%nat /\
    forall i entry, nth_error data i = Some entry ->
      hd_error entry = Some (Str (strftime_datetime (clock w (ticks w + i)%nat))).
Proof.
  intros data w' E. pose proof (input_body_parts_and_exercises_ends self w) as Hw.
  unfold wp in Hw. rewrite E in Hw.
  destruct Hw as (Hc & new & -> & Ht & Hs & _).
  split; [exact Hc|]. split; [exact Ht|].
  intros i entry Hn. eapply stamped_nth; eauto.
Qed.

(** Chest, then two exercises of it: both entries are in the catalogue. *)
Lemma records_name_exercises_of_the_catalogue_witness :
  exists data w',
    input_body_parts_and_exercises example_app
      (fresh ["1"; "9"; "60"; "10"; "3"; "y"; "2"; "40"; "12"; "4"; "n"]) = Ok data w' /\
    length data = 2%nat /\
    Forall (fun entry =>
              exists ts part exercise items x r s,
                entry = [Str ts; Str part; Str exercise; Float x; Int r; Int s] /\
                List.In part (body_parts example_app) /\
                assoc (exercises example_app) part = Some items /\
                List.In exercise items) data.
Proof.
  eassert (E : input_body_parts_and_exercises example_app
                 (fresh ["1"; "9"; "60"; "10"; "3"; "y"; "2"; "40"; "12"; "4"; "n"])
               = Ok _ _) by (vm_compute; reflexivity).
  eexists _, _. split; [exact E|]. split; [reflexivity|].
  exact (records_name_exercises_of_the_catalogue first_seen_order example_app _ _ _ E).
Defined.

(** With a clock that shows one second more at each reading, two records
    hold the seconds 0 and 1, and two readings were taken. *)
Lemma one_clock_reading_per_record_witness :
  exists data w',
    input_body_parts_and_exercises example_app
      (mkWorld ["1"; "9"; "60"; "10"; "3"; "y"; "2"; "40"; "12"; "4"; "n"] [] ∅
         (fun n => mkDatetime 2026 11 3 9 5 n) 0 "Linux") = Ok data w' /\
    ticks w' = 2%nat /\
    map hd_error data =
      [Some (Str "2026-11-03 09:05:00"); Some (Str "2026-11-03 09:05:01")].
Proof.
  eassert (E : input_body_parts_and_exercises example_app
                 (mkWorld ["1"; "9"; "60"; "10"; "3"; "y"; "2"; "40"; "12"; "4"; "n"]
                    [] ∅ (fun n => mkDatetime 2026 11 3 9 5 n) 0 "Linux")
               = Ok _ _) by (vm_compute; reflexivity).
  eexists _, _. split; [exact E|].
  destruct (one_clock_reading_per_record first_seen_order example_app _ _ _ E)
    as (_ & Ht & Hs).
  split; [exact Ht|].
  cbn [map]. rewrite (Hs 0%nat _ eq_refl), (Hs 1%nat _ eq_refl). reflexivity.
Defined.

(** ** A pass that returns nothing *)

Lemma console_nil w : console (stdin w) [] w = w.
Proof. destruct w. unfold console. simpl. now rewrite app_nil_r. Qed.

Lemma for_fold_select_invalid self sel : forall d w,
  Forall (fun t => valid_choice t (length (body_parts self)) = false) sel ->
  for_fold sel (select_part self) d w =
  Ok d (console (stdin w) (map (fun _ => invalid_part) sel) w).
Proof.
  induction sel as [|tok sel IH]; intros d w Hf.
  - cbn [for_fold map]. now rewrite console_nil.
  - inversion Hf as [|? ? Hv Hf']; subst.
    cbn [for_fold]. unfold bind. rewrite (select_part_invalid self d tok w Hv).
    rewrite (IH _ _ Hf'), console_console. reflexivity.
Qed.

Lemma for_fold_select_nothing self sel : forall d w w',
  for_fold sel (select_part self) d w = Ok [] w' ->
  d = [] /\ Forall (fun t => valid_choice t (length (body_parts self)) = false) sel.
Proof.
  induction sel as [|tok sel IH]; intros d w w' E.
  - cbn [for_fold] in E. unfold ret in E. injection E as -> _. split; constructor.
  - cbn [for_fold] in E. unfold bind in E.
    pose proof (select_part_ends self d tok w) as Hs. unfold wp in Hs.
    destruct (select_part self d tok w) as [d1 w1|e1 w1|w1|] eqn:E1; try discriminate.
    destruct (IH d1 w1 w' E) as (-> & Hf). destruct Hs as [_ Hv].
    destruct (valid_choice tok (length (body_parts self))) eqn:Hvc.
    { exfalso. now apply Hv. }
    rewrite (select_part_invalid self d tok w Hvc) in E1. injection E1 as -> _.
    split; [reflexivity|]. now constructor.
Qed.

(** X14.  A pass returns the empty list, the case for which [main_loop] prints
    its failure message, exactly when none of the tokens selected is the
    number of a body part: one valid token is enough for the pass to
    return a record, since the loop of its exercises is left only after a
    record was added.  The pass has then printed the message of line 151
    once for each token selected. *)
Theorem pass_returns_nothing_iff_no_token_is_valid (O : SetOrder) (self : FitnessApp)
    (w : world) (line : string) (rest sel : list string) :
  stdin w = line :: rest ->
  sorted_key_int (set_iter (Py.split "," line)) = Some sel ->
  ((exists w', input_body_parts_and_exercises self w = Ok [] w') <->
   Forall (fun t => valid_choice t (length (body_parts self)) = false) sel) /\
  (Forall (fun t => valid_choice t (length (body_parts self)) = false) sel ->
   input_body_parts_and_exercises self w =
   Ok [] (console rest (parts_menu self ++ map (fun _ => invalid_part) sel) w)).
Proof.
  intros Hw Hs.
  assert (E : input_body_parts_and_exercises self w =
              for_fold sel (select_part self) [] (console rest (parts_menu self) w)).
  { rewrite (input_body_parts_and_exercises_eq self w line rest Hw). now rewrite Hs. }
  assert (Hback : Forall (fun t => valid_choice t (length (body_parts self)) = false) sel ->
            input_body_parts_and_exercises self w =
            Ok [] (console rest (parts_menu self ++ map (fun _ => invalid_part) sel) w)).
  { intros Hf. rewrite E, (for_fold_select_invalid self sel _ _ Hf).
    now rewrite console_console. }
  split; [split|exact Hback].
  - intros [w' E']. rewrite E in E'.
    now destruct (for_fold_select_nothing self sel _ _ _ E').
  - intros Hf. eexists. exact (Hback Hf).
Qed.

(** The tokens 9 and 0 are integers and no numbers of the menu: nothing is
    returned and the message is printed twice. *)
Lemma pass_returns_nothing_iff_no_token_is_valid_witness :
  input_body_parts_and_exercises example_app (fresh ["9,0"; "1"]) =
  Ok [] (console ["1"] (parts_menu example_app ++ [invalid_part; invalid_part])
           (fresh ["9,0"; "1"])).
Proof.
  apply (proj2 (pass_returns_nothing_iff_no_token_is_valid first_seen_order
                  example_app (fresh ["9,0"; "1"]) "9,0" ["1"] ["0"; "9"]
                  eq_refl eq_refl)).
  repeat constructor.
Defined.

(** * The prompts write no file *)

(** X16.  The three functions that talk to the user write no file: however they
    end, the files, the clock and the platform are as they were, and what
    was printed before is still there.  The profile and the yes/no prompt
    do not even read the clock. *)
Theorem prompts_write_no_file (O : SetOrder) (self : FitnessApp) (message : string)
    (w : world) :
  (forall w', end_world (input_user_info w) = Some w' ->
     quiet w w' /\ ticks w' = ticks w) /\
  (forall w', end_world (prompt_yes_no message w) = Some w' ->
     quiet w w' /\ ticks w' = ticks w) /\
  (forall w', end_world (input_body_parts_and_exercises self w) = Some w' ->
     quiet w w').
Proof.
  assert (H : forall A (m : M A), reading m ->
            forall w', end_world (m w) = Some w' -> quiet w w').
  { intros A m Hm w' E. specialize (Hm w). unfold wp in Hm.
    destruct (m w); simpl in E; try discriminate; injection E as <-;
      eauto using reads_quiet. }
  split; [|split].
  - intros w' E. split; [exact (H _ _ reading_input_user_info w' E)|].
    exact (steady_input_user_info w w' E).
  - intros w' E. split; [exact (H _ _ (reading_prompt_yes_no message) w' E)|].
    exact (steady_prompt_yes_no message w w' E).
  - intros w' E. exact (H _ _ (reading_input_body_parts_and_exercises self) w' E).
Qed.

Lemma prompts_write_no_file_witness :
  exists w',
    end_world (prompt_yes_no another_set (fresh ["what"; "no"; "1"])) = Some w' /\
    files w' = files (fresh ["what"; "no"; "1"]) /\ ticks w' = 0%nat.
Proof.
  eassert (E : end_world (prompt_yes_no another_set (fresh ["what"; "no"; "1"]))
               = Some _) by (vm_compute; reflexivity).
  eexists. split; [exact E|].
  destruct (proj1 (proj2 (prompts_write_no_file first_seen_order example_app
                            another_set (fresh ["what"; "no"; "1"]))) _ E)
    as [(Hf & _) Ht].
  split; [exact Hf | exact Ht].
Defined.

(** * The order of the records *)

Lemma exercise_loop_block self part data w :
  wp (while_true (exercise_round self part) data)
     (fun d _ => exists block, d = data ++ block /\ block <> [] /\
        Forall (fun e => nth_error e 1 = Some (Str part)) block)
     (fun _ _ => True) w.
Proof.
  apply (wp_while _ (fun d1 _ => exists block, d1 = data ++ block /\
           Forall (fun e => nth_error e 1 = Some (Str part)) block)).
  2: { exists []. rewrite app_nil_r. split; [reflexivity | constructor]. }
  intros d1 w1 (block & -> & Hb).
  pose proof (exercise_round_ends self part (data ++ block) w1) as Hr.
  pose proof (reading_exercise_round self part (data ++ block) w1) as Hq.
  unfold wp in *.
  destruct (exercise_round self part (data ++ block) w1) as [[d2|d2] w2|e w2|w2|]; auto.
  - destruct Hq as (_ & _ & _ & Hlen). split; [|exact Hlen].
    destruct Hr as [[[= ->] _]|(items & ex & x & r & s & _ & _ & Hd & _)].
    + now exists block.
    + simpl in Hd. subst d2. eexists (block ++ [_]). rewrite app_assoc.
      split; [reflexivity|]. apply Forall_app. split; [exact Hb|].
      constructor; [reflexivity | constructor].
  - destruct Hr as [[[=] _]|(items & ex & x & r & s & _ & _ & Hd & _)].
    simpl in Hd. subst d2. eexists (block ++ [_]). rewrite app_assoc.
    split; [reflexivity|]. split.
    + intros E. now apply app_eq_nil in E as [_ [=]].
    + apply Forall_app. split; [exact Hb|]. constructor; [reflexivity | constructor].
Qed.

Lemma select_part_block self data tok w :
  wp (select_part self data tok)
     (fun d _ => exists block, d = data ++ block /\ block_of self tok block)
     (fun _ _ => True) w.
Proof.
  unfold select_part, block_of, part_of_token.
  destruct (valid_choice tok (length (body_parts self))) eqn:Hv.
  - destruct (valid_choice_item (body_parts self) tok Hv) as (k & part & Hk & Hpos & Hn).
    rewrite Hk, Hn. apply wp_bind. unfold wp at 1.
    unfold chosen, bind. rewrite Hk. unfold lift_value_error, ret at 1, getitem.
    destruct (k - 1 <? 0) eqn:E; [apply Z.ltb_lt in E; lia|]. rewrite E, Hn.
    unfold ret. apply exercise_loop_block.
  - unfold wp, bind, print, ret. exists []. now rewrite app_nil_r.
Qed.

Lemma for_fold_select_blocks self sel : forall d w,
  wp (for_fold sel (select_part self) d)
     (fun d' _ => exists blocks, d' = d ++ concat blocks /\
        Forall2 (block_of self) sel blocks)
     (fun _ _ => True) w.
Proof.
  induction sel as [|tok sel IH]; intros d w.
  - unfold wp. cbn [for_fold]. unfold ret. exists []. rewrite app_nil_r.
    split; [reflexivity | constructor].
  - cbn [for_fold]. apply wp_bind.
    eapply wp_mono; [apply select_part_block | | auto].
    intros d1 w1 (block & -> & Hb).
    eapply wp_mono; [apply IH | | auto].
    intros d2 w2 (blocks & -> & Hbs). exists (block :: blocks).
    cbn [concat]. rewrite app_assoc. split; [reflexivity|]. now constructor.
Qed.

(** X17.  The records of a pass come in the order of the selected tokens, which
    is the order [sorted] gave them: they are, token by token, the records
    of the body part of that token, at least one for a token that selects
    a body part and none for one that does not. *)
Theorem records_follow_the_selection (O : SetOrder) (self : FitnessApp) (w : world)
    (line : string) (rest sel : list string) :
  stdin w = line :: rest ->
  sorted_key_int (set_iter (Py.split "," line)) = Some sel ->
  forall data w', input_body_parts_and_exercises self w = Ok data w' ->
    exists blocks, data = concat blocks /\ Forall2 (block_of self) sel blocks.
Proof.
  intros Hw Hs data w' E.
  rewrite (input_body_parts_and_exercises_eq self w line rest Hw), Hs in E.
  pose proof (for_fold_select_blocks self sel [] (console rest (parts_menu self) w)) as H.
  unfold wp in H. rewrite E in H. exact H.
Qed.

(** Legs is typed before Chest and 7 is no body part: the record of Chest
    comes first, 7 gives nothing, the record of Legs comes last. *)
Lemma records_follow_the_selection_witness :
  exists data w',
    input_body_parts_and_exercises example_app
      (fresh ["5,7,1"; "9"; "60"; "10"; "3"; "n"; "1"; "100"; "8"; "4"; "n"]) = Ok data w' /\
    map (fun e => nth_error e 1) data = [Some (Str "Chest"); Some (Str "Legs")].
Proof.
  eassert (E : input_body_parts_and_exercises example_app
                 (fresh ["5,7,1"; "9"; "60"; "10"; "3"; "n"; "1"; "100"; "8"; "4"; "n"])
               = Ok _ _) by (vm_compute; reflexivity).
  eexists _, _. split; [exact E|].
  destruct (records_follow_the_selection first_seen_order example_app
              (fresh ["5,7,1"; "9"; "60"; "10"; "3"; "n"; "1"; "100"; "8"; "4"; "n"])
              "5,7,1" ["9"; "60"; "10"; "3"; "n"; "1"; "100"; "8"; "4"; "n"]
              ["1"; "5"; "7"] eq_refl eq_refl _ _ E) as (blocks & Hd & Hb).
  reflexivity.
Defined.

(** * The log folder *)

Lemma ensure_folder_exists_path sys above documents_path d :
  fst (ensure_folder_exists sys above documents_path d) =
  os_path_join sys documents_path "Gym Progress".
Proof.
  unfold ensure_folder_exists. now destruct (negb _).
Qed.

(** X18.  The folder is there after [ensure_folder_exists]; nothing that was on
    the disk is gone; the message of line 67 is printed exactly when the
    folder was not there; and a second call finds the folder, returns the
    same path and changes nothing. *)
Theorem ensure_folder_exists_once (sys : string)
    (above : gset string -> string -> list string) (documents_path : string)
    (d : disk) :
  let folder_path := os_path_join sys documents_path "Gym Progress" in
  let d1 := snd (ensure_folder_exists sys above documents_path d) in
  fst (ensure_folder_exists sys above documents_path d) = folder_path /\
  folder_path ∈ paths d1 /\
  paths d ⊆ paths d1 /\
  printed d1 =
    printed d ++ (if bool_decide (folder_path ∈ paths d) then []
                  else [("Successfully created directory: " ++ folder_path)%string]) /\
  ensure_folder_exists sys above documents_path d1 = (folder_path, d1).
Proof.
  intros folder_path d1. subst d1. unfold ensure_folder_exists, os_path_exists.
  fold folder_path.
  destruct (bool_decide (folder_path ∈ paths d)) eqn:E; cbn [negb fst snd].
  - apply bool_decide_eq_true_1 in E. rewrite app_nil_r.
    repeat split; auto. now rewrite bool_decide_eq_true_2.
  - cbn [paths printed os_makedirs].
    assert (Hin : folder_path ∈ ({[folder_path]} ∪ list_to_set (above (paths d) folder_path)
                                 ∪ paths d : gset string)).
    { apply elem_of_union_l, elem_of_union_l, elem_of_singleton. reflexivity. }
    split; [reflexivity|]. split; [exact Hin|].
    split; [apply union_subseteq_r|]. split; [reflexivity|].
    now rewrite bool_decide_eq_true_2.
Qed.

Lemma ends_with_append seps a c b :
  ends_with seps (a ++ String c b) = ends_with seps (String c b).
Proof.
  unfold ends_with. rewrite list_ascii_of_string_append.
  rewrite rev_app_distr.
  destruct (rev (list_ascii_of_string (String c b))) as [|x l] eqn:E; [|reflexivity].
  exfalso. apply (f_equal (@length ascii)) in E. rewrite length_rev in E.
  discriminate E.
Qed.

Lemma os_path_join_plain sys a b :
  a <> "" -> ends_with (separators sys) a = false ->
  os_path_join sys a b = (a ++ String (separator sys) b)%string.
Proof.
  intros Ha He. unfold os_path_join, separators, separator in *.
  destruct (String.eqb a "") eqn:E; [apply String.eqb_eq in E; contradiction|].
  destruct (String.eqb sys "Windows"); now rewrite He.
Qed.

Lemma append_append (a b c : string) : ((a ++ b) ++ c = a ++ (b ++ c))%string.
Proof.
  induction a as [|x a IH]; [reflexivity|].
  rewrite !append_cons. now rewrite IH.
Qed.

Lemma append_not_empty a c b : (a ++ String c b)%string <> "".
Proof. destruct a; discriminate. Qed.

(** X19.  From a home directory that is not empty and ends neither in a
    separator nor in the colon of a drive, the folder is [Gym Progress] in
    [Documents] in the home directory, and the log of a day is the file of
    that date in it. *)
Theorem log_file_is_in_gym_progress (sys home : string)
    (above : gset string -> string -> list string) (d : disk)
    (self : FitnessApp) (w : world) :
  home <> "" -> ends_with (":"%char :: separators sys) home = false ->
  folder_path self =
    fst (ensure_folder_exists sys above (get_documents_path sys home) d) ->
  system w = sys ->
  folder_path self =
    (home ++ String (separator sys) "Documents"
          ++ String (separator sys) "Gym Progress")%string /\
  log_path self w =
    (folder_path self
       ++ String (separator sys)
            (strftime_date (clock w (ticks w)) ++ "." ++ log_extension sys))%string.
Proof.
  intros Hh He Hf Hs.
  assert (He' : ends_with (separators sys) home = false).
  { unfold ends_with in *. destruct (rev (list_ascii_of_string home)); [reflexivity|].
    cbn [existsb] in He. now apply orb_false_elim in He as [_ He]. }
  assert (Hdoc : get_documents_path sys home
                 = (home ++ String (separator sys) "Documents")%string).
  { apply os_path_join_plain; assumption. }
  assert (Hfolder : folder_path self =
            (home ++ String (separator sys) "Documents"
                  ++ String (separator sys) "Gym Progress")%string).
  { rewrite Hf, ensure_folder_exists_path, Hdoc, os_path_join_plain.
    - rewrite append_append, append_cons. reflexivity.
    - apply append_not_empty.
    - rewrite ends_with_append. unfold separators.
      destruct (String.eqb sys "Windows"); reflexivity. }
  split; [exact Hfolder|].
  unfold log_path. rewrite Hs. apply os_path_join_plain.
  - rewrite Hfolder. apply append_not_empty.
  - rewrite Hfolder, <- append_append, ends_with_append. unfold separators.
    destruct (String.eqb sys "Windows"); reflexivity.
Qed.

Lemma log_file_is_in_gym_progress_witness :
  log_path (mkFitnessApp "/home/ana/Documents/Gym Progress" (user_info example_app)
              the_body_parts the_exercises) (fresh []) =
  "/home/ana/Documents/Gym Progress/2026-11-03.csv".
Proof.
  apply (proj2 (log_file_is_in_gym_progress "Linux" "/home/ana" (fun _ _ => [])
                  (mkDisk ∅ [])
                  (mkFitnessApp "/home/ana/Documents/Gym Progress"
                     (user_info example_app) the_body_parts the_exercises)
                  (fresh []) ltac:(discriminate) eq_refl eq_refl eq_refl)).
Defined.

(** * The pass and the top-level loop, whatever the built-ins *)


Section WithBuiltins.

Context `{B : Builtins}.

Lemma quietly_valid_choice_with s n : quietly (valid_choice_with s n).
Proof. unfold valid_choice_with. quietly_tac. Qed.

Lemma quietly_chosen_with {X} (items : list X) s : quietly (chosen_with items s).
Proof. unfold chosen_with. quietly_tac. Qed.

Lemma reading_weight_reps_sets_round_with u : reading (weight_reps_sets_round_with u).
Proof. apply reading_try_input; [intros line|]; quietly_tac. Qed.

Lemma reading_input_weight_reps_sets_with : reading input_weight_reps_sets_with.
Proof. apply reading_while, reading_weight_reps_sets_round_with. Qed.

Lemma reading_exercise_round_with self part data :
  reading (exercise_round_with self part data).
Proof.
  unfold exercise_round_with.
  do 3 (apply reading_bind_r; [quietly_tac | intros ?]).
  apply reading_bind_l; [apply reading_input | intros line].
  pose proof reading_input_weight_reps_sets_with.
  pose proof reading_prompt_yes_no.
  pose proof (@quietly_chosen_with string).
  pose proof quietly_valid_choice_with.
  apply quietly_bind; [auto | intros valid].
  quietly_tac; auto.
Qed.

Lemma quietly_select_part_with self data part_index :
  quietly (select_part_with self data part_index).
Proof.
  unfold select_part_with. pose proof (@quietly_chosen_with string).
  apply quietly_bind; [apply quietly_valid_choice_with | intros valid].
  quietly_tac; auto.
  apply reading_quietly, reading_while. intros s. apply reading_exercise_round_with.
Qed.

Lemma reading_input_body_parts_and_exercises_with `{SetOrder} self :
  reading (input_body_parts_and_exercises_with self).
Proof.
  unfold input_body_parts_and_exercises_with.
  do 2 (apply reading_bind_r; [quietly_tac | intros ?]).
  apply reading_bind_l; [apply reading_input | intros line].
  quietly_tac. apply quietly_select_part_with.
Qed.

(** The loop of weight, reps and sets catches what [float] and [int]
    raise: it raises nothing. *)
Lemma weight_reps_sets_round_with_calm w :
  match weight_reps_sets_round_with tt w with
  | Raise _ _ => False
  | _ => True
  end.
Proof.
  destruct w as [ins out fs clk tk sys].
  unfold weight_reps_sets_round_with. run.
  destruct ins as [|a ins]; run; [exact I|].
  destruct (b_float a) as [x|]; run; [|exact I].
  destruct ins as [|b ins]; run; [exact I|].
  destruct (b_int b) as [r|]; run; [|exact I].
  destruct ins as [|c ins]; run; [exact I|].
  destruct (b_int c) as [s|]; run; [|exact I].
  destruct (Py.ltb 0 x && (0 <? r) && (0 <? s)); run; exact I.
Qed.

Lemma input_weight_reps_sets_with_never_raises w e w' :
  input_weight_reps_sets_with w <> Raise e w'.
Proof.
  assert (Hwp : wp input_weight_reps_sets_with (fun _ _ => True)
                  (fun oe _ => oe = None) w).
  { apply (wp_while _ (fun _ _ => True)); [|exact I].
    intros [] w1 _.
    pose proof (weight_reps_sets_round_with_calm w1) as Hr.
    pose proof (reading_weight_reps_sets_round_with tt w1) as Hq.
    unfold wp in *.
    destruct (weight_reps_sets_round_with tt w1) as [[[]|t] w2|e0 w2|w2|]; auto.
    - split; [exact I|]. unfold reads in Hq. tauto.
    - destruct Hr. }
  intros E. unfold wp in Hwp. rewrite E in Hwp. discriminate.
Qed.

(** The tokens [sorted] returns are tokens [int] accepts. *)
Lemma keyed_with_accepted l kl :
  keyed_with l = Some kl -> Forall (fun ks => b_int (snd ks) = Some (fst ks)) kl.
Proof.
  revert kl. induction l as [|s l IH]; simpl; intros kl E.
  - injection E as <-. constructor.
  - destruct (b_int s) as [k|] eqn:Hs; [|discriminate].
    destruct (keyed_with l) as [r|]; [|discriminate].
    injection E as <-. constructor; [exact Hs | now apply IH].
Qed.

Lemma sorted_key_int_with_accepted l sel :
  sorted_key_int_with l = Some sel -> Forall (fun s => b_int s <> None) sel.
Proof.
  unfold sorted_key_int_with. destruct (keyed_with l) as [kl|] eqn:E; [|discriminate].
  intros [= <-]. apply List.Forall_map.
  pose proof (keyed_with_accepted l kl E) as Hk.
  rewrite List.Forall_forall in *. intros ks Hin.
  apply (Permutation_in _ (sort_perm kl)) in Hin.
  rewrite (Hk ks Hin). discriminate.
Qed.

(** The test of lines 125 and 132, case by case. *)
Lemma valid_choice_with_cases s n w :
  (b_isdigit s = true /\ b_int s = None /\
   valid_choice_with s n w = Raise ValueError w) \/
  (exists v, valid_choice_with s n w = Ok v w /\
     (v = true -> exists k, b_int s = Some k /\ 1 <= k <= Z.of_nat n)).
Proof.
  unfold valid_choice_with. destruct (b_isdigit s) eqn:Hd.
  - destruct (b_int s) as [k|] eqn:Hk.
    + right. eexists. split; [reflexivity|]. intros Hv.
      apply andb_prop in Hv as [H1 H2]. apply Z.leb_le in H1, H2. eauto.
    + left. auto.
  - right. exists false. split; [reflexivity | discriminate].
Qed.

Lemma chosen_with_in_range {X} (items : list X) s k w :
  b_int s = Some k -> 1 <= k <= Z.of_nat (length items) ->
  exists x, chosen_with items s w = Ok x w /\ List.In x items.
Proof.
  intros Hk Hr. unfold chosen_with, bind. rewrite Hk.
  unfold lift_value_error, ret, getitem.
  destruct (k - 1 <? 0) eqn:E; [apply Z.ltb_lt in E; lia|]. rewrite E.
  destruct (nth_error items (Z.to_nat (k - 1))) as [x|] eqn:En.
  - exists x. split; [reflexivity|]. eapply nth_error_In, En.
  - exfalso. apply nth_error_None in En. lia.
Qed.

(** What a round of the loop of lines 127-149 can end in: the records it
    had, or one more; a leave only with one more; [KeyError] when the
    body part has no list; [ValueError] when the exercise number is a
    string that [isdigit] accepts and [int] rejects, the menu of the
    exercises being the last that was printed. *)
Lemma exercise_round_with_ends self part data w :
  wp (exercise_round_with self part data)
     (fun r _ =>
        (r = inl data \/ exists entry, entry <> [] /\ round_data r = data ++ [entry]))
     (fun oe w' => forall e, oe = Some e ->
        (e = KeyError /\ assoc (exercises self) part = None) \/
        (e = ValueError /\
         exists line items out,
           b_isdigit line = true /\ b_int line = None /\
           assoc (exercises self) part = Some items /\
           stdout w' = out ++ exercise_menu part items)) w.
Proof.
  unfold wp, exercise_round_with.
  unfold bind at 1. unfold print at 1.
  unfold bind at 1. unfold dict_get.
  destruct (assoc (exercises self) part) as [items|] eqn:Hi.
  2: { unfold raise. intros e [= <-]. left. auto. }
  unfold ret at 1.
  unfold bind at 1. rewrite for_each_print.
  unfold bind at 1. unfold input at 1.
  cbn [stdin stdout files clock ticks system console].
  destruct (stdin w) as [|line rest] eqn:Hw; [discriminate|].
  set (w1 := mkWorld rest _ _ _ _ _).
  assert (Hout : stdout w1 = stdout w ++ exercise_menu part items).
  { unfold w1, exercise_menu, numbered. cbn [stdout]. now rewrite <- !app_assoc. }
  unfold bind at 1.
  destruct (valid_choice_with_cases line (length items) w1)
    as [(Hd & Hn & ->)|(v & -> & Hv)].
  { intros e [= <-]. right. split; [reflexivity|].
    exists line, items, (stdout w). auto. }
  destruct v; [|unfold again, ret; now left].
  destruct (Hv eq_refl) as (k & Hk & Hr).
  destruct (chosen_with_in_range items line k w1 Hk Hr) as (exercise & Hch & _).
  unfold bind at 1. rewrite Hch.
  unfold bind at 1.
  destruct (input_weight_reps_sets_with w1) as [[[x r] s] w2|e w2|w2|] eqn:E1.
  2: { exfalso. exact (input_weight_reps_sets_with_never_raises _ _ _ E1). }
  3: { pose proof (reading_input_weight_reps_sets_with w1) as Hq. unfold wp in Hq.
       now rewrite E1 in Hq. }
  2: { discriminate. }
  unfold bind at 1. unfold now at 1.
  unfold bind at 1.
  match goal with
  | |- context [prompt_yes_no ?m ?w3] =>
      pose proof (reading_prompt_yes_no m w3) as Hq3; unfold wp in Hq3;
      destruct (prompt_yes_no m w3) as [more w4|e w4|w4|] eqn:E3
  end.
  - destruct more; cbn [negb]; unfold leave, again, ret;
      right; eexists; (split; [|reflexivity]); discriminate.
  - exfalso. exact (prompt_yes_no_never_raises _ _ _ _ E3).
  - discriminate.
  - exact Hq3.
Qed.

End WithBuiltins.

Section WithBuiltinsAndOrder.

Context `{B : Builtins} `{O : SetOrder}.

Lemma wp_reading {A} (m : M A) Q X w :
  reading m -> wp m Q X w ->
  wp m (fun a w' => Q a w' /\ (length (stdin w') < length (stdin w))%nat) X w.
Proof.
  intros Hr Hw. specialize (Hr w). unfold wp in *.
  destruct (m w); auto. split; [exact Hw|]. unfold reads in Hr. tauto.
Qed.

Lemma select_part_with_ends self data tok w :
  b_int tok <> None -> Forall (fun e => e <> []) data ->
  wp (select_part_with self data tok)
     (fun d _ => Forall (fun e => e <> []) d)
     (fun oe w' => forall e, oe = Some e -> raised_in_a_round self e w') w.
Proof.
  intros Htok Hd. unfold select_part_with. apply wp_bind. unfold wp at 1.
  destruct (valid_choice_with_cases tok (length (body_parts self)) w)
    as [(_ & Hn & _)|(v & -> & Hv)]; [contradiction|].
  destruct v.
  - destruct (Hv eq_refl) as (k & Hk & Hr).
    destruct (chosen_with_in_range (body_parts self) tok k w Hk Hr) as (part & Hch & Hp).
    apply wp_bind. unfold wp at 1. rewrite Hch.
    apply (wp_while _ (fun d _ => Forall (fun e => e <> []) d)); [|exact Hd].
    intros d w1 Hd1.
    eapply wp_mono;
      [apply wp_reading;
         [apply reading_exercise_round_with | apply exercise_round_with_ends] | |].
    + intros [d'|d'] w2 [Hr2 Hlen].
      * split; [|exact Hlen].
        destruct Hr2 as [[= ->]|(entry & Hne & Hr2)]; [exact Hd1|].
        simpl in Hr2. subst d'. apply Forall_app. split; [exact Hd1|].
        now constructor.
      * destruct Hr2 as [[=]|(entry & Hne & Hr2)].
        simpl in Hr2. subst d'. apply Forall_app. split; [exact Hd1|].
        now constructor.
    + intros oe w2 Hx e E.
      destruct (Hx e E) as [[-> Hn]|(-> & line & items & out & H1 & H2 & H3 & H4)].
      * left. split; [reflexivity|]. now exists part.
      * right. split; [reflexivity|]. now exists line, part, items, out.
  - unfold wp, bind, print, ret. exact Hd.
Qed.

Lemma input_body_parts_and_exercises_with_eq self w line rest :
  stdin w = line :: rest ->
  input_body_parts_and_exercises_with self w =
  match sorted_key_int_with (set_iter (Py.split "," line)) with
  | Some selected_parts =>
      for_fold selected_parts (select_part_with self) [] (console rest (parts_menu self) w)
  | None => Raise ValueError (console rest (parts_menu self) w)
  end.
Proof.
  intros Hw. unfold input_body_parts_and_exercises_with.
  unfold bind at 1. unfold print at 1.
  unfold bind at 1. rewrite for_each_print.
  unfold bind at 1. unfold input at 1. simpl. rewrite Hw.
  unfold bind at 1.
  assert (E : forall ins,
    mkWorld ins
      ((stdout w ++ ["--- Select Body Parts You Trained ---"]) ++
        map (fun ip => (Py.str_nat (fst ip) ++ ". " ++ snd ip)%string)
          (enumerate 1 (body_parts self)) ++ [parts_prompt])
      (files w) (clock w) (ticks w) (system w)
    = console ins (parts_menu self) w).
  { intros ins. unfold console, parts_menu, numbered. simpl.
    now rewrite <- !app_assoc. }
  unfold parts_prompt in E. rewrite <- app_assoc, E.
  destruct (sorted_key_int_with _); reflexivity.
Qed.

Lemma input_body_parts_and_exercises_with_waits self w :
  stdin w = [] ->
  input_body_parts_and_exercises_with self w = Waiting (console [] (parts_menu self) w).
Proof.
  intros Hw. unfold input_body_parts_and_exercises_with.
  unfold bind at 1. unfold print at 1.
  unfold bind at 1. rewrite for_each_print.
  unfold bind at 1. unfold input at 1. simpl. rewrite Hw.
  unfold console, parts_menu, numbered, parts_prompt. simpl.
  now rewrite <- !app_assoc.
Qed.

Lemma input_body_parts_and_exercises_with_ends self w :
  wp (input_body_parts_and_exercises_with self)
     (fun d _ => Forall (fun e => e <> []) d)
     (fun oe w' => forall e, oe = Some e ->
        (e = ValueError /\
         exists line rest, stdin w = line :: rest /\
           sorted_key_int_with (set_iter (Py.split "," line)) = None /\
           w' = console rest (parts_menu self) w) \/
        raised_in_a_round self e w') w.
Proof.
  destruct (stdin w) as [|line rest] eqn:Hw.
  { unfold wp. rewrite (input_body_parts_and_exercises_with_waits self w Hw).
    discriminate. }
  unfold wp at 1. rewrite (input_body_parts_and_exercises_with_eq self w line rest Hw).
  destruct (sorted_key_int_with (set_iter (Py.split "," line))) as [sel|] eqn:Hs.
  2: { intros e [= <-]. left. split; [reflexivity|]. now exists line, rest. }
  pose proof (sorted_key_int_with_accepted _ _ Hs) as Hacc.
  rewrite List.Forall_forall in Hacc.
  change (wp (for_fold sel (select_part_with self) [])
            (fun d _ => Forall (fun e => e <> []) d)
            (fun oe w' => forall e, oe = Some e ->
               (e = ValueError /\
                exists line0 rest0, line :: rest = line0 :: rest0 /\
                  sorted_key_int_with (set_iter (Py.split "," line0)) = None /\
                  w' = console rest0 (parts_menu self) w) \/
               raised_in_a_round self e w')
            (console rest (parts_menu self) w)).
  apply (wp_for_fold _ _ (fun d _ => Forall (fun e => e <> []) d)); [|constructor].
  intros d tok w1 Hin Hd.
  eapply wp_mono; [apply (select_part_with_ends self d tok w1 (Hacc tok Hin) Hd) | |].
  - auto.
  - intros oe w2 Hx e E. right. exact (Hx e E).
Qed.

(** The line-132 test does raise when [isdigit] accepts what [int]
    rejects. *)
Lemma exercise_round_with_value_error self part items data w line rest :
  assoc (exercises self) part = Some items ->
  stdin w = line :: rest ->
  b_isdigit line = true -> b_int line = None ->
  exercise_round_with self part data w =
  Raise ValueError (console rest (exercise_menu part items) w).
Proof.
  intros Hi Hw Hd Hn. unfold exercise_round_with.
  unfold bind at 1. unfold print at 1.
  unfold bind at 1. unfold dict_get. rewrite Hi. unfold ret at 1.
  unfold bind at 1. rewrite for_each_print.
  unfold bind at 1. unfold input at 1.
  cbn [stdin stdout files clock ticks system console]. rewrite Hw.
  unfold bind at 1. unfold valid_choice_with. rewrite Hd.
  unfold bind at 1. rewrite Hn. unfold lift_value_error, raise.
  unfold console, exercise_menu, numbered. simpl. now rewrite <- !app_assoc.
Qed.

Lemma main_round_with_ends self w :
  Forall (fun part => assoc (exercises self) part <> None) (body_parts self) ->
  wp (main_round_with self tt)
     (fun r w' =>
        match r with
        | inl _ => (length (stdin w') < length (stdin w))%nat
        | inr _ => True
        end)
     (fun oe _ => forall e, oe = Some e -> e <> KeyError /\ e <> IndexError) w.
Proof.
  intros Hcat. unfold main_round_with. apply wp_bind.
  eapply wp_mono;
    [apply wp_reading;
       [apply reading_input_body_parts_and_exercises_with
       | apply input_body_parts_and_exercises_with_ends] | |].
  - intros data w1 [Hd Hlen]. destruct data as [|entry data].
    + unfold wp, bind, print, again, ret. simpl. exact Hlen.
    + apply wp_bind. unfold wp at 1. rewrite (save_fitness_data_eq self _ w1 Hd).
      apply wp_bind.
      match goal with
      | |- wp (prompt_yes_no ?m) _ _ ?w2 =>
          pose proof (reading_prompt_yes_no m w2) as Hq;
          pose proof (prompt_yes_no_never_raises m w2) as Hn;
          unfold wp in *;
          destruct (prompt_yes_no m w2) as [another w3|e3 w3|w3|]
      end.
      * destruct another; cbn [negb]; unfold leave, again, ret; [|exact I].
        destruct Hq as (_ & _ & _ & Hlen3). simpl in Hlen3. lia.
      * exfalso. exact (Hn e3 w3 eq_refl).
      * discriminate.
      * exact Hq.
  - intros oe w1 Hx e E.
    destruct (Hx e E) as [[-> _]|[(-> & part & Hp & Hn)|[-> _]]];
      try (split; discriminate).
    exfalso. rewrite List.Forall_forall in Hcat. exact (Hcat part Hp Hn).
Qed.

End WithBuiltinsAndOrder.

(** ** The instance of the embedding *)

Lemma bind_ext {A C} (m : M A) (k1 k2 : A -> M C) w :
  (forall a w', k1 a w' = k2 a w') -> bind m k1 w = bind m k2 w.
Proof. intros H. unfold bind. destruct (m w); auto. Qed.

Lemma loop_ext {St A} (body1 body2 : St -> M (St + A)) :
  (forall s w, body1 s w = body2 s w) ->
  forall n s w, loop n body1 s w = loop n body2 s w.
Proof.
  intros H. induction n as [|n IH]; intros s w; [reflexivity|].
  rewrite !loop_S, H. destruct (body2 s w) as [[s'|a] w'|e w'|w'|]; auto.
Qed.

Lemma while_ext {St A} (body1 body2 : St -> M (St + A)) s w :
  (forall s w, body1 s w = body2 s w) ->
  while_true body1 s w = while_true body2 s w.
Proof. intros H. unfold while_true. now apply loop_ext. Qed.

Lemma for_fold_ext {X St} (l : list X) (f1 f2 : St -> X -> M St) :
  (forall s x w, f1 s x w = f2 s x w) ->
  forall s w, for_fold l f1 s w = for_fold l f2 s w.
Proof.
  intros H. induction l as [|x l IH]; intros s w; [reflexivity|].
  cbn [for_fold]. unfold bind. rewrite H. destruct (f2 s x w); auto.
Qed.

(** On ASCII strings [int] accepts what [isdigit] accepts: the test
    raises nothing and is the boolean [valid_choice]. *)
Lemma valid_choice_with_ascii s n w :
  @valid_choice_with ascii_builtins s n w = Ok (valid_choice s n) w.
Proof.
  unfold valid_choice_with, valid_choice. cbn [b_isdigit b_int ascii_builtins].
  destruct (Py.isdigit s) eqn:Hd; [|reflexivity].
  destruct (isdigit_int s Hd) as (k & Hk & _). rewrite Hk. reflexivity.
Qed.

Lemma exercise_round_with_ascii self part data w :
  @exercise_round_with ascii_builtins self part data w = exercise_round self part data w.
Proof.
  unfold exercise_round_with, exercise_round.
  apply bind_ext. intros _ w1. apply bind_ext. intros items w2.
  apply bind_ext. intros _ w3. apply bind_ext. intros ex_choice w4.
  unfold bind at 1. rewrite valid_choice_with_ascii. reflexivity.
Qed.

Lemma select_part_with_ascii self data tok w :
  @select_part_with ascii_builtins self data tok w = select_part self data tok w.
Proof.
  unfold select_part_with, select_part.
  unfold bind at 1. rewrite valid_choice_with_ascii.
  destruct (valid_choice tok (length (body_parts self))); [|reflexivity].
  apply bind_ext. intros part w1. apply while_ext.
  intros d w2. apply exercise_round_with_ascii.
Qed.

Lemma sorted_key_int_with_ascii l :
  @sorted_key_int_with ascii_builtins l = sorted_key_int l.
Proof.
  unfold sorted_key_int_with, sorted_key_int.
  assert (E : @keyed_with ascii_builtins l = keyed l).
  { induction l as [|s l IH]; [reflexivity|].
    cbn [keyed_with keyed]. rewrite IH. reflexivity. }
  now rewrite E.
Qed.

Lemma input_body_parts_and_exercises_with_ascii `{SetOrder} self w :
  @input_body_parts_and_exercises_with ascii_builtins _ self w =
  input_body_parts_and_exercises self w.
Proof.
  unfold input_body_parts_and_exercises_with, input_body_parts_and_exercises.
  apply bind_ext. intros _ w1. apply bind_ext. intros _ w2.
  apply bind_ext. intros line w3. rewrite sorted_key_int_with_ascii.
  apply bind_ext. intros sel w4.
  apply for_fold_ext. intros d tok w5. apply select_part_with_ascii.
Qed.

Lemma main_loop_with_ascii `{SetOrder} self w :
  @main_loop_with ascii_builtins _ self w = main_loop self w.
Proof.
  unfold main_loop_with, main_loop. apply while_ext. intros [] w1.
  unfold main_round_with, main_round. unfold bind at 1 3.
  rewrite input_body_parts_and_exercises_with_ascii. reflexivity.
Qed.

(** X13.  Whatever [str.isdigit] and [int] compute, a pass raises only
    where [int] does and where a list of exercises is missing:
    [ValueError] from [sorted], right after the line of body parts was
    read and before any token is looked at; [ValueError] from the test of
    line 132, on an exercise number that [isdigit] accepts and [int]
    rejects, the menu of the exercises being the last that was printed;
    [KeyError] for a body part of the menu that has no list in
    [self.exercises].  The test of line 125 raises nothing, since [sorted]
    has called [int] on its token before, and no index is out of range.
    The exception of line 132 is raised whenever there is such an
    exercise number.  On the built-ins of the embedding, where [int]
    accepts what [isdigit] accepts, this pass is the pass of the
    embedding. *)
Theorem pass_raises_only_where_int_does (B : Builtins) (O : SetOrder)
    (self : FitnessApp) (w : world) :
  (forall e w', input_body_parts_and_exercises_with self w = Raise e w' ->
     (e = ValueError /\
      exists line rest, stdin w = line :: rest /\
        sorted_key_int_with (set_iter (Py.split "," line)) = None /\
        w' = console rest (parts_menu self) w) \/
     (e = ValueError /\
      exists line part items out,
        b_isdigit line = true /\ b_int line = None /\
        List.In part (body_parts self) /\
        assoc (exercises self) part = Some items /\
        stdout w' = out ++ exercise_menu part items) \/
     (e = KeyError /\
      exists part, List.In part (body_parts self) /\
                   assoc (exercises self) part = None)) /\
  (forall part items data line rest,
     assoc (exercises self) part = Some items ->
     stdin w = line :: rest ->
     b_isdigit line = true -> b_int line = None ->
     exercise_round_with self part data w =
     Raise ValueError (console rest (exercise_menu part items) w)) /\
  @input_body_parts_and_exercises_with ascii_builtins O self w =
    input_body_parts_and_exercises self w.
Proof.
  split; [|split].
  - intros e w' E.
    pose proof (input_body_parts_and_exercises_with_ends self w) as Hw.
    unfold wp in Hw. rewrite E in Hw.
    destruct (Hw e eq_refl) as [H|[H|H]]; auto.
  - intros part items data line rest. apply exercise_round_with_value_error.
  - apply input_body_parts_and_exercises_with_ascii.
Qed.

(** Chest is selected, and the exercise number is the superscript two:
    with an [isdigit] that accepts it the pass stops with [ValueError];
    the empty line of body parts stops it at [sorted]. *)
Lemma pass_raises_only_where_int_does_witness :
  (exists w',
     @input_body_parts_and_exercises_with superscript_builtins first_seen_order
       example_app (fresh ["1"; "²"; "60"]) = Raise ValueError w' /\
     stdin w' = ["60"]) /\
  (exists w',
     @input_body_parts_and_exercises_with ascii_builtins first_seen_order
       example_app (fresh [""; "1"]) = Raise ValueError w' /\
     stdin w' = ["1"]).
Proof.
  split.
  - eassert (E : @input_body_parts_and_exercises_with superscript_builtins
                   first_seen_order example_app (fresh ["1"; "²"; "60"])
                 = Raise _ _) by (vm_compute; reflexivity).
    destruct (proj1 (pass_raises_only_where_int_does superscript_builtins
                       first_seen_order example_app (fresh ["1"; "²"; "60"])) _ _ E)
      as [(He & _)|[(He & _)|(He & _)]]; try discriminate He.
    + eexists. split; [exact E | reflexivity].
    + eexists. split; [exact E | reflexivity].
  - eassert (E : @input_body_parts_and_exercises_with ascii_builtins
                   first_seen_order example_app (fresh [""; "1"])
                 = Raise _ _) by (vm_compute; reflexivity).
    destruct (proj1 (pass_raises_only_where_int_does ascii_builtins
                       first_seen_order example_app (fresh [""; "1"])) _ _ E)
      as [(He & _)|[(He & _)|(He & _)]]; try discriminate He.
    + eexists. split; [exact E | reflexivity].
    + eexists. split; [exact E | reflexivity].
Defined.

(** X15.  The catalogue of the program gives every body part of its menu
    a list of exercises.  With such a catalogue no lookup of the running
    tracker fails, whatever [str.isdigit], [int] and [float] compute: the
    top-level loop never ends with [KeyError] or [IndexError], neither
    from [self.body_parts], [self.exercises] and the lists in it, which
    the tests of lines 125 and 132 guard, nor from [entry[0]] in
    [save_fitness_data].  On the built-ins of the embedding this loop is
    the top-level loop of the embedding. *)
Theorem tracker_lookups_never_fail (B : Builtins) (O : SetOrder) (self : FitnessApp)
    (w : world) :
  (forall folder w0 app w1, init folder w0 = Ok app w1 ->
     Forall (fun part => assoc (exercises app) part <> None) (body_parts app)) /\
  (Forall (fun part => assoc (exercises self) part <> None) (body_parts self) ->
   forall e w', main_loop_with self w = Raise e w' ->
     e <> KeyError /\ e <> IndexError) /\
  @main_loop_with ascii_builtins O self w = main_loop self w.
Proof.
  split; [|split]; [| |apply main_loop_with_ascii].
  - intros folder w0 app w1 E. unfold init, bind in E. unfold print at 1 in E.
    match type of E with
    | context [input_user_info ?w2] =>
        destruct (input_user_info w2) as [u w3|e w3|w3|]; try discriminate
    end.
    unfold ret in E. injection E as <- _. cbn [exercises body_parts].
    repeat constructor; discriminate.
  - intros Hcat e w' E.
    assert (Hwp : wp (main_loop_with self) (fun _ _ => True)
      (fun oe _ => forall e, oe = Some e -> e <> KeyError /\ e <> IndexError) w).
    { apply (wp_while _ (fun _ _ => True)); [|exact I].
      intros [] w0 _.
      eapply wp_mono; [apply (main_round_with_ends self w0 Hcat) | |]; [|auto].
      intros [[]|[]] w2 H; [split; [exact I | exact H] | exact I]. }
    unfold wp in Hwp. rewrite E in Hwp. now apply Hwp.
Qed.

(** A pass is saved and answered with yes; the next line of body parts is
    empty: the loop ends with [ValueError], not with a failed lookup. *)
Lemma tracker_lookups_never_fail_witness :
  exists e w',
    @main_loop_with ascii_builtins first_seen_order example_app
      (fresh ["1"; "1"; "60"; "10"; "3"; "n"; "y"; ""; "1"]) = Raise e w' /\
    e <> KeyError /\ e <> IndexError.
Proof.
  eassert (E : @main_loop_with ascii_builtins first_seen_order example_app
                 (fresh ["1"; "1"; "60"; "10"; "3"; "n"; "y"; ""; "1"])
               = Raise _ _) by (vm_compute; reflexivity).
  eexists _, _. split; [exact E|].
  refine (proj1 (proj2 (tracker_lookups_never_fail ascii_builtins first_seen_order
                          example_app _)) _ _ _ E).
  repeat constructor; discriminate.
Defined.
